(** * forge-patterns: test quality validator and test creation framework

    A shallow embedding of [src/patterns/testing/test_quality_validator.py]
    and [src/patterns/testing/test_creation_framework.py], and the
    properties of their specification checked against it; then further
    properties of the two modules and of the parts of
    [src/patterns/monitoring/shared_logger.py] that compute without input
    or output.

    Conventions of the embedding:
    - Python [str] is [string] (one character per byte; the texts are taken
      to be ASCII), [int] is [Z];
    - a [float] is an exact rational [Q]: the finite values, without the
      rounding of the operations; infinities and NaN are outside the
      embedding, so a statement that quantifies over weights, thresholds or
      scores speaks of the finite ones;
    - the interpreter has its default settings (in particular the limit of
      4300 digits that Python 3.11 and later put on the conversion of an
      [int] to a string) and its recursion limit is not reached;
    - the tree built by [ast.parse] is an inductive type that keeps the
      node kinds, fields and attributes the two modules read (Python 3.9 or
      later, where a subscript's slice is an expression and every parsed
      statement has [end_lineno]);
    - an attribute that a node class does not have raises [AttributeError],
      as in Python;
    - exceptions are values of [exn]; code that can raise lives in [result],
      and code that mutates the [metrics]/[issues] objects while it may
      raise lives in the monad [M], whose state survives a raise. *)

From Stdlib Require Import String Ascii List ZArith QArith Bool Lia Arith.
From Stdlib Require Import Qround Qabs.
Import ListNotations.

Local Open Scope string_scope.
Local Open Scope Z_scope.
Set Warnings "-register-all".

(** ** Python strings *)

Module PyStr.

Definition nl : string := String "010"%char EmptyString.
Definition dq : string := String "034"%char EmptyString.
Definition dq3 : string := dq ++ dq ++ dq.

(** [s.startswith(p)] *)
Definition startswith (s p : string) : bool := String.prefix p s.

(** [sub in s] *)
Fixpoint str_in (sub s : string) : bool :=
  if String.prefix sub s then true
  else match s with
       | EmptyString => false
       | String _ s' => str_in sub s'
       end.

Definition is_upper (c : ascii) : bool :=
  let n := nat_of_ascii c in (65 <=? n)%nat && (n <=? 90)%nat.

Definition is_lower (c : ascii) : bool :=
  let n := nat_of_ascii c in (97 <=? n)%nat && (n <=? 122)%nat.

Definition is_alpha (c : ascii) : bool := is_upper c || is_lower c.

Definition lower_char (c : ascii) : ascii :=
  if is_upper c then ascii_of_nat (nat_of_ascii c + 32) else c.

Definition upper_char (c : ascii) : ascii :=
  if is_lower c then ascii_of_nat (nat_of_ascii c - 32) else c.

(** [s.lower()] *)
Fixpoint lower (s : string) : string :=
  match s with
  | EmptyString => EmptyString
  | String c s' => String (lower_char c) (lower s')
  end.

(** [s.isupper()]: at least one cased character and no lower-case one. *)
Fixpoint isupper_from (seen : bool) (s : string) : bool :=
  match s with
  | EmptyString => seen
  | String c s' =>
      if is_lower c then false else isupper_from (seen || is_upper c) s'
  end.

Definition isupper (s : string) : bool := isupper_from false s.

(** [s.title()]: a letter that follows a non-letter is upper-cased, any other
    letter is lower-cased. *)
Fixpoint title_from (prev_alpha : bool) (s : string) : string :=
  match s with
  | EmptyString => EmptyString
  | String c s' =>
      String (if prev_alpha then lower_char c else upper_char c)
             (title_from (is_alpha c) s')
  end.

Definition title (s : string) : string := title_from false s.

(** [s.count(sub)]: occurrences that do not overlap, scanning from the left.
    [skip] is the number of characters still covered by the last match. *)
Fixpoint count_from (sub : string) (skip : nat) (s : string) : Z :=
  match s with
  | EmptyString => 0
  | String _ s' =>
      match skip with
      | S k => count_from sub k s'
      | O => if String.prefix sub s
             then 1 + count_from sub (String.length sub - 1) s'
             else count_from sub 0 s'
      end
  end.

Definition count (s sub : string) : Z :=
  match sub with
  | EmptyString => Z.of_nat (String.length s) + 1
  | _ => count_from sub 0 s
  end.

Definition is_space (c : ascii) : bool :=
  let n := nat_of_ascii c in
  ((9 <=? n)%nat && (n <=? 13)%nat) || ((28 <=? n)%nat && (n <=? 32)%nat).

(** [s.lstrip()] *)
Fixpoint lstrip (s : string) : string :=
  match s with
  | EmptyString => EmptyString
  | String c s' => if is_space c then lstrip s' else s
  end.

(** [s.rstrip()] *)
Fixpoint rstrip (s : string) : string :=
  match s with
  | EmptyString => EmptyString
  | String c s' =>
      match rstrip s' with
      | EmptyString => if is_space c then EmptyString else String c EmptyString
      | r => String c r
      end
  end.

(** [s.strip()] *)
Definition strip (s : string) : string := rstrip (lstrip s).

(** [len(s)] *)
Definition len (s : string) : Z := Z.of_nat (String.length s).

(** [sep.join(l)] *)
Definition join (sep : string) (l : list string) : string := String.concat sep l.

Definition digit (n : Z) : string :=
  String (ascii_of_nat (48 + Z.to_nat n)) EmptyString.

Fixpoint digits (fuel : nat) (n : Z) (acc : string) : string :=
  match fuel with
  | O => acc
  | S k => if n <? 10 then digit n ++ acc
           else digits k (n / 10) (digit (n mod 10) ++ acc)
  end.

(** [str(n)] for an [int]. *)
Definition str_int (n : Z) : string :=
  let a := Z.abs n in
  let d := digits (S (Z.to_nat (Z.log2 a))) a EmptyString in
  if n <? 0 then "-" ++ d else d.

(** [format(q, '.1f')]: one digit after the point, ties to even. *)
Definition format_1f (q : Q) : string :=
  let a := (Qabs q * 10)%Q in
  let fl := Qfloor a in
  let twice := Qcompare (2 * (a - inject_Z fl))%Q 1%Q in
  let t := match twice with
           | Lt => fl
           | Gt => fl + 1
           | Eq => if Z.even fl then fl else fl + 1
           end in
  let body := str_int (t / 10) ++ "." ++ digit (t mod 10) in
  if Qlt_le_dec q 0%Q then "-" ++ body else body.

(** [s.split(sep)] on one separator character. *)
Fixpoint split_on (sep : ascii) (s : string) : list string :=
  match s with
  | EmptyString => [EmptyString]
  | String c s' =>
      if Ascii.eqb c sep then EmptyString :: split_on sep s'
      else match split_on sep s' with
           | [] => [String c EmptyString]
           | w :: ws => String c w :: ws
           end
  end.

(** [s[n:]] *)
Fixpoint drop (n : nat) (s : string) : string :=
  match n, s with
  | O, _ => s
  | _, EmptyString => EmptyString
  | S k, String _ s' => drop k s'
  end.

(** [s[:n]] *)
Fixpoint take (n : nat) (s : string) : string :=
  match n, s with
  | O, _ => EmptyString
  | _, EmptyString => EmptyString
  | S k, String c s' => String c (take k s')
  end.

(** [s.rfind('.')] *)
Fixpoint rfind_dot (s : string) : option nat :=
  match s with
  | EmptyString => None
  | String c s' =>
      match rfind_dot s' with
      | Some i => Some (S i)
      | None => if Ascii.eqb c "."%char then Some O else None
      end
  end.

Fixpoint spaces (n : nat) : string :=
  match n with
  | O => EmptyString
  | S k => String " "%char (spaces k)
  end.

(** [s.expandtabs()]: tab stops every 8 columns; [col] is the column modulo 8. *)
Fixpoint expandtabs_from (col : nat) (s : string) : string :=
  match s with
  | EmptyString => EmptyString
  | String c s' =>
      if Ascii.eqb c "009"%char
      then spaces (8 - col) ++ expandtabs_from 0 s'
      else if Ascii.eqb c "010"%char || Ascii.eqb c "013"%char
      then String c (expandtabs_from 0 s')
      else String c (expandtabs_from (Nat.modulo (S col) 8) s')
  end.

Definition expandtabs (s : string) : string := expandtabs_from 0 s.

Definition hex_digit (n : nat) : ascii :=
  if (n <? 10)%nat then ascii_of_nat (48 + n) else ascii_of_nat (87 + n).

(** [repr(s)] for a [str] of ASCII characters: single quotes unless the text
    has a single quote and no double quote; backslash, the quote and control
    characters are escaped. *)
Fixpoint repr_body (quote : ascii) (s : string) : string :=
  match s with
  | EmptyString => EmptyString
  | String c s' =>
      let n := nat_of_ascii c in
      (if Ascii.eqb c "\"%char || Ascii.eqb c quote then String "\"%char (String c EmptyString)
       else if Ascii.eqb c "010"%char then "\n"
       else if Ascii.eqb c "013"%char then "\r"
       else if Ascii.eqb c "009"%char then "\t"
       else if (n <? 32)%nat || (n =? 127)%nat
       then "\x" ++ String (hex_digit (Nat.div n 16)) (String (hex_digit (Nat.modulo n 16)) EmptyString)
       else String c EmptyString)
      ++ repr_body quote s'
  end.

Definition repr_str (s : string) : string :=
  let quote := if str_in "'" s && negb (str_in dq s) then "034"%char else "'"%char in
  String quote (repr_body quote s ++ String quote EmptyString).

(** [inspect.cleandoc(doc)] *)
Definition indent_of (line : string) : option nat :=
  let content := String.length (lstrip line) in
  if (content =? 0)%nat then None else Some (String.length line - content)%nat.

Definition min_margin (lines : list string) : option nat :=
  fold_left (fun margin line =>
               match indent_of line, margin with
               | Some i, Some m => Some (Nat.min m i)
               | Some i, None => Some i
               | None, _ => margin
               end) lines None.

Fixpoint drop_blank (lines : list string) : list string :=
  match lines with
  | EmptyString :: r => drop_blank r
  | _ => lines
  end.

Definition cleandoc (doc : string) : string :=
  match split_on "010"%char (expandtabs doc) with
  | [] => EmptyString
  | first :: rest =>
      let rest' := match min_margin rest with
                   | Some margin => map (drop margin) rest
                   | None => rest
                   end in
      let lines := lstrip first :: rest' in
      let lines := rev (drop_blank (rev lines)) in
      join nl (drop_blank lines)
  end.

End PyStr.

(** ** Exceptions *)

(** The exception classes that the code raises or handles by name, and
    [OtherError] for an exception of any other class, with its message. A
    subclass that is only handled through its base class stands for the
    base class ([UnicodeDecodeError] is a [ValueError]). *)
Inductive exn : Type :=
| SyntaxError (msg : string)
| OSError (msg : string)
| AttributeError (cls attr : string)
| UnboundLocalError (var : string)
| ValueError (msg : string)
| ZeroDivisionError
| OtherError (cls msg : string).

(** [str(e)] *)
Definition str_exn (e : exn) : string :=
  match e with
  | SyntaxError msg => msg
  | OSError msg => msg
  | AttributeError cls attr =>
      "'" ++ cls ++ "' object has no attribute '" ++ attr ++ "'"
  | UnboundLocalError var =>
      "cannot access local variable '" ++ var
      ++ "' where it is not associated with a value"
  | ValueError msg => msg
  | ZeroDivisionError => "division by zero"
  | OtherError _ msg => msg
  end.

Inductive result (A : Type) : Type :=
| Ok (a : A)
| Raise (e : exn).

Arguments Ok {A} a.
Arguments Raise {A} e.

Definition rbind {A B} (r : result A) (k : A -> result B) : result B :=
  match r with
  | Ok a => k a
  | Raise e => Raise e
  end.

(** [for x in l: acc = body(x, acc)] where the body may raise. *)
Fixpoint rfold {A B} (body : A -> B -> result B) (l : list A) (acc : B)
  : result B :=
  match l with
  | [] => Ok acc
  | x :: r => rbind (body x acc) (rfold body r)
  end.

(** Python's true division [a / b]. *)
Definition py_div (a b : Q) : result Q :=
  if Qeq_bool b 0 then Raise ZeroDivisionError else Ok (a / b)%Q.

(** ** The part of Python's [ast] the two modules read *)

Module PyAst.

(** The value of an [ast.Constant]. Floats, complex numbers and bytes keep the
    text that [str] and [repr] give for them. *)
Inductive constant : Type :=
| CNone
| CBool (b : bool)
| CInt (n : Z)
| CStr (s : string)
| CEllipsis
| CNum (text : string)
| CBytes (text : string).

(** Expressions. [Call] keeps only [func]; every node class the code does not
    test for (Tuple, BinOp, List, ...) is [OtherExpr]. *)
Inductive expr : Type :=
| Name (id : string)
| Attribute (value : expr) (attr : string)
| Subscript (value : expr) (slice : expr)
| Constant (value : constant)
| Call (func : expr)
| OtherExpr.

(** [ast.arg]; of [ast.arguments] only the list [args] is read. *)
Record arg : Type := { arg_name : string; annotation : option expr }.

Record alias : Type := { alias_name : string; asname : option string }.

(** Statements, with the fields and attributes that are read. [segment] is
    what the expression
    [ast.get_source_segment(open(file_path).read(), node)] of the quality
    analyzer evaluates to for the function: the text of the function, [None],
    or the exception it raises, when the file cannot be opened, read or
    decoded (in the default encoding of the platform) once more, or the
    segment cannot be cut out of what was read.
    [Block] is any other node that holds statements (If, For, While, With,
    Try, an except handler, AsyncFunctionDef, ...), with its child statement
    nodes in the order of [ast.iter_child_nodes]; with no children it is any
    other simple statement. *)
Inductive stmt : Type :=
| FunctionDef (name : string) (args : list arg) (body : list stmt)
    (decorator_list : list expr) (returns : option expr)
    (lineno end_lineno : Z) (segment : result (option string))
| ClassDef (name : string) (bases : list expr) (body : list stmt)
    (decorator_list : list expr)
| Assign (targets : list expr) (value : expr)
| Assert (test : expr)
| Import (names : list alias)
| ImportFrom (module : option string) (names : list alias)
| Expr (value : expr)
| Block (children : list stmt).

(** [ast.Module] *)
Record Module_ : Type := { mod_body : list stmt }.

(** A [FunctionDef] node seen through its fields. *)
Record FunctionDefNode : Type := {
  fd_name : string;
  fd_args : list arg;
  fd_body : list stmt;
  fd_decorator_list : list expr;
  fd_returns : option expr;
  fd_lineno : Z;
  fd_end_lineno : Z;
  fd_segment : result (option string)
}.

Definition node_of (f : FunctionDefNode) : stmt :=
  FunctionDef (fd_name f) (fd_args f) (fd_body f) (fd_decorator_list f)
    (fd_returns f) (fd_lineno f) (fd_end_lineno f) (fd_segment f).

(** [isinstance(node, ast.FunctionDef)] *)
Definition as_FunctionDef (s : stmt) : option FunctionDefNode :=
  match s with
  | FunctionDef n a b d r l e seg =>
      Some {| fd_name := n; fd_args := a; fd_body := b;
              fd_decorator_list := d; fd_returns := r; fd_lineno := l;
              fd_end_lineno := e; fd_segment := seg |}
  | _ => None
  end.

Definition is_Assert (s : stmt) : bool :=
  match s with Assert _ => true | _ => false end.

(** [ast.walk] visits breadth first: a node, then its children, then theirs.
    [levels s] lists the nodes of the tree of [s] by depth. *)
Fixpoint zip_levels (a b : list (list stmt)) : list (list stmt) :=
  match a, b with
  | [], _ => b
  | _, [] => a
  | x :: a', y :: b' => (x ++ y)%list :: zip_levels a' b'
  end.

Fixpoint levels (s : stmt) : list (list stmt) :=
  let fix levels_list (l : list stmt) : list (list stmt) :=
    match l with
    | [] => []
    | c :: r => zip_levels (levels c) (levels_list r)
    end in
  [s] :: match s with
         | FunctionDef _ _ body _ _ _ _ _ => levels_list body
         | ClassDef _ _ body _ => levels_list body
         | Block children => levels_list children
         | _ => []
         end.

Definition levels_forest (l : list stmt) : list (list stmt) :=
  fold_right (fun c acc => zip_levels (levels c) acc) [] l.

(** The statement nodes of [ast.walk(node)], in its order. Expression nodes
    hold no statement, so leaving them out keeps the order of the rest. *)
Definition walk (s : stmt) : list stmt := concat (levels s).

Definition walk_module (m : Module_) : list stmt :=
  concat (levels_forest (mod_body m)).

Fixpoint select {A B} (f : A -> option B) (l : list A) : list B :=
  match l with
  | [] => []
  | x :: r => match f x with
              | Some y => y :: select f r
              | None => select f r
              end
  end.

(** [[node for node in ast.walk(tree) if isinstance(node, ast.FunctionDef)]] *)
Definition function_defs (m : Module_) : list FunctionDefNode :=
  select as_FunctionDef (walk_module m).

(** [sys.get_int_max_str_digits()], at its default. *)
Definition int_max_str_digits : Z := 4300.

(** The least number of more than [int_max_str_digits] decimal digits,
    computed once. *)
Definition int_str_limit : Z := Eval vm_compute in 10 ^ int_max_str_digits.

(** [str(n)] and [repr(n)] of an [int]: the conversion raises [ValueError]
    for a number of more than [int_max_str_digits] decimal digits (such a
    constant can be written in a source file in hexadecimal, octal or binary
    notation). *)
Definition str_of_int (n : Z) : result string :=
  if int_str_limit <=? Z.abs n
  then Raise (ValueError ("Exceeds the limit (" ++ PyStr.str_int int_max_str_digits
                ++ " digits) for integer string conversion; "
                ++ "use sys.set_int_max_str_digits() to increase the limit"))
  else Ok (PyStr.str_int n).

(** [str(value)] of a constant's value. *)
Definition str_constant (c : constant) : result string :=
  match c with
  | CNone => Ok "None"
  | CBool true => Ok "True"
  | CBool false => Ok "False"
  | CInt n => str_of_int n
  | CStr s => Ok s
  | CEllipsis => Ok "Ellipsis"
  | CNum text => Ok text
  | CBytes text => Ok text
  end.

End PyAst.

(** A file as the analysis sees it: its path and what reading and parsing
    it gives ([open], [read], [ast.parse]). *)
Record Path : Type := { parts : list string }.

(** [str(path)]; the path without parts is the current directory. *)
Definition str_path (p : Path) : string :=
  match parts p with
  | [] => "."
  | "/" :: rest => "/" ++ PyStr.join "/" rest
  | ps => PyStr.join "/" ps
  end.

Record source_file : Type := {
  sf_path : Path;
  sf_parse : result PyAst.Module_
}.

(** ** test_quality_validator.py *)

Module Validator.
Import PyAst.

Record QualityMetrics : Type := {
  business_logic_coverage : Q;
  error_scenario_coverage : Q;
  mock_isolation_score : Q;
  realistic_data_score : Q;
  documentation_score : Q;
  maintenance_score : Q;
  integration_coverage : Q;
  overall_quality_score : Q;
  (* not a dataclass field: the attribute [file_path] that [analyze_project]
     sets on the object *)
  tracked_file_path : option string
}.

(** [QualityMetrics()] *)
Definition QualityMetrics_new : QualityMetrics :=
  {| business_logic_coverage := 0; error_scenario_coverage := 0;
     mock_isolation_score := 0; realistic_data_score := 0;
     documentation_score := 0; maintenance_score := 0;
     integration_coverage := 0; overall_quality_score := 0;
     tracked_file_path := None |}.

Record TestIssue : Type := {
  file_path : string;
  line_number : Z;
  issue_type : string;
  severity : string;
  description : string;
  suggestion : string
}.

Record TestQualityConfig : Type := {
  min_coverage_threshold : Q;
  min_business_logic_threshold : Q;
  min_error_scenario_threshold : Q;
  business_logic_weight : Q;
  error_scenario_weight : Q;
  mock_isolation_weight : Q;
  realistic_data_weight : Q;
  documentation_weight : Q;
  maintenance_weight : Q;
  test_file_patterns : list string;
  source_file_patterns : list string;
  exclude_dirs : list string;
  min_test_length : Z;
  max_test_length : Z;
  min_assertions_per_test : Z;
  max_mock_objects_per_test : Z
}.

(** [TestQualityConfig()] *)
Definition TestQualityConfig_new : TestQualityConfig :=
  {| min_coverage_threshold := 80;
     min_business_logic_threshold := 70;
     min_error_scenario_threshold := 60;
     business_logic_weight := 25 # 100;
     error_scenario_weight := 20 # 100;
     mock_isolation_weight := 15 # 100;
     realistic_data_weight := 15 # 100;
     documentation_weight := 15 # 100;
     maintenance_weight := 10 # 100;
     test_file_patterns := ["test_*.py"; "*_test.py"];
     source_file_patterns := ["*.py"];
     exclude_dirs := [".venv"; "venv"; "env"; "__pycache__"; "node_modules";
                      ".git"; ".pytest_cache"; "htmlcov"; ".coverage"];
     min_test_length := 10;
     max_test_length := 200;
     min_assertions_per_test := 1;
     max_mock_objects_per_test := 5 |}.

(** *** The objects a pass mutates

    Every pass receives the same [metrics] object and [issues] list and
    changes them in place; what was written before an exception stays. *)

Record state : Type := { metrics : QualityMetrics; issues : list TestIssue }.

Definition M (A : Type) : Type := state -> result A * state.

Definition ret {A} (a : A) : M A := fun st => (Ok a, st).

Definition bind {A B} (c : M A) (k : A -> M B) : M B :=
  fun st => match c st with
            | (Ok a, st') => k a st'
            | (Raise e, st') => (Raise e, st')
            end.

Notation "x <- c1 ;; c2" := (bind c1 (fun x => c2))
  (at level 61, c1 at next level, right associativity).
Notation "c1 ;; c2" := (bind c1 (fun _ => c2))
  (at level 61, right associativity).

Definition lift {A} (r : result A) : M A := fun st => (r, st).

Definition get_metrics : M QualityMetrics := fun st => (Ok (metrics st), st).

Definition set_metrics (f : QualityMetrics -> QualityMetrics) : M unit :=
  fun st => (Ok tt, {| metrics := f (metrics st); issues := issues st |}).

(** [issues.append(issue)] *)
Definition append (i : TestIssue) : M unit :=
  fun st => (Ok tt, {| metrics := metrics st; issues := (issues st ++ [i])%list |}).

(** [for x in l: ...] with the local counter [acc] of the loop. *)
Fixpoint for_fold {A B} (l : list A) (acc : B) (body : A -> B -> M B) : M B :=
  match l with
  | [] => ret acc
  | x :: r => acc' <- body x acc ;; for_fold r acc' body
  end.

Definition set_business_logic_coverage (v : Q) (m : QualityMetrics) :=
  {| business_logic_coverage := v;
     error_scenario_coverage := error_scenario_coverage m;
     mock_isolation_score := mock_isolation_score m;
     realistic_data_score := realistic_data_score m;
     documentation_score := documentation_score m;
     maintenance_score := maintenance_score m;
     integration_coverage := integration_coverage m;
     overall_quality_score := overall_quality_score m;
     tracked_file_path := tracked_file_path m |}.

Definition set_error_scenario_coverage (v : Q) (m : QualityMetrics) :=
  {| business_logic_coverage := business_logic_coverage m;
     error_scenario_coverage := v;
     mock_isolation_score := mock_isolation_score m;
     realistic_data_score := realistic_data_score m;
     documentation_score := documentation_score m;
     maintenance_score := maintenance_score m;
     integration_coverage := integration_coverage m;
     overall_quality_score := overall_quality_score m;
     tracked_file_path := tracked_file_path m |}.

Definition set_mock_isolation_score (v : Q) (m : QualityMetrics) :=
  {| business_logic_coverage := business_logic_coverage m;
     error_scenario_coverage := error_scenario_coverage m;
     mock_isolation_score := v;
     realistic_data_score := realistic_data_score m;
     documentation_score := documentation_score m;
     maintenance_score := maintenance_score m;
     integration_coverage := integration_coverage m;
     overall_quality_score := overall_quality_score m;
     tracked_file_path := tracked_file_path m |}.

Definition set_documentation_score (v : Q) (m : QualityMetrics) :=
  {| business_logic_coverage := business_logic_coverage m;
     error_scenario_coverage := error_scenario_coverage m;
     mock_isolation_score := mock_isolation_score m;
     realistic_data_score := realistic_data_score m;
     documentation_score := v;
     maintenance_score := maintenance_score m;
     integration_coverage := integration_coverage m;
     overall_quality_score := overall_quality_score m;
     tracked_file_path := tracked_file_path m |}.

Definition set_maintenance_score (v : Q) (m : QualityMetrics) :=
  {| business_logic_coverage := business_logic_coverage m;
     error_scenario_coverage := error_scenario_coverage m;
     mock_isolation_score := mock_isolation_score m;
     realistic_data_score := realistic_data_score m;
     documentation_score := documentation_score m;
     maintenance_score := v;
     integration_coverage := integration_coverage m;
     overall_quality_score := overall_quality_score m;
     tracked_file_path := tracked_file_path m |}.

Definition set_overall_quality_score (v : Q) (m : QualityMetrics) :=
  {| business_logic_coverage := business_logic_coverage m;
     error_scenario_coverage := error_scenario_coverage m;
     mock_isolation_score := mock_isolation_score m;
     realistic_data_score := realistic_data_score m;
     documentation_score := documentation_score m;
     maintenance_score := maintenance_score m;
     integration_coverage := integration_coverage m;
     overall_quality_score := v;
     tracked_file_path := tracked_file_path m |}.

Definition set_tracked_file_path (p : string) (m : QualityMetrics) :=
  {| business_logic_coverage := business_logic_coverage m;
     error_scenario_coverage := error_scenario_coverage m;
     mock_isolation_score := mock_isolation_score m;
     realistic_data_score := realistic_data_score m;
     documentation_score := documentation_score m;
     maintenance_score := maintenance_score m;
     integration_coverage := integration_coverage m;
     overall_quality_score := overall_quality_score m;
     tracked_file_path := Some p |}.

Definition Qltb (a b : Q) : bool := negb (Qle_bool b a).

(** [func.name.startswith('test_')] *)
Definition is_test (func : FunctionDefNode) : bool :=
  PyStr.startswith (fd_name func) "test_".

(** [len([f for f in test_functions if f.name.startswith('test_')])] *)
Definition total_tests_of (test_functions : list FunctionDefNode) : Z :=
  Z.of_nat (length (filter is_test test_functions)).

(** [func.end_lineno - func.lineno if hasattr(func, 'end_lineno') else 0]:
    a parsed node has the attribute. *)
Definition func_lines_of (func : FunctionDefNode) : Z :=
  fd_end_lineno func - fd_lineno func.

(** [ast.get_source_segment(open(file_path).read(), func) or ""]: the three
    passes that look at the text of a test function open and read the file
    again for each of them; an exception of that read leaves the pass. *)
Definition func_content_of (func : FunctionDefNode) : result string :=
  rbind (fd_segment func) (fun segment =>
  Ok (match segment with
      | Some text => text
      | None => EmptyString
      end)).

(** [(count / total_tests) * 100 if total_tests > 0 else 0.0] *)
Definition percentage (count total_tests : Z) : result Q :=
  if total_tests >? 0
  then rbind (py_div (inject_Z count) (inject_Z total_tests))
             (fun r => Ok (r * 100)%Q)
  else Ok 0%Q.

Definition when (b : bool) (c : M unit) : M unit := if b then c else ret tt.

Definition _analyze_test_structure (config : TestQualityConfig)
    (path : Path) (tree : Module_) : M unit :=
  let test_functions := function_defs tree in
  for_fold test_functions tt (fun func _ =>
    if negb (is_test func) then ret tt (* continue *) else
    (* Check test length *)
    let func_lines := func_lines_of func in
    when (func_lines <? min_test_length config)
      (append {| file_path := str_path path;
                 line_number := fd_lineno func;
                 issue_type := "test_too_short";
                 severity := "medium";
                 description := "Test function '" ++ fd_name func
                   ++ "' is too short (" ++ PyStr.str_int func_lines ++ " lines)";
                 suggestion := "Add more comprehensive test scenarios or combine with related tests" |}) ;;
    (* Count assertions: the Call nodes collected with them are filtered
       out again before counting *)
    let assertion_count :=
      Z.of_nat (length (filter is_Assert (walk (node_of func)))) in
    when (assertion_count <? min_assertions_per_test config)
      (append {| file_path := str_path path;
                 line_number := fd_lineno func;
                 issue_type := "insufficient_assertions";
                 severity := "medium";
                 description := "Test function '" ++ fd_name func
                   ++ "' has only " ++ PyStr.str_int assertion_count ++ " assertions";
                 suggestion := "Add more assertions to verify expected behavior thoroughly" |})).

Definition business_logic_indicators : list string :=
  ["calculate_"; "compute_"; "process_"; "handle_"; "validate_";
   "transform_"; "convert_"; "apply_"; "execute_"; "perform_"].

Definition _analyze_business_logic_coverage (config : TestQualityConfig)
    (path : Path) (tree : Module_) : M unit :=
  let test_functions := function_defs tree in
  business_logic_tests <-
    for_fold test_functions 0 (fun func business_logic_tests =>
      if negb (is_test func) then ret business_logic_tests else
      func_content <- lift (func_content_of func) ;;
      (* the first indicator found adds one and leaves the inner loop *)
      if existsb (fun indicator => PyStr.str_in indicator (PyStr.lower func_content))
                 business_logic_indicators
      then ret (business_logic_tests + 1)
      else ret business_logic_tests) ;;
  let total_tests := total_tests_of test_functions in
  v <- lift (percentage business_logic_tests total_tests) ;;
  set_metrics (set_business_logic_coverage v) ;;
  m <- get_metrics ;;
  when (Qltb (business_logic_coverage m) (min_business_logic_threshold config))
    (append {| file_path := str_path path;
               line_number := 1;
               issue_type := "low_business_logic_coverage";
               severity := "high";
               description := "Low business logic coverage: "
                 ++ PyStr.format_1f (business_logic_coverage m) ++ "%";
               suggestion := "Add tests that verify core business logic and user workflows" |}).

Definition error_indicators : list string :=
  ["raises"; "exception"; "error"; "fail"; "invalid"; "malformed";
   "timeout"; "network"; "permission"; "authentication"; "authorization"].

Definition _analyze_error_scenarios (config : TestQualityConfig)
    (path : Path) (tree : Module_) : M unit :=
  let test_functions := function_defs tree in
  error_tests <-
    for_fold test_functions 0 (fun func error_tests =>
      if negb (is_test func) then ret error_tests else
      func_content <- lift (func_content_of func) ;;
      let has_error_test :=
        existsb (fun indicator => PyStr.str_in indicator (PyStr.lower func_content))
                error_indicators in
      let has_with_raises :=
        PyStr.str_in "with raises" func_content
        || PyStr.str_in "pytest.raises" func_content in
      if has_error_test || has_with_raises
      then ret (error_tests + 1)
      else ret error_tests) ;;
  let total_tests := total_tests_of test_functions in
  v <- lift (percentage error_tests total_tests) ;;
  set_metrics (set_error_scenario_coverage v).

Definition mock_indicators : list string :=
  ["mock"; "patch"; "MagicMock"; "AsyncMock"; "stub"].

Definition sumZ (l : list Z) : Z := fold_left Z.add l 0.

Definition _analyze_mock_usage (config : TestQualityConfig)
    (path : Path) (tree : Module_) : M unit :=
  let test_functions := function_defs tree in
  isolated_tests <-
    for_fold test_functions 0 (fun func isolated_tests =>
      if negb (is_test func) then ret isolated_tests else
      func_content <- lift (func_content_of func) ;;
      let mock_count :=
        sumZ (map (fun indicator => PyStr.count (PyStr.lower func_content) indicator)
                  mock_indicators) in
      if (0 <? mock_count) && (mock_count <=? max_mock_objects_per_test config)
      then ret (isolated_tests + 1)
      else if mock_count >? max_mock_objects_per_test config
      then append {| file_path := str_path path;
                     line_number := fd_lineno func;
                     issue_type := "too_many_mocks";
                     severity := "medium";
                     description := "Test '" ++ fd_name func ++ "' uses "
                       ++ PyStr.str_int mock_count ++ " mock objects";
                     suggestion := "Consider simplifying the test or breaking it into multiple focused tests" |} ;;
           ret isolated_tests
      else ret isolated_tests) ;;
  let total_tests := total_tests_of test_functions in
  v <- lift (percentage isolated_tests total_tests) ;;
  set_metrics (set_mock_isolation_score v).

(** [func.docstring]. An [ast.FunctionDef] has the fields [name], [args],
    [body], [decorator_list], [returns], [type_comment] and the position
    attributes; it has no attribute [docstring] (the docstring of a node is
    what [ast.get_docstring] computes), so the access raises. *)
Definition getattr_docstring (func : FunctionDefNode) : result (option string) :=
  Raise (AttributeError "FunctionDef" "docstring").

Definition documentation_keywords : list string :=
  ["test"; "verify"; "check"; "ensure"].

(** The condition of the documentation pass on the value of
    [func.docstring]. *)
Definition is_documented (docstring : option string) : bool :=
  match docstring with
  | None => false
  | Some d =>
      negb (String.eqb d EmptyString)
      && (PyStr.len (PyStr.strip d) >? 20)
      && existsb (fun keyword => PyStr.str_in keyword (PyStr.lower d))
                 documentation_keywords
  end.

Definition _analyze_documentation (config : TestQualityConfig)
    (path : Path) (tree : Module_) : M unit :=
  let test_functions := function_defs tree in
  documented_tests <-
    for_fold test_functions 0 (fun func documented_tests =>
      if negb (is_test func) then ret documented_tests else
      docstring <- lift (getattr_docstring func) ;;
      if is_documented docstring
      then ret (documented_tests + 1)
      else append {| file_path := str_path path;
                     line_number := fd_lineno func;
                     issue_type := "missing_documentation";
                     severity := "low";
                     description := "Test function '" ++ fd_name func
                       ++ "' lacks proper documentation";
                     suggestion := "Add a descriptive docstring explaining what the test verifies" |} ;;
           ret documented_tests) ;;
  let total_tests := total_tests_of test_functions in
  v <- lift (percentage documented_tests total_tests) ;;
  set_metrics (set_documentation_score v).

(** The condition of the maintainability pass. *)
Definition is_maintainable (config : TestQualityConfig)
    (func : FunctionDefNode) : bool :=
  (min_test_length config <=? func_lines_of func)
  && (func_lines_of func <=? max_test_length config)
  && negb (String.eqb (fd_name func) EmptyString)
  && PyStr.str_in "_" (fd_name func).

Definition _analyze_maintainability (config : TestQualityConfig)
    (path : Path) (tree : Module_) : M unit :=
  let test_functions := function_defs tree in
  maintainable_tests <-
    for_fold test_functions 0 (fun func maintainable_tests =>
      if negb (is_test func) then ret maintainable_tests else
      let func_lines := func_lines_of func in
      if is_maintainable config func
      then ret (maintainable_tests + 1)
      else if func_lines >? max_test_length config
      then append {| file_path := str_path path;
                     line_number := fd_lineno func;
                     issue_type := "test_too_long";
                     severity := "medium";
                     description := "Test function '" ++ fd_name func
                       ++ "' is too long (" ++ PyStr.str_int func_lines ++ " lines)";
                     suggestion := "Break down into multiple smaller, focused test functions" |} ;;
           ret maintainable_tests
      else ret maintainable_tests) ;;
  let total_tests := total_tests_of test_functions in
  v <- lift (percentage maintainable_tests total_tests) ;;
  set_metrics (set_maintenance_score v).

(** [min(a, b)] of Python: the first argument unless the second is smaller. *)
Definition py_min (a b : Q) : Q := if Qltb b a then b else a.

Definition _calculate_overall_score (config : TestQualityConfig)
    (m : QualityMetrics) : Q :=
  let weights :=
    [ (business_logic_coverage m, business_logic_weight config);
      (error_scenario_coverage m, error_scenario_weight config);
      (mock_isolation_score m, mock_isolation_weight config);
      (realistic_data_score m, realistic_data_weight config);
      (documentation_score m, documentation_weight config);
      (maintenance_score m, maintenance_weight config) ] in
  let score :=
    fold_left (fun score '(metric_value, weight) => score + metric_value * weight)%Q
              weights 0%Q in
  py_min score 100.

(** The [except Exception] handler of [analyze_test_file]. [issues] is the
    local variable of that name: [None] while nothing has been assigned to
    it, which is the case when the exception comes from reading or parsing
    the file. *)
Definition analysis_failed (path : Path) (e : exn)
    (issues : option (list TestIssue))
  : result (QualityMetrics * list TestIssue) :=
  match issues with
  | None => Raise (UnboundLocalError "issues")
  | Some l =>
      Ok (QualityMetrics_new,
          (l ++ [{| file_path := str_path path;
                    line_number := 1;
                    issue_type := "analysis_error";
                    severity := "high";
                    description := "Failed to analyze test file: " ++ str_exn e;
                    suggestion := "Check if the file contains valid Python code" |}])%list)
  end.

Definition analyze_test_file (config : TestQualityConfig) (f : source_file)
  : result (QualityMetrics * list TestIssue) :=
  let path := sf_path f in
  match sf_parse f with
  | Raise e => analysis_failed path e None
  | Ok tree =>
      let passes :=
        _analyze_test_structure config path tree ;;
        _analyze_business_logic_coverage config path tree ;;
        _analyze_error_scenarios config path tree ;;
        _analyze_mock_usage config path tree ;;
        _analyze_documentation config path tree ;;
        _analyze_maintainability config path tree ;;
        m <- get_metrics ;;
        set_metrics (set_overall_quality_score (_calculate_overall_score config m)) in
      match passes {| metrics := QualityMetrics_new; issues := [] |} with
      | (Ok _, st) => Ok (metrics st, issues st)
      | (Raise e, st) => analysis_failed path e (Some (issues st))
      end
  end.

(** *** TestQualityValidator *)

Definition add_metrics (totals metric : QualityMetrics) : QualityMetrics :=
  {| business_logic_coverage :=
       business_logic_coverage totals + business_logic_coverage metric;
     error_scenario_coverage :=
       error_scenario_coverage totals + error_scenario_coverage metric;
     mock_isolation_score :=
       mock_isolation_score totals + mock_isolation_score metric;
     realistic_data_score :=
       realistic_data_score totals + realistic_data_score metric;
     documentation_score :=
       documentation_score totals + documentation_score metric;
     maintenance_score :=
       maintenance_score totals + maintenance_score metric;
     integration_coverage := integration_coverage totals;
     overall_quality_score :=
       overall_quality_score totals + overall_quality_score metric;
     tracked_file_path := tracked_file_path totals |}.

Definition _calculate_project_metrics (file_metrics : list QualityMetrics)
  : result QualityMetrics :=
  match file_metrics with
  | [] => Ok QualityMetrics_new
  | _ =>
      let totals := fold_left add_metrics file_metrics QualityMetrics_new in
      let count := inject_Z (Z.of_nat (length file_metrics)) in
      rbind (py_div (business_logic_coverage totals) count) (fun bl =>
      rbind (py_div (error_scenario_coverage totals) count) (fun es =>
      rbind (py_div (mock_isolation_score totals) count) (fun mi =>
      rbind (py_div (realistic_data_score totals) count) (fun rd =>
      rbind (py_div (documentation_score totals) count) (fun doc =>
      rbind (py_div (maintenance_score totals) count) (fun mt =>
      rbind (py_div (overall_quality_score totals) count) (fun ov =>
      Ok {| business_logic_coverage := bl;
            error_scenario_coverage := es;
            mock_isolation_score := mi;
            realistic_data_score := rd;
            documentation_score := doc;
            maintenance_score := mt;
            integration_coverage := 0;
            overall_quality_score := ov;
            tracked_file_path := None |})))))))
  end.

Record severity_counts : Type := {
  critical : Z; high : Z; medium : Z; low : Z
}.

(** The dictionary [_summarize_issues] returns; [by_type] keeps the order in
    which the types were first met. *)
Record issue_summary : Type := {
  total_issues : Z;
  by_severity : severity_counts;
  by_type : list (string * Z);
  files_with_issues : Z
}.

Definition count_severity (issues : list TestIssue) (s : string) : Z :=
  Z.of_nat (length (filter (fun i => String.eqb (severity i) s) issues)).

(** [d[k] = d.get(k, 0) + 1] on a dictionary kept in insertion order. *)
Fixpoint increment (k : string) (d : list (string * Z)) : list (string * Z) :=
  match d with
  | [] => [(k, 1)]
  | (k', n) :: r => if String.eqb k' k then (k', n + 1) :: r
                    else (k', n) :: increment k r
  end.

Definition _summarize_issues (issues : list TestIssue) : issue_summary :=
  {| total_issues := Z.of_nat (length issues);
     by_severity := {| critical := count_severity issues "critical";
                       high := count_severity issues "high";
                       medium := count_severity issues "medium";
                       low := count_severity issues "low" |};
     by_type := fold_left (fun d i => increment (issue_type i) d) issues [];
     files_with_issues :=
       Z.of_nat (length (nodup string_dec (map file_path issues))) |}.

Definition _generate_recommendations (config : TestQualityConfig)
    (m : QualityMetrics) (summary : issue_summary) : list string :=
  let on (b : bool) (text : string) : list string := if b then [text] else [] in
  List.concat
    [ on (Qltb (business_logic_coverage m) (min_business_logic_threshold config))
         ("Improve business logic coverage (currently "
          ++ PyStr.format_1f (business_logic_coverage m) ++ "%). "
          ++ "Add tests that verify core functionality and user workflows.");
      on (Qltb (error_scenario_coverage m) (min_error_scenario_threshold config))
         ("Add more error scenario tests (currently "
          ++ PyStr.format_1f (error_scenario_coverage m) ++ "%). "
          ++ "Test edge cases, invalid inputs, and failure conditions.");
      on (Qltb (mock_isolation_score m) 70)
         ("Improve test isolation (currently "
          ++ PyStr.format_1f (mock_isolation_score m) ++ "%). "
          ++ "Ensure tests are properly isolated and don't depend on external systems.");
      on (Qltb (documentation_score m) 70)
         ("Improve test documentation (currently "
          ++ PyStr.format_1f (documentation_score m) ++ "%). "
          ++ "Add descriptive docstrings to explain test purpose and expected behavior.");
      on ((high (by_severity summary) >? 0) || (critical (by_severity summary) >? 0))
         ("Address " ++ PyStr.str_int (high (by_severity summary)) ++ " high and "
          ++ PyStr.str_int (critical (by_severity summary))
          ++ " critical priority issues first.") ].

Definition _calculate_quality_grade (score : Q) : string :=
  if Qle_bool 90 score then "A"
  else if Qle_bool 80 score then "B"
  else if Qle_bool 70 score then "C"
  else if Qle_bool 60 score then "D"
  else "F".

(** [asdict(m)]: the dataclass fields, without the attribute added later. *)
Definition asdict (m : QualityMetrics) : QualityMetrics :=
  {| business_logic_coverage := business_logic_coverage m;
     error_scenario_coverage := error_scenario_coverage m;
     mock_isolation_score := mock_isolation_score m;
     realistic_data_score := realistic_data_score m;
     documentation_score := documentation_score m;
     maintenance_score := maintenance_score m;
     integration_coverage := integration_coverage m;
     overall_quality_score := overall_quality_score m;
     tracked_file_path := None |}.

Record report : Type := {
  project_path : string;
  test_files_analyzed : Z;
  project_metrics : QualityMetrics;
  file_metrics : list QualityMetrics;
  report_issue_summary : issue_summary;
  recommendations : list string;
  quality_grade : string
}.

(** What [analyze_project] returns: the dictionary with the single key
    [error], or the report. *)
Inductive project_result : Type :=
| ErrorDict (error : string)
| Report (r : report).

(** The body of the loop of [analyze_project] over the test files. *)
Definition analyze_one (config : TestQualityConfig) (test_file : source_file)
    (acc : list QualityMetrics * list TestIssue)
  : result (list QualityMetrics * list TestIssue) :=
  let '(all_metrics, all_issues) := acc in
  rbind (analyze_test_file config test_file) (fun '(m, file_issues) =>
  let m := set_tracked_file_path (str_path (sf_path test_file)) m in
  Ok ((all_metrics ++ [m])%list, (all_issues ++ file_issues)%list)).

(** The loop: an exception of [analyze_test_file] leaves the loop and the
    method. *)
Definition analyze_each (config : TestQualityConfig) (test_files : list source_file)
  : result (list QualityMetrics * list TestIssue) :=
  rfold (analyze_one config) test_files ([], []).

(** [analyze_project()] with no [output_path]. [test_files] is the list
    that [_find_test_files] returns for the project. *)
Definition analyze_project (config : TestQualityConfig) (project_root : Path)
    (test_files : list source_file) : result project_result :=
  match test_files with
  | [] => Ok (ErrorDict "No test files found")
  | _ =>
      rbind (analyze_each config test_files) (fun '(all_metrics, all_issues) =>
      rbind (_calculate_project_metrics all_metrics) (fun pm =>
      let summary := _summarize_issues all_issues in
      Ok (Report
            {| project_path := str_path project_root;
               test_files_analyzed := Z.of_nat (length test_files);
               project_metrics := asdict pm;
               file_metrics := map asdict all_metrics;
               report_issue_summary := summary;
               recommendations := _generate_recommendations config pm summary;
               quality_grade := _calculate_quality_grade (overall_quality_score pm) |})))
  end.

End Validator.

(** ** test_creation_framework.py *)

Module Creation.
Import PyAst.

Record TestCreationConfig : Type := {
  output_directory : string;
  test_file_prefix : string;
  include_error_scenarios : bool;
  include_edge_cases : bool;
  include_performance_tests : bool;
  include_integration_tests : bool;
  min_assertions_per_test : Z;
  max_test_length : Z;
  include_docstrings : bool;
  auto_generate_mocks : bool;
  mock_external_dependencies : bool;
  mock_database_operations : bool;
  generate_realistic_data : bool;
  include_boundary_values : bool;
  include_negative_cases : bool
}.

(** [TestCreationConfig()] *)
Definition TestCreationConfig_new : TestCreationConfig :=
  {| output_directory := "tests";
     test_file_prefix := "test_";
     include_error_scenarios := true;
     include_edge_cases := true;
     include_performance_tests := false;
     include_integration_tests := true;
     min_assertions_per_test := 2;
     max_test_length := 50;
     include_docstrings := true;
     auto_generate_mocks := true;
     mock_external_dependencies := true;
     mock_database_operations := true;
     generate_realistic_data := true;
     include_boundary_values := true;
     include_negative_cases := true |}.

(** *** The structural model

    The dictionaries of the module are records; a value that may be [None]
    is an [option], and so is a key that only some dictionaries have
    ([is_dunder], [error]). *)

Record param_info : Type := {
  param_name : string;
  param_type : option string;
  param_default : option string
}.

Record func_info : Type := {
  func_name : string;
  func_is_private : bool;
  parameters : list param_info;
  return_type : option string;
  func_docstring : string;
  func_decorators : list string;
  is_dunder : option bool
}.

Record property_info : Type := { prop_name : string; prop_value : string }.

Record class_info : Type := {
  class_name : string;
  class_is_private : bool;
  bases : list string;
  methods : list func_info;
  properties : list property_info;
  class_docstring : string;
  class_decorators : list string
}.

Inductive import_info : Type :=
| import_ (module : string) (alias : option string)
| from_import (module : string) (name : string) (alias : option string).

Record constant_info : Type := { const_name : string; const_value : string }.

Record module_info : Type := {
  name : string;
  import_path : string;
  error : option string;
  functions : list func_info;
  classes : list class_info;
  imports : list import_info;
  constants : list constant_info
}.

(** *** pathlib *)

(** [path.name] *)
Definition path_name (p : Path) : string :=
  match rev (parts p) with
  | [] => EmptyString
  | ["/"] => EmptyString
  | n :: _ => n
  end.

(** [path.stem] *)
Definition stem (p : Path) : string :=
  let n := path_name p in
  match PyStr.rfind_dot n with
  | Some i => if (0 <? i)%nat && (i <? String.length n - 1)%nat
              then PyStr.take i n else n
  | None => n
  end.

(** [path.with_suffix(empty).parts]: the parts with the suffix of the name
    removed. *)
Definition parts_without_suffix (p : Path) : result (list string) :=
  if String.eqb (path_name p) EmptyString
  then Raise (ValueError ("PosixPath(" ++ PyStr.repr_str (str_path p)
                          ++ ") has an empty name"))
  else Ok (removelast (parts p) ++ [stem p])%list.

(** *** ModuleAnalyzer *)

Definition source_dirs : list string := ["src"; "lib"; "app"].

Definition _get_import_path (file_path : Path) : result string :=
  rbind (parts_without_suffix file_path) (fun parts =>
  let parts := match parts with
               | first :: rest =>
                   if existsb (String.eqb first) source_dirs then rest else parts
               | [] => parts
               end in
  Ok (PyStr.join "." parts)).

(** Of the calls in the [try] block only [str(node.value)] can raise on a
    parsed tree (the recursive calls have their own handler); the bare
    [except] then gives the label of the last branch. *)
Fixpoint _get_node_type (node : expr) : string :=
  match node with
  | Name id => id
  | Attribute value attr => _get_node_type value ++ "." ++ attr
  | Subscript value slice =>
      let base := _get_node_type value in
      (* hasattr(node, 'slice') holds for every Subscript *)
      let slice_str := _get_node_type slice in
      base ++ "[" ++ slice_str ++ "]"
  | Constant value =>
      match str_constant value with
      | Ok label => label
      | Raise _ => "Any" (* except: *)
      end
  | _ => "Any"
  end.

(** [repr(value)] of a constant's value. *)
Definition repr_constant (c : constant) : result string :=
  match c with
  | CStr s => Ok (PyStr.repr_str s)
  | _ => str_constant c
  end.

(** Here [repr(node.value)] is the call that can raise. *)
Fixpoint _get_node_value (node : expr) : string :=
  match node with
  | Constant value =>
      match repr_constant value with
      | Ok text => text
      | Raise _ => "..." (* except: *)
      end
  | Name id => id
  | Call func => _get_node_value func ++ "(...)"
  | _ => "..."
  end.

(** [ast.get_docstring(node)] on the body of a function or class. *)
Definition get_docstring (body : list stmt) : option string :=
  match body with
  | Expr (Constant (CStr text)) :: _ => Some (PyStr.cleandoc text)
  | _ => None
  end.

(** [x or empty]: the empty string for [None]. *)
Definition or_empty (x : option string) : string :=
  match x with
  | Some s => s
  | None => EmptyString
  end.

Definition _analyze_function (node : FunctionDefNode) : func_info :=
  {| func_name := fd_name node;
     func_is_private := PyStr.startswith (fd_name node) "_";
     parameters :=
       map (fun a =>
              {| param_name := arg_name a;
                 param_type :=
                   (* Try to get type annotation *)
                   match annotation a with
                   | Some ann => Some (_get_node_type ann)
                   | None => None
                   end;
                 param_default := None |})
           (fd_args node);
     return_type :=
       match fd_returns node with
       | Some r => Some (_get_node_type r)
       | None => None
       end;
     func_docstring := or_empty (get_docstring (fd_body node));
     func_decorators :=
       select (fun d => match d with Name id => Some id | _ => None end)
              (fd_decorator_list node);
     is_dunder := None |}.

(** [target.name] for a target that is an [ast.Name]. The fields of
    [ast.Name] are [id] and [ctx]; it has no attribute [name], so the
    access raises. *)
Definition getattr_name (target : expr) : result string :=
  Raise (AttributeError "Name" "name").

Definition with_is_dunder (b : bool) (f : func_info) : func_info :=
  {| func_name := func_name f; func_is_private := func_is_private f;
     parameters := parameters f; return_type := return_type f;
     func_docstring := func_docstring f; func_decorators := func_decorators f;
     is_dunder := Some b |}.

(** The loop over [item.targets] of a class-level assignment. *)
Definition class_properties_of (targets : list expr) (value : expr)
    (acc : list property_info) : result (list property_info) :=
  rfold (fun target acc =>
           match target with
           | Name _ =>
               rbind (getattr_name target) (fun n =>
               if negb (PyStr.startswith n "_")
               then rbind (getattr_name target) (fun n' =>
                    Ok (acc ++ [{| prop_name := n';
                                   prop_value := _get_node_value value |}])%list)
               else Ok acc)
           | _ => Ok acc
           end)
        targets acc.

Definition _analyze_class (cname : string) (cbases : list expr)
    (cbody : list stmt) : result class_info :=
  rbind
    (rfold (fun item '(ms, ps) =>
              match as_FunctionDef item with
              | Some fd =>
                  let method_info := _analyze_function fd in
                  let method_info :=
                    with_is_dunder (PyStr.startswith (fd_name fd) "__") method_info in
                  Ok ((ms ++ [method_info])%list, ps)
              | None =>
                  match item with
                  | Assign targets value =>
                      (* Extract class properties *)
                      rbind (class_properties_of targets value ps)
                            (fun ps' => Ok (ms, ps'))
                  | _ => Ok (ms, ps)
                  end
              end)
           cbody ([], []))
    (fun '(ms, ps) =>
       Ok {| class_name := cname;
             class_is_private := PyStr.startswith cname "_";
             bases := select (fun b => match b with Name id => Some id | _ => None end) cbases;
             methods := ms;
             properties := ps;
             class_docstring := or_empty (get_docstring cbody);
             class_decorators := [] |}).

(** The first loop of [analyze_module] over [tree.body]. *)
Definition imports_of (body : list stmt) : list import_info :=
  flat_map (fun node =>
              match node with
              | Import names =>
                  map (fun a => import_ (alias_name a) (asname a)) names
              | ImportFrom module names =>
                  let module_name := or_empty module in
                  map (fun a => from_import module_name (alias_name a) (asname a)) names
              | _ => []
              end) body.

Definition add_function (f : func_info) (m : module_info) : module_info :=
  {| name := name m; import_path := import_path m; error := error m;
     functions := (functions m ++ [f])%list; classes := classes m;
     imports := imports m; constants := constants m |}.

Definition add_class (c : class_info) (m : module_info) : module_info :=
  {| name := name m; import_path := import_path m; error := error m;
     functions := functions m; classes := (classes m ++ [c])%list;
     imports := imports m; constants := constants m |}.

Definition add_constants (cs : list constant_info) (m : module_info) : module_info :=
  {| name := name m; import_path := import_path m; error := error m;
     functions := functions m; classes := classes m;
     imports := imports m; constants := (constants m ++ cs)%list |}.

(** The body of the [try] of [analyze_module]. *)
Definition extract (file_path : Path) (tree : Module_) : result module_info :=
  rbind (_get_import_path file_path) (fun ip =>
  let module_info :=
    {| name := stem file_path; import_path := ip; error := None;
       functions := []; classes := [];
       imports := imports_of (mod_body tree); constants := [] |} in
  rfold (fun node module_info =>
           match as_FunctionDef node with
           | Some fd => Ok (add_function (_analyze_function fd) module_info)
           | None =>
           match node with
           | ClassDef cname cbases cbody _ =>
               rbind (_analyze_class cname cbases cbody) (fun c =>
               Ok (add_class c module_info))
           | Assign targets value =>
               (* Extract module-level constants *)
               Ok (add_constants
                     (select (fun target =>
                                match target with
                                | Name id =>
                                    if PyStr.isupper id
                                    then Some {| const_name := id;
                                                 const_value := _get_node_value value |}
                                    else None
                                | _ => None
                                end) targets)
                     module_info)
           | _ => Ok module_info
           end
           end)
        (mod_body tree) module_info).

(** The dictionary of the [except] branch of [analyze_module]. *)
Definition degraded (file_path : Path) (e : exn) : module_info :=
  {| name := stem file_path; import_path := stem file_path;
     error := Some (str_exn e);
     functions := []; classes := []; imports := []; constants := [] |}.

Definition analyze_module (f : source_file) : module_info :=
  match rbind (sf_parse f) (extract (sf_path f)) with
  | Ok module_info => module_info
  | Raise e => degraded (sf_path f) e
  end.

(** *** TestTemplate *)

Definition text (lines : list string) : string := PyStr.join PyStr.nl lines.

Definition quoted (s : string) : string := PyStr.dq ++ s ++ PyStr.dq.

Definition doc (s : string) : string := PyStr.dq3 ++ s ++ PyStr.dq3.

(** [param.get("type", default).lower()]. Every parameter dictionary built
    by [_analyze_function] has the key [type], so the default of [get] is
    not used: the value is the label, or [None], which has no [lower]. *)
Definition type_lower (param : param_info) : result string :=
  match param_type param with
  | Some label => Ok (PyStr.lower label)
  | None => Raise (AttributeError "NoneType" "lower")
  end.

(** The test value chosen by the chain of tests on the lower-cased label. *)
Definition test_value (param_type : string) : string :=
  if PyStr.str_in "int" param_type || PyStr.str_in "number" param_type then "1"
  else if PyStr.str_in "float" param_type || PyStr.str_in "decimal" param_type then "1.0"
  else if PyStr.str_in "bool" param_type then "True"
  else if PyStr.str_in "list" param_type || PyStr.str_in "array" param_type then "[]"
  else if PyStr.str_in "dict" param_type || PyStr.str_in "object" param_type then "{}"
  else "'test_value'".

(** The body of the loop of [_generate_basic_function_test] over the
    parameters. *)
Definition assign_parameter (param : param_info)
    (acc : list string * list string) : result (list string * list string) :=
  let '(param_assignments, param_names) := acc in
  let param_name := param_name param in
  let param_names := (param_names ++ [param_name])%list in
  (* Generate appropriate test value based on parameter type *)
  rbind (type_lower param) (fun param_type =>
  let assignment := "        " ++ param_name ++ " = " ++ test_value param_type in
  Ok ((param_assignments ++ [assignment])%list, param_names)).

Definition _generate_basic_function_test (func_name : string)
    (params : list param_info) (config : TestCreationConfig) : result string :=
  match params with
  | [] =>
      Ok (text
        [ "        # Test with no parameters";
          "        result = " ++ func_name ++ "()";
          "        assert result is not None";
          "        assert isinstance(result, expected_type)  # Replace with actual expected type" ])
  | _ =>
      (* Limit to first 3 parameters *)
      rbind (rfold assign_parameter (firstn 3 params) ([], []))
        (fun '(param_assignments, param_names) =>
           let param_call := PyStr.join ", " param_names in
           Ok (text
             [ "        # Test with valid parameters";
               PyStr.join PyStr.nl param_assignments;
               "        result = " ++ func_name ++ "(" ++ param_call ++ ")";
               "        ";
               "        # Add assertions based on expected behavior";
               "        assert result is not None";
               "        # TODO: Add specific assertions for " ++ func_name ++ " functionality";
               "        # assert result.property == expected_value" ]))
  end.

Definition _generate_error_test (func_name : string)
    (params : list param_info) (config : TestCreationConfig) : string :=
  let invalid :=
    match params with
    | first :: _ =>
        [ text [ "        # Test with invalid " ++ param_name first;
                 "        with pytest.raises((ValueError, TypeError, KeyError)):";
                 "            " ++ func_name ++ "(invalid_value)" ] ]
    | [] => []
    end in
  let missing :=
    if (1 <? length params)%nat
    then [ text [ "        # Test with missing required parameters";
                  "        with pytest.raises((TypeError, ValueError)):";
                  "            " ++ func_name ++ "()  # Missing required parameters" ] ]
    else [] in
  let none_values :=
    match params with
    | _ :: _ =>
        [ text [ "        # Test with None values";
                 "        with pytest.raises((ValueError, AttributeError, TypeError)):";
                 "            " ++ func_name ++ "(None)" ] ]
    | [] => []
    end in
  match (invalid ++ missing ++ none_values)%list with
  | [] =>
      text [ "        # TODO: Add specific error scenarios for " ++ func_name;
             "        # Consider testing:";
             "        # - Invalid input parameters";
             "        # - Missing required data";
             "        # - Network failures";
             "        # - Database errors";
             "        # - Permission issues" ]
  | error_tests => text error_tests
  end.

(** [any('list' in p.get('type', empty).lower() for p in params)]: stops at the
    first parameter that matches. *)
Fixpoint any_list_param (params : list param_info) : result bool :=
  match params with
  | [] => Ok false
  | p :: r =>
      rbind (type_lower p) (fun t =>
      if PyStr.str_in "list" t then Ok true else any_list_param r)
  end.

Definition _generate_edge_case_test (func_name : string)
    (params : list param_info) (config : TestCreationConfig) : result string :=
  rbind
    (match params with
     | first :: _ =>
         rbind (type_lower first) (fun param_type =>
         if PyStr.str_in "int" param_type || PyStr.str_in "number" param_type
         then Ok [ text [ "        # Test boundary values";
                          "        result_zero = " ++ func_name ++ "(0)";
                          "        result_negative = " ++ func_name ++ "(-1)";
                          "        result_large = " ++ func_name ++ "(999999)";
                          "        ";
                          "        assert result_zero is not None";
                          "        assert result_negative is not None";
                          "        assert result_large is not None" ] ]
         else if PyStr.str_in "str" param_type
         then Ok [ text [ "        # Test string edge cases";
                          "        result_empty = " ++ func_name ++ "(" ++ quoted EmptyString ++ ")";
                          "        result_whitespace = " ++ func_name ++ "(" ++ quoted "   " ++ ")";
                          "        result_special_chars = " ++ func_name ++ "(" ++ quoted "!@#$%^&*()" ++ ")";
                          "        ";
                          "        assert result_empty is not None";
                          "        assert result_whitespace is not None";
                          "        assert result_special_chars is not None" ] ]
         else Ok [])
     | [] => Ok []
     end)
    (fun boundary =>
  rbind (any_list_param params) (fun has_list =>
  let collections :=
    if has_list
    then [ text [ "        # Test with empty collections";
                  "        result = " ++ func_name ++ "([])";
                  "        assert result is not None" ] ]
    else [] in
  match (boundary ++ collections)%list with
  | [] =>
      Ok (text [ "        # TODO: Add edge cases for " ++ func_name;
                 "        # Consider testing:";
                 "        # - Boundary values (0, -1, max values)";
                 "        # - Empty strings/collections";
                 "        # - Special characters";
                 "        # - Unicode characters";
                 "        # - Very large inputs" ])
  | edge_tests => Ok (text edge_tests)
  end)).

Definition mock_argument (config : TestCreationConfig) : string :=
  if auto_generate_mocks config then ", mock_external_service" else EmptyString.

Definition _generate_function_tests (info : func_info)
    (config : TestCreationConfig) : result string :=
  let func_name := func_name info in
  let params := parameters info in
  (* Basic functionality test *)
  let test_name := "test_" ++ func_name ++ "_basic_functionality" in
  rbind (_generate_basic_function_test func_name params config) (fun test_body =>
  let basic :=
    text [ "class Test" ++ PyStr.title func_name ++ ":";
           "    " ++ doc ("Test cases for " ++ func_name ++ " function.");
           EmptyString;
           "    def " ++ test_name ++ "(self, sample_input" ++ mock_argument config ++ "):";
           "        " ++ doc ("Test basic functionality of " ++ func_name ++ ".");
           test_body ] in
  (* Error scenarios *)
  let errors :=
    if include_error_scenarios config
    then [ text [ EmptyString;
                  "    def test_" ++ func_name ++ "_error_scenarios(self" ++ mock_argument config ++ "):";
                  "        " ++ doc ("Test error handling in " ++ func_name ++ ".");
                  _generate_error_test func_name params config ] ]
    else [] in
  (* Edge cases *)
  rbind (if include_edge_cases config
         then rbind (_generate_edge_case_test func_name params config) (fun edge_test =>
              Ok [ text [ EmptyString;
                          "    def test_" ++ func_name ++ "_edge_cases(self" ++ mock_argument config ++ "):";
                          "        " ++ doc ("Test edge cases for " ++ func_name ++ ".");
                          edge_test ] ])
         else Ok [])
        (fun edges =>
  Ok (text (basic :: errors ++ edges)%list ++ PyStr.nl ++ PyStr.nl))).

Definition _generate_fixtures (info : module_info)
    (config : TestCreationConfig) : string :=
  let sample_input :=
    text [ "@pytest.fixture";
           "def sample_input():";
           "    " ++ doc "Sample input data for testing.";
           "    return {";
           "        " ++ quoted "valid_data" ++ ": {" ++ quoted "key" ++ ": " ++ quoted "value" ++ "},";
           "        " ++ quoted "invalid_data" ++ ": {},";
           "        " ++ quoted "edge_case_data" ++ ": {" ++ quoted "key" ++ ": None}";
           "    }" ] in
  let mock_external_service :=
    text [ "@pytest.fixture";
           "def mock_external_service():";
           "    " ++ doc "Mock external service for testing.";
           "    with patch('requests.get') as mock_get:";
           "        mock_get.return_value.json.return_value = {"
             ++ quoted "status" ++ ": " ++ quoted "success" ++ "}";
           "        yield mock_get" ] in
  let mock_database :=
    text [ "@pytest.fixture";
           "def mock_database():";
           "    " ++ doc "Mock database connection for testing.";
           "    with patch('sqlite3.connect') as mock_connect:";
           "        mock_conn = Mock()";
           "        mock_cursor = Mock()";
           "        mock_connect.return_value = mock_conn";
           "        mock_conn.cursor.return_value = mock_cursor";
           "        yield mock_cursor" ] in
  let mock_logger :=
    text [ "@pytest.fixture";
           "def mock_logger():";
           "    " ++ doc "Mock logger for testing.";
           "    with patch('logging.getLogger') as mock_get_logger:";
           "        mock_logger = Mock()";
           "        mock_get_logger.return_value = mock_logger";
           "        yield mock_logger" ] in
  let temp_file :=
    text [ "@pytest.fixture";
           "def temp_file(tmp_path):";
           "    " ++ doc "Temporary file fixture for testing.";
           "    file_path = tmp_path / " ++ quoted "test_file.txt";
           "    file_path.write_text(" ++ quoted "test content" ++ ")";
           "    return file_path" ] in
  let fixtures :=
    (sample_input
       :: (if auto_generate_mocks config then [mock_external_service] else [])
       ++ [mock_database; mock_logger; temp_file])%list in
  PyStr.join (PyStr.nl ++ PyStr.nl) fixtures ++ PyStr.nl ++ PyStr.nl.

(** [method_info.get("is_dunder", False)] *)
Definition get_is_dunder (f : func_info) : bool :=
  match is_dunder f with
  | Some b => b
  | None => false
  end.

Definition _generate_class_tests (info : class_info)
    (config : TestCreationConfig) : string :=
  let class_name := class_name info in
  let instantiation :=
    text [ "class Test" ++ class_name ++ ":";
           "    " ++ doc ("Test cases for " ++ class_name ++ " class.");
           EmptyString;
           "    def test_" ++ PyStr.lower class_name ++ "_instantiation(self):";
           "        " ++ doc "Test basic class instantiation.";
           "        # TODO: Initialize with appropriate parameters";
           "        instance = " ++ class_name ++ "()";
           "        assert instance is not None";
           "        assert isinstance(instance, " ++ class_name ++ ")" ] in
  let method_tests :=
    map (fun method_info =>
           let method_name := func_name method_info in
           text [ EmptyString;
                  "    def test_" ++ method_name ++ "(self):";
                  "        " ++ doc ("Test " ++ method_name ++ " method.");
                  "        # TODO: Set up test instance and method parameters";
                  "        instance = " ++ class_name ++ "()";
                  "        result = instance." ++ method_name ++ "()";
                  "        ";
                  "        # Add assertions based on expected behavior";
                  "        assert result is not None";
                  "        # assert result.property == expected_value" ])
        (filter (fun method_info =>
                   negb (func_is_private method_info) && negb (get_is_dunder method_info))
                (methods info)) in
  text (instantiation :: method_tests) ++ PyStr.nl ++ PyStr.nl.

Definition generate_unit_test_template (info : module_info)
    (config : TestCreationConfig) : result string :=
  let module_name := name info in
  let header :=
    text [ PyStr.dq3;
           "Unit tests for " ++ module_name ++ " module.";
           EmptyString;
           "This file contains comprehensive unit tests for the " ++ module_name ++ " module,";
           "testing business logic, error conditions, and edge cases.";
           PyStr.dq3;
           EmptyString;
           "import pytest";
           "from unittest.mock import Mock, patch, MagicMock";
           EmptyString ] in
  (* Add imports for the module *)
  let template := header ++ PyStr.nl ++ "from " ++ import_path info ++ " import " in
  let function_names :=
    map func_name (filter (fun f => negb (func_is_private f)) (functions info)) in
  let template :=
    match function_names with
    | [] => template
    | _ => template ++ PyStr.join ", " function_names
    end in
  let class_names :=
    map class_name (filter (fun c => negb (class_is_private c)) (classes info)) in
  let template :=
    match class_names with
    | [] => template
    | _ => (match function_names with
            | [] => template
            | _ => template ++ ", "
            end) ++ PyStr.join ", " class_names
    end in
  let template := template ++ PyStr.nl ++ PyStr.nl in
  (* Generate test fixtures *)
  let template := template ++ _generate_fixtures info config in
  (* Generate function tests *)
  rbind (rfold (fun info template =>
                  if negb (func_is_private info)
                  then rbind (_generate_function_tests info config) (fun tests =>
                       Ok (template ++ tests))
                  else Ok template)
               (functions info) template)
        (fun template =>
  (* Generate class tests *)
  Ok (fold_left (fun template info =>
                   if negb (class_is_private info)
                   then template ++ _generate_class_tests info config
                   else template)
                (classes info) template)).

End Creation.

(** ** test_quality_validator.py: the search for the test files *)

Module Discovery.
Import PyAst Validator.

(** The proper prefixes of a list, the shortest first. *)
Fixpoint prefixes (l : list string) : list (list string) :=
  match l with
  | [] => []
  | x :: r => [] :: map (cons x) (prefixes r)
  end.

(** [path.parents]: the paths of the proper prefixes of the parts; an
    absolute path stops at its root, a relative one at the empty path. *)
Definition parents (p : Path) : list Path :=
  map (fun ps => {| parts := ps |})
      (rev (match parts p with
            | "/" :: _ => tl (prefixes (parts p))
            | _ => prefixes (parts p)
            end)).

(** [p == q] on paths. *)
Definition path_eqb (p q : Path) : bool :=
  if list_eq_dec string_dec (parts p) (parts q) then true else false.

(** The order of paths: the order of their lists of parts, which compares
    the first parts that differ, as strings; a proper prefix comes first. *)
Fixpoint parts_compare (a b : list string) : comparison :=
  match a, b with
  | [], [] => Eq
  | [], _ :: _ => Lt
  | _ :: _, [] => Gt
  | x :: a', y :: b' =>
      match String.compare x y with
      | Eq => parts_compare a' b'
      | c => c
      end
  end.

(** [not (q < p)] *)
Definition path_le (p q : Path) : bool :=
  match parts_compare (parts q) (parts p) with
  | Lt => false
  | _ => true
  end.

(** [sorted(l)]: the stable sort by [<]. *)
Fixpoint insert (p : Path) (l : list Path) : list Path :=
  match l with
  | [] => [p]
  | q :: r => if path_le p q then p :: l else q :: insert p r
  end.

Definition sorted (l : list Path) : list Path := fold_right insert [] l.

(** The loop over [exclude_dirs] with its [break]. *)
Definition should_exclude (config : TestQualityConfig) (test_file : Path) : bool :=
  existsb (fun exclude => existsb (String.eqb exclude) (parts test_file))
          (exclude_dirs config).

(** The files of one pattern that the inner loop appends. *)
Definition kept_of (config : TestQualityConfig) (project_root : Path)
    (found : list Path) : list Path :=
  filter (fun test_file =>
            negb (should_exclude config test_file)
            (* Only include files in the project *)
            && existsb (path_eqb project_root) (parents test_file))
         found.

(** [_find_test_files()]. [rglob pattern] is what
    [self.project_root.rglob(pattern)] yields on the file system, in its
    order, or the exception it raises for the pattern. *)
Definition _find_test_files (config : TestQualityConfig) (project_root : Path)
    (rglob : string -> result (list Path)) : result (list Path) :=
  rbind (rfold (fun pattern test_files =>
                  rbind (rglob pattern) (fun found =>
                  Ok (test_files ++ kept_of config project_root found)%list))
               (test_file_patterns config) [])
        (fun test_files => Ok (sorted test_files)).

(** [analyze_project()] from the file system: the search, then the analysis
    of the files found; [open_parse] is what [open], [read] and [ast.parse]
    give for a path. *)
Definition analyze_project_at (config : TestQualityConfig) (project_root : Path)
    (rglob : string -> result (list Path))
    (open_parse : Path -> result Module_) : result project_result :=
  rbind (_find_test_files config project_root rglob) (fun test_files =>
  analyze_project config project_root
    (map (fun test_file => {| sf_path := test_file; sf_parse := open_parse test_file |})
         test_files)).

End Discovery.

(** ** test_creation_framework.py: the framework *)

Module Framework.
Import PyAst Validator Creation Discovery.

(** The file system as the framework uses it: [joinpath p s] is [p / s];
    [open_parse] is what [open], [read] and [ast.parse] give for a file;
    [rglob] is the search below the project root; [mkdir],
    [open_for_writing] and [write] tell whether making a directory, opening
    a file for writing and writing a text to it succeed. *)
Record world : Type := {
  joinpath : Path -> string -> Path;
  file_exists : Path -> bool;
  open_parse : Path -> result Module_;
  rglob : string -> result (list Path);
  mkdir : Path -> result unit;
  open_for_writing : Path -> result unit;
  write : Path -> string -> result unit
}.

(** What a call did to the file system: it made a directory (and its
    parents), it created or emptied a file, it wrote a text to a file. *)
Inductive effect : Type :=
| Mkdir (p : Path)
| OpenFile (p : Path)
| WriteFile (p : Path) (content : string).

(** The dictionary [_validate_generated_test] returns. *)
Inductive validation : Type :=
| Validation (quality_score : Q) (issue_count : Z) (grade : string)
| ValidationError (error : string).

(** [m.get("file_path") == str(test_path)] on a dictionary of
    [file_metrics]. *)
Definition is_metrics_of (test_path : Path) (m : QualityMetrics) : bool :=
  match tracked_file_path m with
  | Some p => String.eqb p (str_path test_path)
  | None => false
  end.

(** [report.get("file_metrics", [])] *)
Definition get_file_metrics (r : project_result) : list QualityMetrics :=
  match r with
  | Report r => file_metrics r
  | ErrorDict _ => []
  end.

(** [report.get("issue_summary", {}).get("by_type", {})] *)
Definition get_by_type (r : project_result) : list (string * Z) :=
  match r with
  | Report r => by_type (report_issue_summary r)
  | ErrorDict _ => []
  end.

(** The validator of the framework has the default configuration. [w] is
    the file system at the time of the call. *)
Definition _validate_generated_test (w : world) (project_root test_path : Path)
  : validation :=
  match analyze_project_at TestQualityConfig_new project_root (rglob w) (open_parse w) with
  | Ok report =>
      (* Extract metrics for this specific file *)
      match filter (is_metrics_of test_path) (get_file_metrics report) with
      | m :: _ =>
          Validation (overall_quality_score m)
                     (Z.of_nat (length (map snd (get_by_type report))))
                     (_calculate_quality_grade (overall_quality_score m))
      | [] => Validation 0 0 "F"
      end
  | Raise e => ValidationError ("Validation failed: " ++ str_exn e)
  end.

(** The dictionary [create_unit_tests] returns. *)
Inductive unit_tests : Type :=
| UnitError (error : string)
| UnitTests (module_path output_path : string) (info : module_info)
    (v : validation).

(** [create_unit_tests(module_path)]: what it returns or raises, and what it
    did to the file system. [w] is the file system at the call, [after] the
    file system once the test file is written. *)
Definition create_unit_tests (w after : world) (project_root : Path)
    (config : TestCreationConfig) (module_path : string)
  : result unit_tests * list effect :=
  let module_file := joinpath w project_root module_path in
  if negb (file_exists w module_file)
  then (Ok (UnitError ("Module file not found: " ++ module_path)), [])
  else
    (* Analyze the module *)
    let module_info :=
      analyze_module {| sf_path := module_file; sf_parse := open_parse w module_file |} in
    match error module_info with
    | Some e => (Ok (UnitError ("Failed to analyze module: " ++ e)), [])
    | None =>
        (* Generate test content *)
        match generate_unit_test_template module_info config with
        | Raise e => (Raise e, [])
        | Ok test_content =>
            (* Determine output path *)
            let output_dir := joinpath w project_root (output_directory config) in
            let test_file_name := test_file_prefix config ++ stem module_file ++ ".py" in
            let output_path := joinpath w output_dir test_file_name in
            (* Create output directory if needed *)
            match mkdir w output_dir with
            | Raise e => (Raise e, [])
            | Ok _ =>
            (* Write test file *)
            match open_for_writing w output_path with
            | Raise e => (Raise e, [Mkdir output_dir])
            | Ok _ =>
            match write w output_path test_content with
            | Raise e => (Raise e, [Mkdir output_dir; OpenFile output_path])
            | Ok _ =>
                (* Validate generated test *)
                let validation_result :=
                  _validate_generated_test after project_root output_path in
                (Ok (UnitTests module_path (str_path output_path) module_info
                               validation_result),
                 [Mkdir output_dir; OpenFile output_path; WriteFile output_path test_content])
            end
            end
            end
        end
    end.

(** *** The survey of a project *)

Definition exclude_patterns : list string :=
  ["test_"; "__pycache__"; ".venv"; "venv"; "node_modules"].

(** An entry of the list [modules] of the survey. *)
Record module_entry : Type := {
  entry_path : string;
  entry_name : string;
  entry_functions : Z;
  entry_classes : Z;
  complexity : string
}.

(** The dictionary [analyze_project_for_testing] returns. *)
Record survey : Type := {
  total_modules : Z;
  modules : list module_entry;
  testing_recommendations : list string
}.

Definition _estimate_complexity (info : module_info) : string :=
  let functions := Z.of_nat (length (functions info)) in
  let classes := Z.of_nat (length (classes info)) in
  let imports := Z.of_nat (length (imports info)) in
  if (functions + classes >? 20) || (imports >? 15) then "high"
  else if (functions + classes >? 10) || (imports >? 8) then "medium"
  else "low".

Definition _generate_testing_recommendations (modules : list module_entry)
  : list string :=
  let high_complexity := filter (fun m => String.eqb (complexity m) "high") modules in
  let medium_complexity := filter (fun m => String.eqb (complexity m) "medium") modules in
  let total_functions := sumZ (map entry_functions modules) in
  let total_classes := sumZ (map entry_classes modules) in
  let focus :=
    "Focus on " ++ PyStr.str_int (Z.of_nat (length high_complexity))
    ++ " high-complexity modules first. "
    ++ "These likely contain critical business logic that needs comprehensive testing." in
  let integrate :=
    "Create integration tests for "
    ++ PyStr.str_int (Z.of_nat (length medium_complexity))
    ++ " medium-complexity modules "
    ++ "to verify component interactions." in
  let generate :=
    "Generate unit tests for " ++ PyStr.str_int total_functions
    ++ " functions and " ++ PyStr.str_int total_classes ++ " classes "
    ++ "to ensure comprehensive code coverage." in
  ((match high_complexity with [] => [] | _ => [focus] end)
   ++ (match medium_complexity with [] => [] | _ => [integrate] end)
   ++ [generate])%list.

(** A Python file of the project: [rglob] yields the path
    [project_root / rel] for it, and [py_parse] is what reading and parsing
    it gives. *)
Record python_file : Type := {
  rel : list string;
  py_parse : result Module_
}.

Definition path_of (project_root : Path) (f : python_file) : Path :=
  {| parts := (parts project_root ++ rel f)%list |}.

(** [not any(pattern in str(f) for pattern in exclude_patterns)] *)
Definition is_source (project_root : Path) (f : python_file) : bool :=
  negb (existsb (fun pattern => PyStr.str_in pattern (str_path (path_of project_root f)))
                exclude_patterns).

(** [analyze_project_for_testing()]. [python_files] lists what
    [self.project_root.rglob("*.py")] yields, in its order. *)
Definition analyze_project_for_testing (project_root : Path)
    (python_files : list python_file) : survey :=
  let source_files := filter (is_source project_root) python_files in
  let modules :=
    map (fun f =>
           let module_info :=
             analyze_module {| sf_path := path_of project_root f;
                               sf_parse := py_parse f |} in
           {| entry_path := str_path {| parts := rel f |};
              entry_name := name module_info;
              entry_functions := Z.of_nat (length (functions module_info));
              entry_classes := Z.of_nat (length (classes module_info));
              complexity := _estimate_complexity module_info |})
        (* Limit to first 10 for demo *)
        (firstn 10 source_files) in
  {| total_modules := Z.of_nat (length source_files);
     modules := modules;
     testing_recommendations := _generate_testing_recommendations modules |}.

End Framework.

(** ** test_workflows_cli.py: the validation command *)

Module Cli.
Import PyAst Validator Discovery.

(** The line that [validate_quality] prints last. *)
Inductive verdict : Type := PASSED | FAILED.

(** How a call of [validate_quality] ends: it returns the report after it
    printed a verdict, or the lookup of a key in the report raises
    [KeyError], or the analysis raises. *)
Inductive ending : Type :=
| Returns (printed : verdict) (r : report)
| RaisesKeyError (key : string)
| Raises (e : exn).

(** [config.min_coverage_threshold = threshold] *)
Definition set_min_coverage_threshold (threshold : Q) (config : TestQualityConfig)
  : TestQualityConfig :=
  {| min_coverage_threshold := threshold;
     min_business_logic_threshold := min_business_logic_threshold config;
     min_error_scenario_threshold := min_error_scenario_threshold config;
     business_logic_weight := business_logic_weight config;
     error_scenario_weight := error_scenario_weight config;
     mock_isolation_weight := mock_isolation_weight config;
     realistic_data_weight := realistic_data_weight config;
     documentation_weight := documentation_weight config;
     maintenance_weight := maintenance_weight config;
     test_file_patterns := test_file_patterns config;
     source_file_patterns := source_file_patterns config;
     exclude_dirs := exclude_dirs config;
     min_test_length := min_test_length config;
     max_test_length := max_test_length config;
     min_assertions_per_test := min_assertions_per_test config;
     max_mock_objects_per_test := max_mock_objects_per_test config |}.

(** [validate_quality(threshold)]. [print_summary_report] prints the error
    of a report that has one and returns; the lookup of [project_metrics]
    that follows then raises. *)
Definition validate_quality (quality_config : TestQualityConfig) (project_root : Path)
    (rglob : string -> result (list Path)) (open_parse : Path -> result Module_)
    (threshold : Q) : ending :=
  (* Update threshold in config *)
  let quality_config := set_min_coverage_threshold threshold quality_config in
  match analyze_project_at quality_config project_root rglob open_parse with
  | Raise e => Raises e
  | Ok (ErrorDict _) => RaisesKeyError "project_metrics"
  | Ok (Report r) =>
      (* Check if quality meets threshold *)
      let overall_score := overall_quality_score (project_metrics r) in
      if Qle_bool threshold overall_score then Returns PASSED r else Returns FAILED r
  end.

End Cli.

(** ** monitoring/shared_logger.py: the parts that neither read nor write

    The logger itself talks to Supabase, Sentry and the console; what is
    embedded here is what it computes on the way: the levels, the level of a
    row read back, the entry of an API request, and the correlation
    headers. A dictionary is the list of its items in insertion order. *)

Module Logger.

Inductive LogLevel : Type := TRACE | DEBUG | INFO | WARN | ERROR | FATAL.

(** [level.value] *)
Definition value (level : LogLevel) : string :=
  match level with
  | TRACE => "trace"
  | DEBUG => "debug"
  | INFO => "info"
  | WARN => "warn"
  | ERROR => "error"
  | FATAL => "fatal"
  end.

(** A value of a dictionary: [None], a string, an integer, or any other
    value, kept as its [repr]. *)
Inductive any : Type :=
| ANone
| AStr (s : string)
| AInt (n : Z)
| AOther (repr : string).

(** [repr(x)] *)
Definition repr (x : any) : string :=
  match x with
  | ANone => "None"
  | AStr s => PyStr.repr_str s
  | AInt n => PyStr.str_int n
  | AOther r => r
  end.

Definition dict (V : Type) : Type := list (string * V).

(** [d.get(k)] *)
Fixpoint get {V} (d : dict V) (k : string) : option V :=
  match d with
  | [] => None
  | (k', v) :: r => if String.eqb k' k then Some v else get r k
  end.

(** [d[k] = v] *)
Fixpoint set {V} (k : string) (v : V) (d : dict V) : dict V :=
  match d with
  | [] => [(k, v)]
  | (k', v') :: r => if String.eqb k' k then (k', v) :: r else (k', v') :: set k v r
  end.

(** [{**d, **e}] *)
Definition update {V} (d e : dict V) : dict V :=
  fold_left (fun acc '(k, v) => set k v acc) e d.

(** [x or {}] *)
Definition or_empty_dict {V} (x : option (dict V)) : dict V :=
  match x with
  | Some d => d
  | None => []
  end.

(** [LogLevel(x)]: the member with the value [x]. *)
Definition LogLevel_of (x : any) : result LogLevel :=
  let member :=
    match x with
    | AStr s => find (fun m => String.eqb (value m) s)
                     [TRACE; DEBUG; INFO; WARN; ERROR; FATAL]
    | _ => None
    end in
  match member with
  | Some m => Ok m
  | None => Raise (ValueError (repr x ++ " is not a valid LogLevel"))
  end.

(** The level that [query_logs] and [get_logs_by_trace_id] give to a row:
    [LogLevel.INFO] unless the conversion of the stored level returns. *)
Definition level_of_item (item : dict any) : result LogLevel :=
  let level := INFO in
  match LogLevel_of (match get item "level" with
                     | Some x => x
                     | None => AStr "info"
                     end) with
  | Ok level => Ok level
  | Raise (ValueError _) => Ok level
  | Raise e => Raise e
  end.

Record SharedLogEntry : Type := {
  id : option string;
  timestamp : option string;
  service_name : string;
  service_version : option string;
  environment : string;
  level : LogLevel;
  message : string;
  context : option (dict any);
  correlation_id : option string;
  user_id : option string;
  session_id : option string;
  request_id : option string;
  trace_id : option string;
  span_id : option string;
  tags : option (dict string)
}.

(** The entry that [log_api_request] hands to [log]. [duration] is the
    value of the argument, [None] by default. *)
Definition log_api_request (request_id method endpoint : string) (status_code : Z)
    (duration : any) (context : option (dict any)) : SharedLogEntry :=
  {| id := None;
     timestamp := None;
     service_name := EmptyString;
     service_version := None;
     environment := EmptyString;
     level := if status_code >=? 400 then ERROR else INFO;
     message := method ++ " " ++ endpoint ++ " - " ++ PyStr.str_int status_code;
     context :=
       Some (update [ ("method", AStr method);
                      ("endpoint", AStr endpoint);
                      ("status_code", AInt status_code);
                      ("duration", duration) ]
                    (or_empty_dict context));
     correlation_id := None;
     user_id := None;
     session_id := None;
     request_id := Some request_id;
     trace_id := None;
     span_id := None;
     tags :=
       Some [ ("category", "api_request");
              ("method", method);
              ("endpoint",
               if PyStr.str_in "/" endpoint
               then nth 1 (PyStr.split_on "/" endpoint) EmptyString
               else "unknown");
              ("status_code", PyStr.str_int status_code) ] |}.

(** [create_correlation_id()], where [now] is
    [int(datetime.now().timestamp())] and [hex] is [uuid.uuid4().hex]. *)
Definition create_correlation_id (now : Z) (hex : string) : string :=
  "corr_" ++ PyStr.str_int now ++ "_" ++ PyStr.take 8 hex.

(** [headers and k in headers] holds exactly when the dictionary is there
    and has the key, and [headers[k]] is then its value. *)
Definition get_or_create_correlation_id (now : Z) (hex : string)
    (headers : option (dict string)) : string :=
  match headers with
  | Some h =>
      match get h "x-correlation-id" with
      | Some v => v
      | None => create_correlation_id now hex
      end
  | None => create_correlation_id now hex
  end.

Definition add_correlation_to_headers (headers : dict string)
    (correlation_id : string) : dict string :=
  set "x-correlation-id" correlation_id headers.

End Logger.


(** * Vocabulary of the properties

    Predicates on results, the readings of the specification that the
    code is compared with, and the concrete files of the scenarios. *)

Module ValidatorSpec.
Import PyAst Validator.

(** *** Predicates *)

(** [c] does not raise, leaves the earlier issues in place and appends only
    issues that satisfy [P]. *)
Definition emits {A} (P : TestIssue -> Prop) (c : M A) : Prop :=
  forall st, exists a m new,
    c st = (Ok a, {| metrics := m; issues := (issues st ++ new)%list |})
    /\ Forall P new.

(** [c] leaves the earlier issues in place and appends only issues that
    satisfy [P], whether it returns or raises. *)
Definition appends {A} (P : TestIssue -> Prop) (c : M A) : Prop :=
  forall st, exists r m new,
    c st = (r, {| metrics := m; issues := (issues st ++ new)%list |})
    /\ Forall P new.

(** The type of the issue is one of [types]. *)
Definition has_type (types : list string) (i : TestIssue) : Prop :=
  In (issue_type i) types.

(** The file has a test function, at any depth. *)
Definition has_test (tree : Module_) : Prop :=
  exists func, In func (function_defs tree) /\ is_test func = true.

(** The file has no test function. *)
Definition no_test (tree : Module_) : Prop :=
  forall func, In func (function_defs tree) -> is_test func = false.

(** Reading the file again for the text of the function succeeds. *)
Definition can_read (func : FunctionDefNode) : bool :=
  match fd_segment func with
  | Ok _ => true
  | Raise _ => false
  end.

(** The text of every test function of the file can be read again. *)
Definition readable (tree : Module_) : Prop :=
  forallb (fun func => negb (is_test func) || can_read func) (function_defs tree)
  = true.

(** The text of a function that can be read; empty when there is none. *)
Definition text_of (func : FunctionDefNode) : string :=
  match fd_segment func with
  | Ok (Some text) => text
  | _ => EmptyString
  end.

(** The objects [analyze_test_file] starts from. *)
Definition state_new : state := {| metrics := QualityMetrics_new; issues := [] |}.

(** The issue that the handler of [analyze_test_file] appends. *)
Definition analysis_error (path : Path) (e : exn) : TestIssue :=
  {| file_path := str_path path;
     line_number := 1;
     issue_type := "analysis_error";
     severity := "high";
     description := "Failed to analyze test file: " ++ str_exn e;
     suggestion := "Check if the file contains valid Python code" |}.

(** The two issues of the structure pass for a function. *)
Definition too_short (path : Path) (func : FunctionDefNode) : TestIssue :=
  {| file_path := str_path path;
     line_number := fd_lineno func;
     issue_type := "test_too_short";
     severity := "medium";
     description := "Test function '" ++ fd_name func
       ++ "' is too short (" ++ PyStr.str_int (func_lines_of func) ++ " lines)";
     suggestion := "Add more comprehensive test scenarios or combine with related tests" |}.

Definition too_few_assertions (path : Path) (func : FunctionDefNode) : TestIssue :=
  {| file_path := str_path path;
     line_number := fd_lineno func;
     issue_type := "insufficient_assertions";
     severity := "medium";
     description := "Test function '" ++ fd_name func ++ "' has only "
       ++ PyStr.str_int (Z.of_nat (length (filter is_Assert (walk (node_of func)))))
       ++ " assertions";
     suggestion := "Add more assertions to verify expected behavior thoroughly" |}.

(** No weight, no scored metric is negative. *)
Definition nonneg_weights (config : TestQualityConfig) : Prop :=
  (0 <= business_logic_weight config /\ 0 <= error_scenario_weight config
   /\ 0 <= mock_isolation_weight config /\ 0 <= realistic_data_weight config
   /\ 0 <= documentation_weight config /\ 0 <= maintenance_weight config)%Q.

Definition nonneg_metrics (m : QualityMetrics) : Prop :=
  (0 <= business_logic_coverage m /\ 0 <= error_scenario_coverage m
   /\ 0 <= mock_isolation_score m /\ 0 <= realistic_data_score m
   /\ 0 <= documentation_score m /\ 0 <= maintenance_score m)%Q.

(** The unweighted arithmetic mean of a field over the files. *)
Definition total (field : QualityMetrics -> Q) (ms : list QualityMetrics) : Q :=
  fold_right (fun m acc => field m + acc)%Q 0%Q ms.


(** *** Configurations *)

(** [TestQualityConfig()] with the six weights and the two minima replaced. *)
Definition config_with (bl es mi rd doc mt : Q) (min_length min_assertions : Z)
  : TestQualityConfig :=
  {| min_coverage_threshold := min_coverage_threshold TestQualityConfig_new;
     min_business_logic_threshold := min_business_logic_threshold TestQualityConfig_new;
     min_error_scenario_threshold := min_error_scenario_threshold TestQualityConfig_new;
     business_logic_weight := bl;
     error_scenario_weight := es;
     mock_isolation_weight := mi;
     realistic_data_weight := rd;
     documentation_weight := doc;
     maintenance_weight := mt;
     test_file_patterns := test_file_patterns TestQualityConfig_new;
     source_file_patterns := source_file_patterns TestQualityConfig_new;
     exclude_dirs := exclude_dirs TestQualityConfig_new;
     min_test_length := min_length;
     max_test_length := max_test_length TestQualityConfig_new;
     min_assertions_per_test := min_assertions;
     max_mock_objects_per_test := max_mock_objects_per_test TestQualityConfig_new |}.

(** [TestQualityConfig(min_assertions_per_test=2, min_test_length=10)] *)
Definition scenario_A_config : TestQualityConfig :=
  config_with (25 # 100) (20 # 100) (15 # 100) (15 # 100) (15 # 100) (10 # 100) 10 2.

(** [TestQualityConfig(business_logic_weight=-1.0)] *)
Definition negative_weight_config : TestQualityConfig :=
  config_with (-1) (20 # 100) (15 # 100) (15 # 100) (15 # 100) (10 # 100) 10 1.

(** Every weight is 1: the weights sum to 6. *)
Definition heavy_config : TestQualityConfig :=
  config_with 1 1 1 1 1 1 10 1.

(** *** Files and metrics of the scenarios *)

(** Scenario A: one assertion, lines 1 to 9, no docstring. *)
Definition scenario_A_function : FunctionDefNode :=
  {| fd_name := "test_calculate_total";
     fd_args := [];
     fd_body := [ Assign [Name "prices"] OtherExpr;
                  Assign [Name "quantities"] OtherExpr;
                  Assign [Name "subtotal"] OtherExpr;
                  Assign [Name "extra"] OtherExpr;
                  Assign [Name "result"] (Call (Name "calculate_total"));
                  Assert OtherExpr ];
     fd_decorator_list := [];
     fd_returns := None;
     fd_lineno := 1;
     fd_end_lineno := 9;
     fd_segment := Ok (Some (PyStr.join PyStr.nl
       [ "def test_calculate_total():";
         "    prices = [1, 2]";
         "    quantities = [1, 2]";
         EmptyString;
         "    subtotal = prices[0] * quantities[0]";
         "    extra = prices[1] * quantities[1]";
         "    result = calculate_total(subtotal, extra)";
         EmptyString;
         "    assert result == 5" ])) |}.

Definition scenario_A_file : source_file :=
  {| sf_path := {| parts := ["tests"; "test_totals.py"] |};
     sf_parse := Ok {| mod_body := [node_of scenario_A_function] |} |}.

(** A test function with a docstring of 47 characters that says what it
    verifies. *)
Definition documented_function : FunctionDefNode :=
  {| fd_name := "test_total";
     fd_args := [];
     fd_body := [ Expr (Constant (CStr "Verify that the total of the order is computed."));
                  Assign [Name "result"] (Call (Name "total"));
                  Assert OtherExpr ];
     fd_decorator_list := [];
     fd_returns := None;
     fd_lineno := 1;
     fd_end_lineno := 4;
     fd_segment := Ok (Some (PyStr.join PyStr.nl
       [ "def test_total():";
         "    " ++ PyStr.dq3 ++ "Verify that the total of the order is computed." ++ PyStr.dq3;
         "    result = total([1, 2])";
         "    assert result == 3" ])) |}.

Definition documented_file : source_file :=
  {| sf_path := {| parts := ["tests"; "test_order.py"] |};
     sf_parse := Ok {| mod_body := [node_of documented_function] |} |}.

(** A test function of 12 lines whose name has no underscore after the
    prefix. *)
Definition test_foo : FunctionDefNode :=
  {| fd_name := "test_foo";
     fd_args := [];
     fd_body := [ Assign [Name "value"] (Call (Name "foo")); Assert OtherExpr ];
     fd_decorator_list := [];
     fd_returns := None;
     fd_lineno := 1;
     fd_end_lineno := 13;
     fd_segment := Ok None |}.

(** A parsable test file with a helper function and no test function. *)
Definition helper_function : FunctionDefNode :=
  {| fd_name := "make_order";
     fd_args := [];
     fd_body := [ Block [] ];
     fd_decorator_list := [];
     fd_returns := None;
     fd_lineno := 3;
     fd_end_lineno := 4;
     fd_segment := Ok (Some (PyStr.join PyStr.nl
       [ "def make_order():"; "    return {'total': 3}" ])) |}.

Definition helpers_only_file : source_file :=
  {| sf_path := {| parts := ["tests"; "test_helpers.py"] |};
     sf_parse := Ok {| mod_body :=
       [ Import [ {| alias_name := "pytest"; asname := None |} ];
         node_of helper_function ] |} |}.

(** A test file that parses when it is read as UTF-8 and whose text cannot
    be decoded in the default encoding of the platform when a pass reads it
    again. *)
Definition undecodable_function : FunctionDefNode :=
  {| fd_name := "test_price";
     fd_args := [];
     fd_body := [ Assert OtherExpr ];
     fd_decorator_list := [];
     fd_returns := None;
     fd_lineno := 1;
     fd_end_lineno := 2;
     fd_segment :=
       Raise (ValueError ("'ascii' codec can't decode byte 0xe2 in position 40: "
                          ++ "ordinal not in range(128)")) |}.

Definition undecodable_file : source_file :=
  {| sf_path := {| parts := ["tests"; "test_price.py"] |};
     sf_parse := Ok {| mod_body := [node_of undecodable_function] |} |}.

(** Metrics with one non-zero field. *)
Definition business_logic_only : QualityMetrics :=
  set_business_logic_coverage 100 QualityMetrics_new.


(** Every computed metric is 100. *)
Definition full_metrics : QualityMetrics :=
  {| business_logic_coverage := 100; error_scenario_coverage := 100;
     mock_isolation_score := 100; realistic_data_score := 0;
     documentation_score := 100; maintenance_score := 100;
     integration_coverage := 0; overall_quality_score := 0;
     tracked_file_path := None |}.

End ValidatorSpec.

Module CreationSpec.
Import PyAst Creation.

(** No rule of the specification resolves the node: it is of another kind,
    or it is a constant that has no string form (the conversion raises). *)
Definition unresolvable (node : expr) : Prop :=
  match node with
  | Call _ | OtherExpr => True
  | Constant c => exists e, str_constant c = Raise e
  | _ => False
  end.

(** The rules of the specification for the label of an annotation. *)
Inductive type_label : expr -> string -> Prop :=
| label_name id :
    type_label (Name id) id
| label_attribute value member owner :
    type_label value owner ->
    type_label (Attribute value member) (owner ++ "." ++ member)
| label_subscript value slice base inner :
    type_label value base ->
    type_label slice inner ->
    type_label (Subscript value slice) (base ++ "[" ++ inner ++ "]")
| label_constant c text :
    str_constant c = Ok text ->
    type_label (Constant c) text
| label_any node :
    unresolvable node ->
    type_label node "Any".

(** [def f(x): ...] *)
Definition unannotated_function : FunctionDefNode :=
  {| fd_name := "f";
     fd_args := [ {| arg_name := "x"; annotation := None |} ];
     fd_body := [ Block [] ];
     fd_decorator_list := [];
     fd_returns := None;
     fd_lineno := 1;
     fd_end_lineno := 2;
     fd_segment := Ok None |}.

(** What the structural model holds for the argument [a]. *)
Definition models (a : arg) (p : param_info) : Prop :=
  param_name p = arg_name a
  /\ match annotation a with
     | Some ann =>
         exists label,
           param_type p = Some label
           /\ type_label ann label
           /\ (forall other, type_label ann other -> other = label)
     | None => param_type p = None
     end.

(** The module [src/shop/cart.py] with the class [Cart] whose body is
    [x = 1]. *)
Definition class_with_attribute : source_file :=
  {| sf_path := {| parts := ["src"; "shop"; "cart.py"] |};
     sf_parse := Ok {| mod_body :=
       [ ClassDef "Cart" [] [ Assign [Name "x"] (Constant (CInt 1)) ] [] ] |} |}.

(** A label is like one of the words when its lower-case form contains it. *)
Definition like (words : list string) (label : string) : bool :=
  existsb (fun w => PyStr.str_in w (PyStr.lower label)) words.

(** The literal the specification gives to a label; an earlier kind wins
    over a later one. *)
Inductive literal_for (label : string) : string -> Prop :=
| literal_integer :
    like ["int"; "number"] label = true ->
    literal_for label "1"
| literal_float :
    like ["int"; "number"] label = false ->
    like ["float"; "decimal"] label = true ->
    literal_for label "1.0"
| literal_boolean :
    like ["int"; "number"; "float"; "decimal"] label = false ->
    like ["bool"] label = true ->
    literal_for label "True"
| literal_list :
    like ["int"; "number"; "float"; "decimal"; "bool"] label = false ->
    like ["list"; "array"] label = true ->
    literal_for label "[]"
| literal_dict :
    like ["int"; "number"; "float"; "decimal"; "bool"; "list"; "array"] label = false ->
    like ["dict"; "object"] label = true ->
    literal_for label "{}"
| literal_placeholder :
    like ["int"; "number"; "float"; "decimal"; "bool"; "list"; "array";
          "dict"; "object"] label = false ->
    literal_for label "'test_value'".

(** The assignment line of a parameter. *)
Definition assigns (p : param_info) (line : string) : Prop :=
  exists label value,
    param_type p = Some label
    /\ literal_for label value
    /\ line = "        " ++ param_name p ++ " = " ++ value.

(** The line the loop of the generator builds for a labelled parameter. *)
Definition assignment_of (p : param_info) : string :=
  "        " ++ param_name p ++ " = "
  ++ test_value (PyStr.lower (match param_type p with
                              | Some label => label
                              | None => EmptyString
                              end)).

(** The parameters of [def total(a: int, b: int, c: int, d: int)]. *)
Definition four_integers : list param_info :=
  [ {| param_name := "a"; param_type := Some "int"; param_default := None |};
    {| param_name := "b"; param_type := Some "int"; param_default := None |};
    {| param_name := "c"; param_type := Some "int"; param_default := None |};
    {| param_name := "d"; param_type := Some "int"; param_default := None |} ].

(** The stub for parameters [names] with the assignment lines
    [assignments]: the assignments, the call with those parameters and the
    assertion that the result is not [None]; without parameters, the call
    and the assertion. *)
Definition stub_with (func_name : string) (names assignments : list string)
  : string :=
  match names with
  | [] =>
      text [ "        # Test with no parameters";
             "        result = " ++ func_name ++ "()";
             "        assert result is not None";
             "        assert isinstance(result, expected_type)  # Replace with actual expected type" ]
  | _ =>
      text [ "        # Test with valid parameters";
             text assignments;
             "        result = " ++ func_name ++ "(" ++ PyStr.join ", " names ++ ")";
             "        ";
             "        # Add assertions based on expected behavior";
             "        assert result is not None";
             "        # TODO: Add specific assertions for " ++ func_name ++ " functionality";
             "        # assert result.property == expected_value" ]
  end.

(** [def add(a: int, b: int) -> int: return a + b] *)
Definition add_function : FunctionDefNode :=
  {| fd_name := "add";
     fd_args := [ {| arg_name := "a"; annotation := Some (Name "int") |};
                  {| arg_name := "b"; annotation := Some (Name "int") |} ];
     fd_body := [ Block [] ];
     fd_decorator_list := [];
     fd_returns := Some (Name "int");
     fd_lineno := 1;
     fd_end_lineno := 2;
     fd_segment := Ok (Some (text [ "def add(a: int, b: int) -> int:";
                                "    return a + b" ])) |}.

(** The module [src/calc.py] that defines [add]. *)
Definition calc_file : source_file :=
  {| sf_path := {| parts := ["src"; "calc.py"] |};
     sf_parse := Ok {| mod_body := [node_of add_function] |} |}.

End CreationSpec.

Module ValidatorExtraSpec.
Import PyAst Validator ValidatorSpec.

(** The test functions of a file, in the order of [ast.walk]. *)
Definition tests_of (tree : Module_) : list FunctionDefNode :=
  filter is_test (function_defs tree).

(** The number of test functions of the file that satisfy [p]. *)
Definition count_where (p : FunctionDefNode -> bool) (tree : Module_) : Z :=
  Z.of_nat (length (filter p (tests_of tree))).

(** The lower-cased text of the function contains one of the words. *)
Definition mentions (words : list string) (func : FunctionDefNode) : bool :=
  existsb (fun w => PyStr.str_in w (PyStr.lower (text_of func))) words.

(** The text of the function uses one of the two raise idioms, as written. *)
Definition uses_raises (func : FunctionDefNode) : bool :=
  PyStr.str_in "with raises" (text_of func)
  || PyStr.str_in "pytest.raises" (text_of func).

(** The number the mock pass computes from the text of a function. *)
Definition mock_count (content : string) : Z :=
  sumZ (map (fun indicator => PyStr.count (PyStr.lower content) indicator)
            mock_indicators).

Definition mock_count_of (func : FunctionDefNode) : Z := mock_count (text_of func).

(** The percentage that [count] is of [total_tests], as a rational number;
    0 without tests. *)
Definition exact_percentage (count total_tests : Z) : Q :=
  if total_tests >? 0
  then (inject_Z count / inject_Z total_tests * 100)%Q
  else 0%Q.

(** [v] is [p] up to the rounding of float operations: they differ by at
    most one part in a thousand million. *)
Definition close_to (v p : Q) : Prop := (Qabs (v - p) <= 1 # 1000000000)%Q.

Definition isolated (config : TestQualityConfig) (func : FunctionDefNode) : bool :=
  (0 <? mock_count_of func) && (mock_count_of func <=? max_mock_objects_per_test config).

Definition over_mocked (config : TestQualityConfig) (func : FunctionDefNode) : bool :=
  negb (isolated config func) && (mock_count_of func >? max_mock_objects_per_test config).



(** The issues of the passes, as the source builds them. *)
Definition low_coverage (path : Path) (v : Q) : TestIssue :=
  {| file_path := str_path path;
     line_number := 1;
     issue_type := "low_business_logic_coverage";
     severity := "high";
     description := "Low business logic coverage: " ++ PyStr.format_1f v ++ "%";
     suggestion := "Add tests that verify core business logic and user workflows" |}.

Definition too_many_mocks (path : Path) (func : FunctionDefNode) : TestIssue :=
  {| file_path := str_path path;
     line_number := fd_lineno func;
     issue_type := "too_many_mocks";
     severity := "medium";
     description := "Test '" ++ fd_name func ++ "' uses "
       ++ PyStr.str_int (mock_count_of func) ++ " mock objects";
     suggestion := "Consider simplifying the test or breaking it into multiple focused tests" |}.


(** The issues of the structure pass for one test function. *)
Definition structure_issues (config : TestQualityConfig) (path : Path)
    (func : FunctionDefNode) : list TestIssue :=
  ((if func_lines_of func <? min_test_length config then [too_short path func] else [])
   ++ (if Z.of_nat (length (filter is_Assert (walk (node_of func))))
          <? min_assertions_per_test config
       then [too_few_assertions path func] else []))%list.

(** The state after a pass that set the metrics with [f] and appended
    [new]. *)
Definition after (st : state) (f : QualityMetrics -> QualityMetrics)
    (new : list TestIssue) : state :=
  {| metrics := f (metrics st); issues := (issues st ++ new)%list |}.

(** Every metric of the value is zero. *)
Definition all_zero (m : QualityMetrics) : Prop :=
  (business_logic_coverage m == 0 /\ error_scenario_coverage m == 0
   /\ mock_isolation_score m == 0 /\ realistic_data_score m == 0
   /\ documentation_score m == 0 /\ maintenance_score m == 0
   /\ integration_coverage m == 0 /\ overall_quality_score m == 0)%Q.

(** The number of issues of a type, of a severity. *)
Definition count_type (t : string) (found : list TestIssue) : Z :=
  Z.of_nat (length (filter (fun i => String.eqb (issue_type i) t) found)).

(** [d.get(k)] on a dictionary kept in insertion order. *)
Fixpoint lookup (k : string) (d : list (string * Z)) : option Z :=
  match d with
  | [] => None
  | (k', n) :: r => if String.eqb k' k then Some n else lookup k r
  end.

(** The count a dictionary holds for a key, 0 when the key is absent. *)
Definition count_of (o : option Z) : Z :=
  match o with
  | Some n => n
  | None => 0
  end.

(** The severity of the issue is one of the four the summary counts. *)
Definition known_severity (i : TestIssue) : bool :=
  existsb (String.eqb (severity i)) ["critical"; "high"; "medium"; "low"].

(** The order of the grades, from F to A. *)
Definition grade_rank (g : string) : Z :=
  if String.eqb g "A" then 4
  else if String.eqb g "B" then 3
  else if String.eqb g "C" then 2
  else if String.eqb g "D" then 1
  else 0.

(** Reading and parsing the file succeeds. *)
Definition parsed (f : source_file) : bool :=
  match sf_parse f with
  | Ok _ => true
  | Raise _ => false
  end.

(** The two recommendations a report gives for metrics at zero. *)
Definition isolation_advice : string :=
  "Improve test isolation (currently 0.0%). "
  ++ "Ensure tests are properly isolated and don't depend on external systems.".

Definition documentation_advice : string :=
  "Improve test documentation (currently 0.0%). "
  ++ "Add descriptive docstrings to explain test purpose and expected behavior.".

End ValidatorExtraSpec.

Module CreationExtraSpec.
Import PyAst Creation CreationSpec.

(** [isinstance(e, ast.Name)] *)
Definition is_Name (e : expr) : bool :=
  match e with
  | Name _ => true
  | _ => false
  end.

(** A statement that assigns to a bare name. *)
Definition assigns_name (item : stmt) : bool :=
  match item with
  | Assign targets _ => existsb is_Name targets
  | _ => false
  end.

(** A class definition whose body holds such a statement. *)
Definition class_assigns_name (node : stmt) : bool :=
  match node with
  | ClassDef _ _ cbody _ => existsb assigns_name cbody
  | _ => false
  end.

(** The model of a method. *)
Definition method_of (fd : FunctionDefNode) : func_info :=
  with_is_dunder (PyStr.startswith (fd_name fd) "__") (_analyze_function fd).

(** The model of a class: its name, the bases that are bare names, one
    method per function definition of its body, no property and no
    decorator. *)
Definition class_model (cname : string) (cbases : list expr) (cbody : list stmt)
  : class_info :=
  {| class_name := cname;
     class_is_private := PyStr.startswith cname "_";
     bases := select (fun b => match b with Name id => Some id | _ => None end) cbases;
     methods := map method_of (select as_FunctionDef cbody);
     properties := [];
     class_docstring := or_empty (get_docstring cbody);
     class_decorators := [] |}.

Definition class_model_of (node : stmt) : option class_info :=
  match node with
  | ClassDef cname cbases cbody _ => Some (class_model cname cbases cbody)
  | _ => None
  end.

(** The constants of a statement of the module body: the targets of an
    assignment that are bare names in capitals. *)
Definition constants_of (node : stmt) : list constant_info :=
  match node with
  | Assign targets value =>
      select (fun target =>
                match target with
                | Name id =>
                    if PyStr.isupper id
                    then Some {| const_name := id;
                                 const_value := _get_node_value value |}
                    else None
                | _ => None
                end) targets
  | _ => []
  end.

(** The structural model of a module body. *)
Definition module_model (file_path : Path) (ip : string) (tree : Module_)
  : module_info :=
  {| name := stem file_path;
     import_path := ip;
     error := None;
     functions := map _analyze_function (select as_FunctionDef (mod_body tree));
     classes := select class_model_of (mod_body tree);
     imports := imports_of (mod_body tree);
     constants := flat_map constants_of (mod_body tree) |}.

(** The parameter has a type label. *)
Definition labelled (p : param_info) : bool :=
  match param_type p with
  | Some _ => true
  | None => false
  end.

(** Every parameter up to the first one whose label mentions a list has a
    label. *)
Fixpoint labelled_up_to_list (params : list param_info) : bool :=
  match params with
  | [] => true
  | p :: r =>
      match param_type p with
      | Some label => PyStr.str_in "list" (PyStr.lower label) || labelled_up_to_list r
      | None => false
      end
  end.

(** The parameters for which the tests of a function can be generated. *)
Definition generable (config : TestCreationConfig) (params : list param_info) : bool :=
  forallb labelled (firstn 3 params)
  && (negb (include_edge_cases config) || labelled_up_to_list params).

(** The exception of [None.lower()]. *)
Definition no_lower : exn := AttributeError "NoneType" "lower".

(** [r] returns when [b] holds and raises [no_lower] when it does not. *)
Definition returns_when {A} (b : bool) (r : result A) : Prop :=
  if b then exists a, r = Ok a else r = Raise no_lower.

(** The model without its private functions and classes. *)
Definition public_part (info : module_info) : module_info :=
  {| name := name info;
     import_path := import_path info;
     error := error info;
     functions := filter (fun f => negb (func_is_private f)) (functions info);
     classes := filter (fun c => negb (class_is_private c)) (classes info);
     imports := imports info;
     constants := constants info |}.

End CreationExtraSpec.

From Stdlib Require Import Sorted Permutation.

Module DiscoverySpec.
Import PyAst Validator Discovery.

(** What the search of a pattern yields, nothing when it raises. *)
Definition found_by (rglob : string -> result (list Path)) (pattern : string)
  : list Path :=
  match rglob pattern with
  | Ok found => found
  | Raise _ => []
  end.

(** The path lies below the root: its parts are those of the root followed
    by the names of directories and of the file. *)
Definition under (root p : Path) : Prop :=
  exists rel, rel <> [] /\ ~ In "/" rel /\ parts p = (parts root ++ rel)%list.

(** The test of [under]. *)
Definition underb (root p : Path) : bool :=
  let rel := skipn (length (parts root)) (parts p) in
  (if list_eq_dec string_dec (parts p) (parts root ++ rel) then true else false)
  && negb (Nat.eqb (length rel) 0)
  && forallb (fun s => negb (String.eqb s "/")) rel.

(** Every pattern of the configuration can be searched, and what the search
    yields lies below the root. *)
Definition searchable (config : TestQualityConfig) (root : Path)
    (rglob : string -> result (list Path)) : Prop :=
  forall pattern,
    In pattern (test_file_patterns config) ->
    exists found, rglob pattern = Ok found /\ Forall (under root) found.

(** Each path of the list is at most the next one. *)
Definition in_order (l : list Path) : Prop :=
  Sorted (fun p q => path_le p q = true) l.

(** The files of all patterns, pattern by pattern, without those that have
    an excluded name among their parts. *)
Definition candidates (config : TestQualityConfig)
    (rglob : string -> result (list Path)) : list Path :=
  flat_map (fun pattern =>
              filter (fun p => negb (should_exclude config p)) (found_by rglob pattern))
           (test_file_patterns config).

Definition path_eq_dec (p q : Path) : {p = q} + {p <> q}.
Proof. decide equality. apply (list_eq_dec string_dec). Defined.

(** A project in the directory [proj] with the files [tests/test_b.py],
    [tests/test_a_test.py] and [.venv/test_c.py]; the first pattern of the
    default configuration yields the three, the second one
    [tests/test_a_test.py]. *)
Definition sample_root : Path := {| parts := ["proj"] |}.

Definition sample_rglob (pattern : string) : result (list Path) :=
  if String.eqb pattern "test_*.py"
  then Ok [ {| parts := ["proj"; "tests"; "test_b.py"] |};
            {| parts := ["proj"; "tests"; "test_a_test.py"] |};
            {| parts := ["proj"; ".venv"; "test_c.py"] |} ]
  else Ok [ {| parts := ["proj"; "tests"; "test_a_test.py"] |} ].

(** The same project in the directory [env/proj]. *)
Definition sample_env_root : Path := {| parts := ["env"; "proj"] |}.

Definition sample_env_rglob (pattern : string) : result (list Path) :=
  if String.eqb pattern "test_*.py"
  then Ok [ {| parts := ["env"; "proj"; "tests"; "test_b.py"] |};
            {| parts := ["env"; "proj"; "tests"; "test_a_test.py"] |};
            {| parts := ["env"; "proj"; ".venv"; "test_c.py"] |} ]
  else Ok [ {| parts := ["env"; "proj"; "tests"; "test_a_test.py"] |} ].

End DiscoverySpec.

Module FrameworkSpec.
Import PyAst Validator Creation Discovery Framework.

(** Reading and parsing the file succeeds. *)
Definition parses (w : world) (p : Path) : bool :=
  match open_parse w p with
  | Ok _ => true
  | Raise _ => false
  end.

(** The validation result that carries no measurement. *)
Definition unscored (v : validation) : Prop :=
  v = Validation 0 0 "F"
  \/ exists e, v = ValidationError ("Validation failed: " ++ str_exn e).

(** The call wrote no text to any file. *)
Definition wrote_nothing (effects : list effect) : Prop :=
  forall p content, ~ In (WriteFile p content) effects.

(** The recommendation that closes every list of recommendations. *)
Definition generate_advice (total_functions total_classes : Z) : string :=
  "Generate unit tests for " ++ PyStr.str_int total_functions
  ++ " functions and " ++ PyStr.str_int total_classes ++ " classes "
  ++ "to ensure comprehensive code coverage.".

(** A file system with the module [src/calc.py] of the project [proj],
    where every directory can be made and every file written, and where the
    search finds the test file [tests/test_calc.py], which parses. *)
Definition sample_world : world :=
  {| joinpath := fun p s => {| parts := (parts p ++ PyStr.split_on "/" s)%list |};
     file_exists := fun _ => true;
     open_parse := fun p =>
       if String.eqb (str_path p) "proj/src/calc.py"
       then sf_parse CreationSpec.calc_file
       else Ok {| mod_body := [] |};
     rglob := fun pattern =>
       if String.eqb pattern "test_*.py"
       then Ok [ {| parts := ["proj"; "tests"; "test_calc.py"] |} ]
       else Ok [];
     mkdir := fun _ => Ok tt;
     open_for_writing := fun _ => Ok tt;
     write := fun _ _ => Ok tt |}.

(** The same file system where the module read is [def f(x): ...], and
    where it is the module with the class [Cart] whose body is [x = 1]. *)
Definition unannotated_world : world :=
  {| joinpath := joinpath sample_world;
     file_exists := fun _ => true;
     open_parse := fun _ =>
       Ok {| mod_body := [node_of CreationSpec.unannotated_function] |};
     rglob := rglob sample_world;
     mkdir := fun _ => Ok tt;
     open_for_writing := fun _ => Ok tt;
     write := fun _ _ => Ok tt |}.

Definition class_attribute_world : world :=
  {| joinpath := joinpath sample_world;
     file_exists := fun _ => true;
     open_parse := fun _ => sf_parse CreationSpec.class_with_attribute;
     rglob := rglob sample_world;
     mkdir := fun _ => Ok tt;
     open_for_writing := fun _ => Ok tt;
     write := fun _ _ => Ok tt |}.

End FrameworkSpec.

Module LoggerSpec.
Import Logger.

(** The keys of a dictionary are pairwise different. *)
Definition well_formed {V} (d : dict V) : Prop := NoDup (map fst d).

End LoggerSpec.


(** * Properties *)

(** ** The library functions of the embedding on examples *)

Example str_int_examples :
  PyStr.str_int 1205 = "1205" /\ PyStr.str_int (-8) = "-8" /\ PyStr.str_int 0 = "0".
Proof. repeat split. Qed.

Example format_1f_examples :
  PyStr.format_1f (200 # 3) = "66.7" /\ PyStr.format_1f (25 # 4) = "6.2"
  /\ PyStr.format_1f 0 = "0.0" /\ PyStr.format_1f 100 = "100.0".
Proof. repeat split. Qed.

Example count_examples :
  PyStr.count "mock_mock patch aaa" "mock" = 2 /\ PyStr.count "aaaa" "aa" = 2.
Proof. repeat split. Qed.

Example title_examples :
  PyStr.title "my_func2x" = "My_Func2X" /\ PyStr.title "add" = "Add".
Proof. repeat split. Qed.

Example strip_examples :
  PyStr.strip "  a b  " = "a b" /\ PyStr.lower "Point[INT]" = "point[int]".
Proof. repeat split. Qed.

Example repr_examples :
  PyStr.repr_str "it's" = PyStr.dq ++ "it's" ++ PyStr.dq
  /\ PyStr.repr_str "a" = "'a'".
Proof. repeat split. Qed.

Example cleandoc_example :
  PyStr.cleandoc (PyStr.join PyStr.nl ["  Hello"; "      world"; "        indented"; "    "])
  = PyStr.join PyStr.nl ["Hello"; "world"; "  indented"].
Proof. reflexivity. Qed.

Example walk_is_breadth_first :
  PyAst.walk (PyAst.Block [ PyAst.Block [ PyAst.Assert PyAst.OtherExpr ];
                            PyAst.Expr PyAst.OtherExpr ])
  = [ PyAst.Block [ PyAst.Block [ PyAst.Assert PyAst.OtherExpr ];
                    PyAst.Expr PyAst.OtherExpr ];
      PyAst.Block [ PyAst.Assert PyAst.OtherExpr ];
      PyAst.Expr PyAst.OtherExpr;
      PyAst.Assert PyAst.OtherExpr ].
Proof. reflexivity. Qed.

Example import_path_example :
  Creation._get_import_path {| parts := ["src"; "core"; "calculator.py"] |}
  = Ok "core.calculator"
  /\ Creation.stem {| parts := ["src"; "core"; "calculator.py"] |} = "calculator".
Proof. repeat split. Qed.

(** ** Loops that raise *)

Section Loops.
Context {A B : Type} (body : A -> B -> result B).

(** A loop whose body raises at some element, whatever the accumulator,
    raises. *)
Lemma rfold_raises (l : list A) (x : A) :
  In x l ->
  (forall acc, exists e, body x acc = Raise e) ->
  forall acc, exists e, rfold body l acc = Raise e.
Proof.
  intros Hin Hx. induction l as [|y l IH]; [destruct Hin|].
  intros acc. simpl. destruct Hin as [->|Hin].
  - destruct (Hx acc) as [e ->]. exists e. reflexivity.
  - destruct (body y acc) as [b|e]; simpl.
    + apply IH, Hin.
    + exists e. reflexivity.
Qed.

End Loops.

(** ** The quality analyzer *)

Module ValidatorFacts.
Import PyAst Validator ValidatorSpec.

Lemma bind_ok {A B} {c : M A} (k : A -> M B) {st st' : state} {a : A} :
  c st = (Ok a, st') -> bind c k st = k a st'.
Proof. intros H. unfold bind. rewrite H. reflexivity. Qed.

Lemma bind_raise {A B} {c : M A} (k : A -> M B) {st st' : state} {e : exn} :
  c st = (Raise e, st') -> bind c k st = (Raise e, st').
Proof. intros H. unfold bind. rewrite H. reflexivity. Qed.

Lemma emits_ret {A} P (a : A) : emits P (ret a).
Proof.
  intros [m i]. exists a, m, []. simpl. rewrite app_nil_r. auto.
Qed.

Lemma emits_bind {A B} P (c : M A) (k : A -> M B) :
  emits P c -> (forall a, emits P (k a)) -> emits P (bind c k).
Proof.
  intros Hc Hk st. destruct (Hc st) as (a & m & new & E & F).
  destruct (Hk a {| metrics := m; issues := (issues st ++ new)%list |})
    as (b & m' & new' & E' & F').
  exists b, m', (new ++ new')%list. unfold bind. rewrite E, E'. simpl.
  rewrite app_assoc. split; [reflexivity|]. apply Forall_app; auto.
Qed.

Lemma emits_append P (i : TestIssue) : P i -> emits P (append i).
Proof.
  intros H st. exists tt, (metrics st), [i]. split; [reflexivity|].
  constructor; auto.
Qed.

Lemma emits_when P (b : bool) (c : M unit) : emits P c -> emits P (when b c).
Proof. intros H. destruct b; [exact H | apply emits_ret]. Qed.

Lemma emits_set_metrics P f : emits P (set_metrics f).
Proof.
  intros st. exists tt, (f (metrics st)), []. simpl. rewrite app_nil_r. auto.
Qed.

Lemma emits_get_metrics P (k : QualityMetrics -> M unit) :
  (forall m, emits P (k m)) -> emits P (bind get_metrics k).
Proof.
  intros H. apply emits_bind; [|exact H].
  intros [m i]. exists m, m, []. simpl. rewrite app_nil_r. auto.
Qed.

Lemma emits_lift {A} P (r : result A) (a : A) : r = Ok a -> emits P (lift r).
Proof.
  intros -> [m i]. exists a, m, []. simpl. rewrite app_nil_r. auto.
Qed.

Lemma emits_for_fold {A B} P (body : A -> B -> M B) (l : list A) :
  (forall x acc, emits P (body x acc)) ->
  forall acc, emits P (for_fold l acc body).
Proof.
  intros H. induction l as [|x l IH]; intros acc; simpl.
  - apply emits_ret.
  - apply emits_bind; [apply H | intros a; apply IH].
Qed.

Lemma emits_weaken {A} (P Q : TestIssue -> Prop) (c : M A) :
  (forall i, P i -> Q i) -> emits P c -> emits Q c.
Proof.
  intros HPQ H st. destruct (H st) as (a & m & new & E & F).
  exists a, m, new. split; [exact E|]. eapply Forall_impl; eauto.
Qed.

(** The guarded division of the passes never divides by zero. *)
Lemma percentage_ok (count total_tests : Z) :
  exists v, percentage count total_tests = Ok v.
Proof.
  unfold percentage. destruct (total_tests >? 0) eqn:E; [|eauto].
  unfold py_div.
  destruct (Qeq_bool (inject_Z total_tests) 0) eqn:E0; [|simpl; eauto].
  apply Qeq_bool_eq in E0. unfold Qeq in E0. simpl in E0. lia.
Qed.

Lemma percentage_zero (count : Z) : percentage count 0 = Ok 0%Q.
Proof. reflexivity. Qed.

Lemma emits_percentage P (count total_tests : Z) (k : Q -> M unit) :
  (forall v, emits P (k v)) ->
  emits P (bind (lift (percentage count total_tests)) k).
Proof.
  intros H. destruct (percentage_ok count total_tests) as [v E].
  apply emits_bind; [eapply emits_lift; exact E | exact H].
Qed.

Lemma structure_emits config path tree :
  emits (has_type ["test_too_short"; "insufficient_assertions"])
        (_analyze_test_structure config path tree).
Proof.
  unfold _analyze_test_structure. apply emits_for_fold. intros func [].
  destruct (negb (is_test func)); [apply emits_ret|].
  apply emits_bind; [|intros _];
    apply emits_when, emits_append; unfold has_type; simpl; auto.
Qed.

(** *** Passes that read the text of the test functions *)

Lemma emits_appends {A} P (c : M A) : emits P c -> appends P c.
Proof.
  intros H st. destruct (H st) as (a & m & new & E & F).
  exists (Ok a), m, new. auto.
Qed.

Lemma appends_bind {A B} P (c : M A) (k : A -> M B) :
  appends P c -> (forall a, appends P (k a)) -> appends P (bind c k).
Proof.
  intros Hc Hk st. destruct (Hc st) as ([a|e] & m & new & E & F).
  - destruct (Hk a {| metrics := m; issues := (issues st ++ new)%list |})
      as (r & m' & new' & E' & F').
    exists r, m', (new ++ new')%list. unfold bind. rewrite E, E'. simpl.
    rewrite app_assoc. split; [reflexivity|]. apply Forall_app; auto.
  - exists (Raise e), m, new. unfold bind. rewrite E. auto.
Qed.

Lemma appends_lift {A} P (r : result A) : appends P (lift r).
Proof.
  intros [m i]. exists r, m, []. simpl. rewrite app_nil_r. auto.
Qed.

Lemma appends_for_fold {A B} P (body : A -> B -> M B) (l : list A) :
  (forall x acc, appends P (body x acc)) ->
  forall acc, appends P (for_fold l acc body).
Proof.
  intros H. induction l as [|x l IH]; intros acc; simpl.
  - apply emits_appends, emits_ret.
  - apply appends_bind; [apply H | intros a; apply IH].
Qed.

Lemma emits_for_fold_in {A B} P (body : A -> B -> M B) (l : list A) :
  (forall x acc, In x l -> emits P (body x acc)) ->
  forall acc, emits P (for_fold l acc body).
Proof.
  induction l as [|x l IH]; intros H acc; simpl.
  - apply emits_ret.
  - apply emits_bind; [apply H; left; reflexivity|].
    intros a. apply IH. intros y acc' Hin. apply H. right. exact Hin.
Qed.

(** In a file whose text can be read again, a pass gets the text of each
    test function. *)
Lemma readable_content tree func :
  readable tree ->
  In func (function_defs tree) ->
  is_test func = true ->
  func_content_of func = Ok (text_of func).
Proof.
  unfold readable. rewrite forallb_forall. intros H Hin Ht.
  specialize (H func Hin). rewrite Ht in H. cbn [negb orb] in H.
  unfold can_read in H. unfold func_content_of, text_of.
  destruct (fd_segment func) as [[text|]|e]; [reflexivity|reflexivity|discriminate].
Qed.

(** The part of a pass after its loop: the guarded division, the metric and,
    in the business-logic pass, the issue. *)
Lemma business_logic_tail config path (n total_tests : Z) :
  emits (has_type ["low_business_logic_coverage"])
    (v <- lift (percentage n total_tests) ;;
     set_metrics (set_business_logic_coverage v) ;;
     m <- get_metrics ;;
     when (Qltb (business_logic_coverage m) (min_business_logic_threshold config))
       (append {| file_path := str_path path;
                  line_number := 1;
                  issue_type := "low_business_logic_coverage";
                  severity := "high";
                  description := "Low business logic coverage: "
                    ++ PyStr.format_1f (business_logic_coverage m) ++ "%";
                  suggestion := "Add tests that verify core business logic and user workflows" |})).
Proof.
  apply emits_percentage. intros v.
  apply emits_bind; [apply emits_set_metrics|intros _].
  apply emits_get_metrics. intros m.
  apply emits_when, emits_append. unfold has_type; simpl; auto.
Qed.

(** Whether or not the text can be read, the three passes append nothing but
    their own issues. *)
Lemma business_logic_appends config path tree :
  appends (has_type ["low_business_logic_coverage"])
          (_analyze_business_logic_coverage config path tree).
Proof.
  unfold _analyze_business_logic_coverage. apply appends_bind.
  - apply appends_for_fold. intros func n.
    destruct (negb (is_test func)); [apply emits_appends, emits_ret|].
    apply appends_bind; [apply appends_lift|intros content].
    destruct (existsb _ _); apply emits_appends, emits_ret.
  - intros n. apply emits_appends, business_logic_tail.
Qed.

Lemma error_scenarios_appends config path tree :
  appends (fun _ => False) (_analyze_error_scenarios config path tree).
Proof.
  unfold _analyze_error_scenarios. apply appends_bind.
  - apply appends_for_fold. intros func n.
    destruct (negb (is_test func)); [apply emits_appends, emits_ret|].
    apply appends_bind; [apply appends_lift|intros content].
    destruct (_ || _); apply emits_appends, emits_ret.
  - intros n. apply emits_appends, emits_percentage. intros v.
    apply emits_set_metrics.
Qed.

Lemma mock_usage_appends config path tree :
  appends (has_type ["too_many_mocks"]) (_analyze_mock_usage config path tree).
Proof.
  unfold _analyze_mock_usage. apply appends_bind.
  - apply appends_for_fold. intros func n.
    destruct (negb (is_test func)); [apply emits_appends, emits_ret|].
    apply appends_bind; [apply appends_lift|intros content].
    apply emits_appends.
    destruct (_ && _); [apply emits_ret|].
    destruct (_ >? _); [|apply emits_ret].
    apply emits_bind; [|intros _; apply emits_ret].
    apply emits_append. unfold has_type; simpl; auto.
  - intros n. apply emits_appends, emits_percentage. intros v.
    apply emits_set_metrics.
Qed.

(** When the text of every test function can be read, they do not raise. *)
Lemma business_logic_emits config path tree :
  readable tree ->
  emits (has_type ["low_business_logic_coverage"])
        (_analyze_business_logic_coverage config path tree).
Proof.
  intros Hr. unfold _analyze_business_logic_coverage. apply emits_bind.
  - apply emits_for_fold_in. intros func n Hin.
    destruct (is_test func) eqn:Ht; cbn [negb]; [|apply emits_ret].
    rewrite (readable_content tree func Hr Hin Ht).
    apply emits_bind; [eapply emits_lift; reflexivity|intros content].
    destruct (existsb _ _); apply emits_ret.
  - intros n. apply business_logic_tail.
Qed.

Lemma error_scenarios_emits config path tree :
  readable tree ->
  emits (fun _ => False) (_analyze_error_scenarios config path tree).
Proof.
  intros Hr. unfold _analyze_error_scenarios. apply emits_bind.
  - apply emits_for_fold_in. intros func n Hin.
    destruct (is_test func) eqn:Ht; cbn [negb]; [|apply emits_ret].
    rewrite (readable_content tree func Hr Hin Ht).
    apply emits_bind; [eapply emits_lift; reflexivity|intros content].
    destruct (_ || _); apply emits_ret.
  - intros n. apply emits_percentage. intros v. apply emits_set_metrics.
Qed.

Lemma mock_usage_emits config path tree :
  readable tree ->
  emits (has_type ["too_many_mocks"]) (_analyze_mock_usage config path tree).
Proof.
  intros Hr. unfold _analyze_mock_usage. apply emits_bind.
  - apply emits_for_fold_in. intros func n Hin.
    destruct (is_test func) eqn:Ht; cbn [negb]; [|apply emits_ret].
    rewrite (readable_content tree func Hr Hin Ht).
    apply emits_bind; [eapply emits_lift; reflexivity|intros content].
    destruct (_ && _); [apply emits_ret|].
    destruct (_ >? _); [|apply emits_ret].
    apply emits_bind; [|intros _; apply emits_ret].
    apply emits_append. unfold has_type; simpl; auto.
  - intros n. apply emits_percentage. intros v. apply emits_set_metrics.
Qed.

(** The skipped functions of a loop leave the counter and the objects as
    they are. *)
Lemma for_fold_skips {B} (body : FunctionDefNode -> B -> M B)
    (l : list FunctionDefNode) (acc : B) (st : state) :
  (forall func, In func l -> body func acc st = (Ok acc, st)) ->
  for_fold l acc body st = (Ok acc, st).
Proof.
  induction l as [|x l IH]; intros H; [reflexivity|].
  simpl. unfold bind. rewrite (H x (or_introl eq_refl)).
  apply IH. intros func Hin. apply H. right. exact Hin.
Qed.

(** A loop that skips the functions that are no tests and raises at a test
    function stops at the first test function, with nothing changed. *)
Lemma for_fold_raises {B} (body : FunctionDefNode -> B -> M B)
    (l : list FunctionDefNode) (acc : B) (st : state) (e : exn) :
  (forall func, is_test func = false -> body func acc st = (Ok acc, st)) ->
  (forall func, is_test func = true -> body func acc st = (Raise e, st)) ->
  (exists func, In func l /\ is_test func = true) ->
  for_fold l acc body st = (Raise e, st).
Proof.
  intros Hskip Hraise.
  induction l as [|x l IH]; intros (func & Hin & Ht); [destruct Hin|].
  simpl. unfold bind. destruct (is_test x) eqn:Ex.
  - rewrite (Hraise x Ex). reflexivity.
  - rewrite (Hskip x Ex). apply IH.
    destruct Hin as [->|Hin]; [congruence|]. eauto.
Qed.

(** The documentation pass stops with [AttributeError] at the first test
    function, before it has changed anything. *)
Lemma documentation_raises config path tree (st : state) :
  has_test tree ->
  _analyze_documentation config path tree st
  = (Raise (AttributeError "FunctionDef" "docstring"), st).
Proof.
  intros H. unfold _analyze_documentation. unfold bind at 1.
  rewrite for_fold_raises with (e := AttributeError "FunctionDef" "docstring");
    [reflexivity| | |exact H].
  - intros func E. rewrite E. reflexivity.
  - intros func E. rewrite E. reflexivity.
Qed.

(** With a test function in the file, the passes after the structure pass
    never get to their end: one of the three that read the text raises, or
    the documentation pass does. Until then only issues of the
    business-logic and mock passes are appended. *)
Lemma later_passes_raise {A} config path tree (rest : unit -> M A) (st : state) :
  has_test tree ->
  exists e m later,
    (_analyze_business_logic_coverage config path tree ;;
     _analyze_error_scenarios config path tree ;;
     _analyze_mock_usage config path tree ;;
     bind (_analyze_documentation config path tree) rest) st
    = (Raise e, {| metrics := m; issues := (issues st ++ later)%list |})
    /\ Forall (has_type ["low_business_logic_coverage"; "too_many_mocks"]) later
    /\ (readable tree -> e = AttributeError "FunctionDef" "docstring").
Proof.
  intros Ht.
  assert (W2 : forall l, Forall (has_type ["low_business_logic_coverage"]) l ->
               Forall (has_type ["low_business_logic_coverage"; "too_many_mocks"]) l)
    by (intros l F; eapply Forall_impl; [|exact F]; unfold has_type; simpl; tauto).
  assert (W4 : forall l, Forall (has_type ["too_many_mocks"]) l ->
               Forall (has_type ["low_business_logic_coverage"; "too_many_mocks"]) l)
    by (intros l F; eapply Forall_impl; [|exact F]; unfold has_type; simpl; tauto).
  destruct (business_logic_appends config path tree st)
    as ([[]|e2] & m2 & new2 & E2 & F2).
  2:{ rewrite (bind_raise _ E2). exists e2, m2, new2.
      split; [reflexivity|]. split; [apply W2, F2|]. intros Hr.
      destruct (business_logic_emits config path tree Hr st) as (a & m & new & E & _).
      rewrite E in E2. discriminate E2. }
  rewrite (bind_ok _ E2).
  set (st2 := {| metrics := m2; issues := (issues st ++ new2)%list |}).
  destruct (error_scenarios_appends config path tree st2)
    as (r3 & m3 & new3 & E3 & F3).
  assert (new3 = []) as -> by (destruct new3; [reflexivity|inversion F3; tauto]).
  rewrite app_nil_r in E3. cbn [issues st2] in E3.
  destruct r3 as [[]|e3].
  2:{ rewrite (bind_raise _ E3). exists e3, m3, new2.
      split; [reflexivity|]. split; [apply W2, F2|]. intros Hr.
      destruct (error_scenarios_emits config path tree Hr st2) as (a & m & new & E & _).
      rewrite E in E3. discriminate E3. }
  rewrite (bind_ok _ E3).
  set (st3 := {| metrics := m3; issues := (issues st ++ new2)%list |}).
  destruct (mock_usage_appends config path tree st3)
    as (r4 & m4 & new4 & E4 & F4).
  cbn [issues st3] in E4. rewrite <- app_assoc in E4.
  destruct r4 as [[]|e4].
  2:{ rewrite (bind_raise _ E4). exists e4, m4, (new2 ++ new4)%list.
      split; [reflexivity|]. split; [apply Forall_app; auto|]. intros Hr.
      destruct (mock_usage_emits config path tree Hr st3) as (a & m & new & E & _).
      rewrite E in E4. discriminate E4. }
  rewrite (bind_ok _ E4).
  rewrite (bind_raise _ (documentation_raises config _ _ _ Ht)).
  exists (AttributeError "FunctionDef" "docstring"), m4, (new2 ++ new4)%list.
  split; [reflexivity|]. split; [apply Forall_app; auto|reflexivity].
Qed.

(** What [analyze_test_file] returns for a parsed file with a test function:
    fresh metrics, the issues of the structure pass, then issues of the
    business-logic and mock passes, then one [analysis_error]; it is that of
    the documentation pass when the text of the test functions can be read
    again, and that of the failed read otherwise. *)
Lemma analysis_stops config f tree :
  sf_parse f = Ok tree ->
  has_test tree ->
  exists later e,
    Forall (has_type ["low_business_logic_coverage"; "too_many_mocks"]) later
    /\ analyze_test_file config f
       = Ok (QualityMetrics_new,
             (issues (snd (_analyze_test_structure config (sf_path f) tree state_new))
              ++ later ++ [analysis_error (sf_path f) e])%list)
    /\ (readable tree -> e = AttributeError "FunctionDef" "docstring").
Proof.
  intros Hp Ht. unfold analyze_test_file. rewrite Hp. fold state_new.
  destruct (structure_emits config (sf_path f) tree state_new)
    as ([] & m1 & new1 & E1 & _).
  change (issues state_new ++ new1)%list with new1 in E1.
  rewrite (bind_ok _ E1). rewrite E1. cbn [snd issues].
  match goal with
  | |- context [bind (_analyze_documentation _ _ _) ?k] =>
      destruct (later_passes_raise config (sf_path f) tree k
                  {| metrics := m1; issues := new1 |} Ht)
        as (e & m & later & E & F & R)
  end.
  rewrite E. exists later, e. split; [exact F|]. split; [|exact R].
  unfold analysis_failed, analysis_error. cbn [issues]. rewrite <- !app_assoc.
  reflexivity.
Qed.

(** A loop that skips the functions that are no tests stops at the first
    test function at which its body raises. *)
Lemma for_fold_first_test {B} (body : FunctionDefNode -> B -> M B)
    (l : list FunctionDefNode) (acc : B) (st : state)
    (func : FunctionDefNode) (rest : list FunctionDefNode) (e : exn) :
  (forall g, is_test g = false -> body g acc st = (Ok acc, st)) ->
  filter is_test l = func :: rest ->
  body func acc st = (Raise e, st) ->
  for_fold l acc body st = (Raise e, st).
Proof.
  intros Hskip Hf Hraise. induction l as [|x l IH]; [discriminate Hf|].
  cbn [filter] in Hf. cbn [for_fold]. unfold bind.
  destruct (is_test x) eqn:Ex.
  - injection Hf as -> _. rewrite Hraise. reflexivity.
  - rewrite (Hskip x Ex). apply IH, Hf.
Qed.

(** When the file cannot be read again at its first test function, the
    business-logic pass raises before it has changed anything, and the
    analysis ends in the handler after the structure pass. *)
Lemma unreadable_text_ends_analysis config f tree func rest e :
  sf_parse f = Ok tree ->
  filter is_test (function_defs tree) = func :: rest ->
  fd_segment func = Raise e ->
  (forall st, _analyze_business_logic_coverage config (sf_path f) tree st
              = (Raise e, st))
  /\ analyze_test_file config f
     = Ok (QualityMetrics_new,
           (issues (snd (_analyze_test_structure config (sf_path f) tree state_new))
            ++ [analysis_error (sf_path f) e])%list).
Proof.
  intros Hp Hf He.
  assert (R : forall st, _analyze_business_logic_coverage config (sf_path f) tree st
                         = (Raise e, st)).
  { intros st. unfold _analyze_business_logic_coverage. unfold bind at 1.
    rewrite (for_fold_first_test _ _ _ _ func rest e); [reflexivity| |exact Hf|].
    - intros g Hg. rewrite Hg. reflexivity.
    - assert (Ht : is_test func = true).
      { assert (X : In func (filter is_test (function_defs tree)))
          by (rewrite Hf; left; reflexivity).
        apply filter_In in X. apply X. }
      rewrite Ht. cbn [negb]. unfold func_content_of. rewrite He. reflexivity. }
  split; [exact R|].
  unfold analyze_test_file. rewrite Hp. fold state_new.
  destruct (structure_emits config (sf_path f) tree state_new)
    as ([] & m1 & new1 & E1 & _).
  change (issues state_new ++ new1)%list with new1 in E1.
  rewrite (bind_ok _ E1). rewrite E1. cbn [snd issues].
  rewrite (bind_raise _ (R _)). reflexivity.
Qed.

Example undecodable_file_analysis :
  analyze_test_file TestQualityConfig_new undecodable_file
  = Ok (QualityMetrics_new,
        [ too_short (sf_path undecodable_file) undecodable_function;
          analysis_error (sf_path undecodable_file)
            (ValueError ("'ascii' codec can't decode byte 0xe2 in position 40: "
                         ++ "ordinal not in range(128)")) ]).
Proof. vm_compute. reflexivity. Qed.

(** *** Files without test functions *)

Lemma total_tests_none (l : list FunctionDefNode) :
  (forall func, In func l -> is_test func = false) -> total_tests_of l = 0.
Proof.
  intros H. unfold total_tests_of.
  replace (filter is_test l) with (@nil FunctionDefNode); [reflexivity|].
  induction l as [|x l IH]; [reflexivity|]. simpl.
  rewrite (H x (or_introl eq_refl)). apply IH.
  intros func Hin. apply H. right. exact Hin.
Qed.

Ltac skip_loop Hno :=
  rewrite for_fold_skips;
  [| let func := fresh "func" in
     let Hin := fresh "Hin" in
     intros func Hin; rewrite (Hno func Hin); reflexivity ].

Lemma structure_no_test config path tree st :
  no_test tree -> _analyze_test_structure config path tree st = (Ok tt, st).
Proof.
  intros Hno. unfold _analyze_test_structure. skip_loop Hno. reflexivity.
Qed.

Lemma business_logic_no_test config path tree st :
  no_test tree ->
  exists low,
    _analyze_business_logic_coverage config path tree st
    = (Ok tt, {| metrics := set_business_logic_coverage 0 (metrics st);
                 issues := (issues st ++ low)%list |})
    /\ Forall (has_type ["low_business_logic_coverage"]) low.
Proof.
  intros Hno. unfold _analyze_business_logic_coverage.
  unfold bind at 1. skip_loop Hno.
  rewrite (total_tests_none _ Hno), percentage_zero.
  unfold bind, lift, set_metrics, get_metrics, when. cbn [metrics issues].
  destruct (Qltb _ _).
  - eexists. split; [reflexivity|]. repeat constructor.
  - exists []. rewrite app_nil_r. split; [reflexivity|constructor].
Qed.

Lemma error_scenarios_no_test config path tree st :
  no_test tree ->
  _analyze_error_scenarios config path tree st
  = (Ok tt, {| metrics := set_error_scenario_coverage 0 (metrics st);
               issues := issues st |}).
Proof.
  intros Hno. unfold _analyze_error_scenarios.
  unfold bind at 1. skip_loop Hno.
  rewrite (total_tests_none _ Hno), percentage_zero. reflexivity.
Qed.

Lemma mock_usage_no_test config path tree st :
  no_test tree ->
  _analyze_mock_usage config path tree st
  = (Ok tt, {| metrics := set_mock_isolation_score 0 (metrics st);
               issues := issues st |}).
Proof.
  intros Hno. unfold _analyze_mock_usage.
  unfold bind at 1. skip_loop Hno.
  rewrite (total_tests_none _ Hno), percentage_zero. reflexivity.
Qed.

Lemma documentation_no_test config path tree st :
  no_test tree ->
  _analyze_documentation config path tree st
  = (Ok tt, {| metrics := set_documentation_score 0 (metrics st);
               issues := issues st |}).
Proof.
  intros Hno. unfold _analyze_documentation.
  unfold bind at 1. skip_loop Hno.
  rewrite (total_tests_none _ Hno), percentage_zero. reflexivity.
Qed.

Lemma maintainability_no_test config path tree st :
  no_test tree ->
  _analyze_maintainability config path tree st
  = (Ok tt, {| metrics := set_maintenance_score 0 (metrics st);
               issues := issues st |}).
Proof.
  intros Hno. unfold _analyze_maintainability.
  unfold bind at 1. skip_loop Hno.
  rewrite (total_tests_none _ Hno), percentage_zero. reflexivity.
Qed.

(** C9. For every parsable test file with no function whose name begins with
    [test_], [analyze_test_file] returns normally (no pass raises, so no
    division by zero happens and no [analysis_error] is recorded) and the
    metrics business_logic_coverage, error_scenario_coverage,
    mock_isolation_score, documentation_score and maintenance_score of the
    result are exactly 0. *)
Theorem no_test_functions_all_metrics_zero config f tree :
  sf_parse f = Ok tree ->
  (forall func, In func (function_defs tree) -> is_test func = false) ->
  exists m found,
    analyze_test_file config f = Ok (m, found)
    /\ business_logic_coverage m = 0%Q
    /\ error_scenario_coverage m = 0%Q
    /\ mock_isolation_score m = 0%Q
    /\ documentation_score m = 0%Q
    /\ maintenance_score m = 0%Q
    /\ Forall (has_type ["low_business_logic_coverage"]) found.
Proof.
  intros Hp Hno. unfold analyze_test_file. rewrite Hp.
  rewrite (bind_ok _ (structure_no_test config _ _ _ Hno)).
  destruct (business_logic_no_test config (sf_path f) tree
              {| metrics := QualityMetrics_new; issues := [] |} Hno)
    as (low & E & F).
  rewrite (bind_ok _ E).
  rewrite (bind_ok _ (error_scenarios_no_test config _ _ _ Hno)).
  rewrite (bind_ok _ (mock_usage_no_test config _ _ _ Hno)).
  rewrite (bind_ok _ (documentation_no_test config _ _ _ Hno)).
  rewrite (bind_ok _ (maintainability_no_test config _ _ _ Hno)).
  cbn. eexists _, _. split; [reflexivity|]. cbn. auto 10.
Qed.

Lemma no_test_functions_all_metrics_zero_witness :
  (sf_parse helpers_only_file
   = Ok {| mod_body := [ Import [ {| alias_name := "pytest"; asname := None |} ];
                         node_of helper_function ] |}
   /\ forall func,
        In func (function_defs
                   {| mod_body := [ Import [ {| alias_name := "pytest"; asname := None |} ];
                                    node_of helper_function ] |}) ->
        is_test func = false)
  /\ exists m found,
       analyze_test_file TestQualityConfig_new helpers_only_file = Ok (m, found)
       /\ business_logic_coverage m = 0%Q
       /\ error_scenario_coverage m = 0%Q
       /\ mock_isolation_score m = 0%Q
       /\ documentation_score m = 0%Q
       /\ maintenance_score m = 0%Q
       /\ Forall (has_type ["low_business_logic_coverage"]) found.
Proof.
  assert (H : forall func,
             In func (function_defs
                        {| mod_body := [ Import [ {| alias_name := "pytest"; asname := None |} ];
                                         node_of helper_function ] |}) ->
             is_test func = false).
  { simpl. intros func [<-|[]]. reflexivity. }
  split; [split; [reflexivity|exact H]|].
  apply (no_test_functions_all_metrics_zero TestQualityConfig_new helpers_only_file
           _ eq_refl H).
Defined.

(** *** An unparsable file *)

(** [analyze_test_file] raises nothing but the [UnboundLocalError] of its
    handler. *)
Lemma analyze_test_file_raise config f e :
  analyze_test_file config f = Raise e -> e = UnboundLocalError "issues".
Proof.
  unfold analyze_test_file. destruct (sf_parse f) as [tree|e0].
  - cbv zeta.
    match goal with
    | |- context [let (_, _) := ?p in _] => destruct p as [[a|e1] st]
    end; simpl; discriminate.
  - simpl. congruence.
Qed.

(** One unparsable file among the test files makes the loop of
    [analyze_project] raise. *)
Lemma analyze_each_unparsable config before bad after acc :
  (exists e, sf_parse bad = Raise e) ->
  rfold (analyze_one config) (before ++ bad :: after)%list acc
  = Raise (UnboundLocalError "issues").
Proof.
  intros [e He]. revert acc.
  induction before as [|x before IH]; intros [ms found]; simpl.
  - unfold analyze_test_file. rewrite He. reflexivity.
  - destruct (analyze_test_file config x) as [[m fi]|e'] eqn:E; simpl.
    + apply IH.
    + apply analyze_test_file_raise in E. congruence.
Qed.

(** C1. On a file that cannot be read or parsed, [analyze_test_file] does
    not return the degraded result: its handler appends to the variable
    [issues], which is only assigned after the parse, so the call raises
    [UnboundLocalError]; and [analyze_project] with such a file among its
    test files raises with it instead of going on to the remaining files. *)
Theorem unparsable_file_raises config root path e before after :
  analyze_test_file config {| sf_path := path; sf_parse := Raise e |}
  = Raise (UnboundLocalError "issues")
  /\ analyze_project config root
       (before ++ {| sf_path := path; sf_parse := Raise e |} :: after)%list
     = Raise (UnboundLocalError "issues").
Proof.
  split; [reflexivity|].
  unfold analyze_project.
  destruct (before ++ _ :: after)%list eqn:E;
    [destruct before; discriminate|].
  rewrite <- E. unfold analyze_each.
  rewrite analyze_each_unparsable; [reflexivity|].
  simpl. eauto.
Qed.

(** *** Scenario A *)

Lemma for_fold_app {A B} (body : A -> B -> M B) (l1 l2 : list A) (acc : B) (st : state) :
  for_fold (l1 ++ l2)%list acc body st
  = bind (for_fold l1 acc body) (fun acc' => for_fold l2 acc' body) st.
Proof.
  revert acc st. induction l1 as [|x l1 IH]; intros acc st; simpl.
  - reflexivity.
  - unfold bind. destruct (body x acc st) as [[a|e] st']; [|reflexivity].
    specialize (IH a st'). unfold bind in IH. exact IH.
Qed.

(** The structure pass reports a test function that is both too short and
    short of assertions with the two issues, one after the other. *)
Lemma structure_reports config path tree func :
  In func (function_defs tree) ->
  is_test func = true ->
  func_lines_of func < min_test_length config ->
  Z.of_nat (length (filter is_Assert (walk (node_of func))))
    < min_assertions_per_test config ->
  exists before after,
    issues (snd (_analyze_test_structure config path tree state_new))
    = (before ++ [too_short path func; too_few_assertions path func] ++ after)%list.
Proof.
  intros Hin Ht Hl Ha.
  destruct (in_split _ _ Hin) as (l1 & l2 & E).
  unfold _analyze_test_structure. rewrite E.
  rewrite for_fold_app.
  match goal with
  | |- context [for_fold l1 tt ?body] =>
      assert (Hbody : forall x acc, emits (fun _ => True) (body x acc))
  end.
  { intros x []. destruct (negb (is_test x)); [apply emits_ret|].
    apply emits_bind; [|intros _]; apply emits_when, emits_append; exact I. }
  destruct (emits_for_fold _ _ l1 Hbody tt state_new) as ([] & m1 & before & E1 & _).
  rewrite (bind_ok _ E1). cbn [for_fold].
  unfold bind at 1. rewrite Ht. cbn [negb].
  apply Z.ltb_lt in Hl, Ha. rewrite Hl, Ha.
  cbn [when bind append issues metrics state_new app].
  match goal with
  | |- context [for_fold l2 tt ?body ?st] =>
      destruct (emits_for_fold _ _ l2 Hbody tt st) as ([] & m2 & after & E2 & _)
  end.
  rewrite E2. cbn [snd issues]. exists before, after.
  rewrite <- !app_assoc. reflexivity.
Qed.

(** C7. A file that contains the function [test_calculate_total], with
    exactly one assert statement and a span of 8 lines, analysed with
    [min_assertions_per_test = 2] and [min_test_length = 10]:
    [analyze_test_file] returns a result whose issues hold an
    [insufficient_assertions] issue and a [test_too_short] issue at the line
    of that function, and whose [documentation_score] is 0 (this holds
    whatever the docstring of the function is, so in particular without
    one). *)
Theorem scenario_A_short_test_with_one_assertion config f tree func :
  sf_parse f = Ok tree ->
  In func (function_defs tree) ->
  fd_name func = "test_calculate_total" ->
  length (filter is_Assert (walk (node_of func))) = 1%nat ->
  fd_end_lineno func - fd_lineno func = 8 ->
  min_assertions_per_test config = 2 ->
  min_test_length config = 10 ->
  exists m found,
    analyze_test_file config f = Ok (m, found)
    /\ (exists i, In i found /\ issue_type i = "insufficient_assertions"
                  /\ severity i = "medium" /\ line_number i = fd_lineno func)
    /\ (exists i, In i found /\ issue_type i = "test_too_short"
                  /\ severity i = "medium" /\ line_number i = fd_lineno func)
    /\ documentation_score m = 0%Q.
Proof.
  intros Hp Hf Hn Ha Hl Hma Hml.
  assert (Ht : is_test func = true) by (unfold is_test; rewrite Hn; reflexivity).
  destruct (analysis_stops config f tree Hp) as (later & e & _ & E & _).
  { exists func. auto. }
  destruct (structure_reports config (sf_path f) tree func Hf Ht) as (before & after & S).
  { unfold func_lines_of. lia. }
  { lia. }
  rewrite E, S. eexists _, _. split; [reflexivity|].
  split; [|split; [|reflexivity]].
  - exists (too_few_assertions (sf_path f) func).
    split; [|repeat split]. rewrite !in_app_iff. simpl. tauto.
  - exists (too_short (sf_path f) func).
    split; [|repeat split]. rewrite !in_app_iff. simpl. tauto.
Qed.

Lemma scenario_A_witness :
  (sf_parse scenario_A_file = Ok {| mod_body := [node_of scenario_A_function] |}
   /\ In scenario_A_function
         (function_defs {| mod_body := [node_of scenario_A_function] |})
   /\ fd_name scenario_A_function = "test_calculate_total"
   /\ length (filter is_Assert (walk (node_of scenario_A_function))) = 1%nat
   /\ fd_end_lineno scenario_A_function - fd_lineno scenario_A_function = 8
   /\ min_assertions_per_test scenario_A_config = 2
   /\ min_test_length scenario_A_config = 10)
  /\ exists m found,
    analyze_test_file scenario_A_config scenario_A_file = Ok (m, found)
    /\ (exists i, In i found /\ issue_type i = "insufficient_assertions"
                  /\ severity i = "medium" /\ line_number i = 1)
    /\ (exists i, In i found /\ issue_type i = "test_too_short"
                  /\ severity i = "medium" /\ line_number i = 1)
    /\ documentation_score m = 0%Q.
Proof.
  split; [repeat split; left; reflexivity|].
  apply (scenario_A_short_test_with_one_assertion scenario_A_config scenario_A_file
           {| mod_body := [node_of scenario_A_function] |} scenario_A_function);
    try reflexivity.
  left. reflexivity.
Defined.

(** *** The documentation pass *)

(** For every parsed file with a test function the documentation pass never
    gets to count or to report: the result has fresh metrics, no
    [missing_documentation] issue and ends with an [analysis_error], which
    is that of the access to [func.docstring] when the text of the test
    functions can be read again. *)
Lemma documentation_never_scored config f tree :
  sf_parse f = Ok tree ->
  has_test tree ->
  exists found e,
    analyze_test_file config f
    = Ok (QualityMetrics_new, (found ++ [analysis_error (sf_path f) e])%list)
    /\ Forall (fun i => issue_type i <> "missing_documentation") found
    /\ (readable tree -> e = AttributeError "FunctionDef" "docstring").
Proof.
  intros Hp Ht.
  destruct (analysis_stops config f tree Hp Ht) as (later & e & F & E & R).
  destruct (structure_emits config (sf_path f) tree state_new)
    as ([] & m1 & new1 & E1 & F1).
  rewrite E1 in E. cbn [snd issues state_new app] in E.
  exists (new1 ++ later)%list, e. rewrite E, <- app_assoc. split; [reflexivity|].
  split; [|exact R].
  apply Forall_app. split.
  - eapply Forall_impl; [|exact F1]. unfold has_type. simpl.
    intros i [H|[H|[]]] C; rewrite C in H; discriminate.
  - eapply Forall_impl; [|exact F]. unfold has_type. simpl.
    intros i [H|[H|[]]] C; rewrite C in H; discriminate.
Qed.

(** C2, at a file whose only test function has a docstring of 47 characters
    that contains the word verify: the condition of the pass holds for that
    docstring, yet the pass reads [func.docstring], which an
    [ast.FunctionDef] does not have, so the analysis ends in the handler:
    [documentation_score] is 0 instead of 100 and the issues end with an
    [analysis_error]. *)
Theorem documented_test_is_not_counted :
  Creation.get_docstring (fd_body documented_function)
    = Some "Verify that the total of the order is computed."
  /\ is_documented (Creation.get_docstring (fd_body documented_function)) = true
  /\ exists found,
       analyze_test_file TestQualityConfig_new documented_file
       = Ok (QualityMetrics_new, found)
       /\ map issue_type found
          = ["test_too_short"; "low_business_logic_coverage"; "analysis_error"]
       /\ documentation_score QualityMetrics_new = 0%Q.
Proof.
  split; [reflexivity|]. split; [reflexivity|].
  eexists. split; [vm_compute; reflexivity|]. split; reflexivity.
Qed.

(** *** The maintainability pass *)




(** C5, at the function [test_foo] with a span of 12 lines and the default
    lengths 10 and 200: the name has no underscore after [test_], the claim
    says it is not maintainable, and the pass counts it, since it looks for
    the underscore in the whole name: [maintenance_score] is 100. *)
Theorem test_foo_is_counted_maintainable :
  PyStr.str_in "_" (PyStr.drop 5 (fd_name test_foo)) = false
  /\ is_maintainable TestQualityConfig_new test_foo = true
  /\ exists st,
       _analyze_maintainability TestQualityConfig_new
         {| parts := ["tests"; "test_foo.py"] |}
         {| mod_body := [node_of test_foo] |} state_new = (Ok tt, st)
       /\ (maintenance_score (metrics st) == 100)%Q
       /\ issues st = [].
Proof.
  split; [reflexivity|]. split; [reflexivity|].
  eexists. split; [vm_compute; reflexivity|]. split; reflexivity.
Qed.

(** *** The overall score *)

Lemma py_min_le_right (a b : Q) : (py_min a b <= b)%Q.
Proof.
  unfold py_min, Qltb. destruct (Qle_bool a b) eqn:E; simpl.
  - apply Qle_bool_iff. exact E.
  - apply Qle_refl.
Qed.

Lemma py_min_ge (a b c : Q) : (c <= a -> c <= b -> c <= py_min a b)%Q.
Proof. intros Ha Hb. unfold py_min. destruct (Qltb b a); assumption. Qed.

Lemma Qadd_nonneg (a b : Q) : (0 <= a -> 0 <= b -> 0 <= a + b)%Q.
Proof.
  intros Ha Hb. change 0%Q with (0 + 0)%Q. apply Qplus_le_compat; assumption.
Qed.

(** C3 as stated fails: with [business_logic_weight = -1] and a file whose
    only non-zero metric is [business_logic_coverage = 100] the score is
    -100. *)
Lemma negative_weight_score_below_zero :
  ~ (forall config m, (0 <= _calculate_overall_score config m <= 100)%Q).
Proof.
  intros H. destruct (H negative_weight_config business_logic_only) as [H0 _].
  vm_compute in H0. apply H0. reflexivity.
Qed.

(** C3, amended. For every configuration whose six weights are finite and
    not negative (their sum may exceed 1.0) and every metrics value whose
    six scored fields are finite and not negative, the overall score lies
    in [0, 100]. (The weights and metrics of the embedding are rationals,
    that is, finite; with an infinite or NaN weight the sum of the code can
    be NaN, which lies in no interval.) *)
Theorem overall_score_in_range config m :
  nonneg_weights config -> nonneg_metrics m ->
  (0 <= _calculate_overall_score config m <= 100)%Q.
Proof.
  intros (W1 & W2 & W3 & W4 & W5 & W6) (M1 & M2 & M3 & M4 & M5 & M6).
  split; [|unfold _calculate_overall_score; apply py_min_le_right].
  unfold _calculate_overall_score. apply py_min_ge; [|discriminate].
  cbn [fold_left].
  repeat (apply Qadd_nonneg || apply Qmult_le_0_compat); try assumption.
  apply Qle_refl.
Qed.

Lemma overall_score_in_range_witness :
  (nonneg_weights heavy_config /\ nonneg_metrics full_metrics)
  /\ (0 <= _calculate_overall_score heavy_config full_metrics <= 100)%Q.
Proof.
  assert (W : nonneg_weights heavy_config)
    by (unfold nonneg_weights; simpl; repeat split; discriminate).
  assert (N : nonneg_metrics full_metrics)
    by (unfold nonneg_metrics; simpl; repeat split; discriminate).
  split; [split; assumption|].
  apply (overall_score_in_range heavy_config full_metrics W N).
Defined.

(** *** Project metrics *)

Lemma totals_spec (ms : list QualityMetrics) : forall acc,
  let t := fold_left add_metrics ms acc in
  (business_logic_coverage t == business_logic_coverage acc + total business_logic_coverage ms
   /\ error_scenario_coverage t == error_scenario_coverage acc + total error_scenario_coverage ms
   /\ mock_isolation_score t == mock_isolation_score acc + total mock_isolation_score ms
   /\ realistic_data_score t == realistic_data_score acc + total realistic_data_score ms
   /\ documentation_score t == documentation_score acc + total documentation_score ms
   /\ maintenance_score t == maintenance_score acc + total maintenance_score ms
   /\ overall_quality_score t == overall_quality_score acc + total overall_quality_score ms)%Q.
Proof.
  induction ms as [|m ms IH]; intros acc; cbn zeta.
  - simpl. repeat split; ring.
  - cbn [fold_left total fold_right].
    destruct (IH (add_metrics acc m)) as (H1 & H2 & H3 & H4 & H5 & H6 & H7).
    cbn zeta in *. unfold total in *.
    rewrite H1, H2, H3, H4, H5, H6, H7. simpl.
    repeat split; ring.
Qed.

Lemma count_not_zero (ms : list QualityMetrics) :
  ms <> [] -> Qeq_bool (inject_Z (Z.of_nat (length ms))) 0 = false.
Proof.
  intros H. destruct ms as [|m ms]; [contradiction|].
  destruct (Qeq_bool _ 0) eqn:E; [|reflexivity].
  apply Qeq_bool_eq in E. unfold Qeq in E. simpl in E. lia.
Qed.




End ValidatorFacts.

(** ** The structural extractor and the template generator *)

Module CreationFacts.
Import PyAst Creation CreationSpec.

(** *** Type labels *)

Lemma get_node_type_follows_rules (node : expr) :
  type_label node (_get_node_type node).
Proof.
  induction node; simpl; try (constructor; assumption);
    try (apply label_any; exact I).
  destruct (str_constant value) as [text|e] eqn:E.
  - apply label_constant. exact E.
  - apply label_any. exists e. exact E.
Qed.

Lemma type_label_unique (node : expr) (label : string) :
  type_label node label -> label = _get_node_type node.
Proof.
  induction 1; simpl; try congruence.
  - rewrite H. reflexivity.
  - destruct node; simpl in *; try contradiction; try reflexivity.
    destruct H as [e ->]. reflexivity.
Qed.

Lemma int_str_limit_power : int_str_limit = 10 ^ 4300.
Proof. vm_compute. reflexivity. Qed.

(** An integer constant below the limit of the conversion is labelled with
    its digits; one of 4301 digits or more, as the annotation [0x...] of a
    parameter can be, is labelled Any, and its value as a class constant is
    given as [...]. *)
Lemma integer_label (n : Z) :
  _get_node_type (Constant (CInt n))
  = (if 10 ^ 4300 <=? Z.abs n then "Any" else PyStr.str_int n)
  /\ _get_node_value (Constant (CInt n))
     = (if 10 ^ 4300 <=? Z.abs n then "..." else PyStr.str_int n).
Proof.
  cbn [_get_node_type _get_node_value repr_constant str_constant].
  unfold str_of_int. rewrite int_str_limit_power.
  destruct (10 ^ 4300 <=? Z.abs n); split; reflexivity.
Qed.

Example integer_label_examples :
  _get_node_type (Constant (CInt (10 ^ 4300))) = "Any"
  /\ _get_node_value (Constant (CInt (- 10 ^ 4300))) = "..."
  /\ _get_node_type (Constant (CInt 42)) = "42".
Proof.
  assert (P : 0 <= 10 ^ 4300) by (apply Z.pow_nonneg; lia).
  split; [|split; [|reflexivity]].
  - rewrite (proj1 (integer_label _)), (Z.abs_eq _ P), Z.leb_refl. reflexivity.
  - rewrite (proj2 (integer_label _)), Z.abs_opp, (Z.abs_eq _ P), Z.leb_refl.
    reflexivity.
Qed.

(** C6 as stated fails: the parameter of [def f(x): ...] has no annotation
    and its type in the structural model is [None], not the label Any. *)
Lemma unannotated_parameter_has_no_label :
  ~ (forall node,
       Forall2 (fun a p => annotation a = None -> param_type p = Some "Any")
               (fd_args node) (parameters (_analyze_function node))).
Proof.
  intros H. specialize (H unannotated_function). simpl in H.
  inversion H as [|a p l l' Hp _]; subst.
  specialize (Hp eq_refl). discriminate Hp.
Qed.

(** C6, amended. The parameters of the structural model are the arguments of
    the function, in order; the type of a parameter with an annotation is
    the label given by the rules (a bare name keeps its name, an attribute
    access is Owner.Member, a subscript is Base[Inner], a constant is its
    string form when [str] gives one; any other node is Any, and so is a
    constant whose conversion to a string raises, which is the case of an
    integer of more than 4300 digits), and that label is the only one the
    rules allow; a parameter without annotation has the type [None]. *)
Theorem parameter_labels_follow_rules (node : FunctionDefNode) :
  Forall2 models (fd_args node) (parameters (_analyze_function node)).
Proof.
  unfold _analyze_function. cbn [parameters].
  induction (fd_args node) as [|a l IH]; simpl; constructor; [|exact IH].
  split; [reflexivity|]. simpl. destruct (annotation a) as [ann|]; [|reflexivity].
  exists (_get_node_type ann). split; [reflexivity|]. split.
  - apply get_node_type_follows_rules.
  - apply type_label_unique.
Qed.

(** *** A class with an assignment to a name in its body *)

Lemma class_properties_raise targets value id acc :
  In (Name id) targets ->
  exists e, class_properties_of targets value acc = Raise e.
Proof.
  intros Hin. unfold class_properties_of.
  apply (rfold_raises _ targets (Name id) Hin).
  intros ps. eexists. reflexivity.
Qed.

Lemma analyze_class_raises cname cbases cbody targets value id :
  In (Assign targets value) cbody ->
  In (Name id) targets ->
  exists e, _analyze_class cname cbases cbody = Raise e.
Proof.
  intros Hitem Htarget. unfold _analyze_class.
  match goal with
  | |- context [rfold ?body cbody ?init] =>
      destruct (rfold_raises body cbody (Assign targets value) Hitem) with (acc := init)
        as [e E]
  end.
  - intros [ms ps].
    destruct (class_properties_raise targets value id ps Htarget) as [e E].
    exists e. rewrite E. reflexivity.
  - exists e. rewrite E. reflexivity.
Qed.

(** C10. For every module that parses and whose body has a class with an
    assignment to a bare name in the class body, the extraction raises (the
    class-property path reads [target.name], which an [ast.Name] does not
    have) and [analyze_module] returns the dictionary of its [except]
    branch: the error string and empty functions, classes, imports and
    constants. *)
Theorem class_attribute_degrades_model
    f tree cname cbases cbody cdecorators targets value id :
  sf_parse f = Ok tree ->
  In (ClassDef cname cbases cbody cdecorators) (mod_body tree) ->
  In (Assign targets value) cbody ->
  In (Name id) targets ->
  exists e,
    extract (sf_path f) tree = Raise e
    /\ analyze_module f
       = {| name := stem (sf_path f);
            import_path := stem (sf_path f);
            error := Some (str_exn e);
            functions := []; classes := []; imports := []; constants := [] |}.
Proof.
  intros Hp Hclass Hitem Htarget.
  assert (R : exists e, extract (sf_path f) tree = Raise e).
  { unfold extract. destruct (_get_import_path (sf_path f)) as [ip|e]; simpl.
    - apply (rfold_raises _ (mod_body tree) _ Hclass). intros acc.
      destruct (analyze_class_raises cname cbases cbody targets value id Hitem Htarget)
        as [e E].
      exists e. rewrite E. reflexivity.
    - exists e. reflexivity. }
  destruct R as [e E]. exists e. split; [exact E|].
  unfold analyze_module. rewrite Hp. simpl. rewrite E. reflexivity.
Qed.

Lemma class_attribute_degrades_model_witness :
  (sf_parse class_with_attribute
   = Ok {| mod_body := [ ClassDef "Cart" [] [ Assign [Name "x"] (Constant (CInt 1)) ] [] ] |}
   /\ In (ClassDef "Cart" [] [ Assign [Name "x"] (Constant (CInt 1)) ] [])
         [ ClassDef "Cart" [] [ Assign [Name "x"] (Constant (CInt 1)) ] [] ]
   /\ In (Assign [Name "x"] (Constant (CInt 1))) [ Assign [Name "x"] (Constant (CInt 1)) ]
   /\ In (Name "x") [Name "x"])
  /\ exists e,
       analyze_module class_with_attribute
       = {| name := "cart"; import_path := "cart"; error := Some (str_exn e);
            functions := []; classes := []; imports := []; constants := [] |}.
Proof.
  split; [repeat split; left; reflexivity|].
  destruct (class_attribute_degrades_model class_with_attribute
              {| mod_body := [ ClassDef "Cart" [] [ Assign [Name "x"] (Constant (CInt 1)) ] [] ] |}
              "Cart" [] [ Assign [Name "x"] (Constant (CInt 1)) ] []
              [Name "x"] (Constant (CInt 1)) "x")
    as (e & _ & E); try reflexivity; try (left; reflexivity).
  exists e. exact E.
Defined.

(** *** The basic functionality stub *)

Lemma test_value_literal (label : string) :
  literal_for label (test_value (PyStr.lower label)).
Proof.
  unfold test_value.
  destruct (PyStr.str_in "int" (PyStr.lower label)) eqn:E1;
    [apply literal_integer; unfold like; simpl; rewrite E1; reflexivity|].
  destruct (PyStr.str_in "number" (PyStr.lower label)) eqn:E2;
    [apply literal_integer; unfold like; simpl; rewrite E1, E2; reflexivity|].
  destruct (PyStr.str_in "float" (PyStr.lower label)) eqn:E3;
    [apply literal_float; unfold like; simpl; rewrite ?E1, ?E2, ?E3; reflexivity|].
  destruct (PyStr.str_in "decimal" (PyStr.lower label)) eqn:E4;
    [apply literal_float; unfold like; simpl; rewrite ?E1, ?E2, ?E3, ?E4; reflexivity|].
  destruct (PyStr.str_in "bool" (PyStr.lower label)) eqn:E5;
    [apply literal_boolean; unfold like; simpl;
     rewrite ?E1, ?E2, ?E3, ?E4, ?E5; reflexivity|].
  destruct (PyStr.str_in "list" (PyStr.lower label)) eqn:E6;
    [apply literal_list; unfold like; simpl;
     rewrite ?E1, ?E2, ?E3, ?E4, ?E5, ?E6; reflexivity|].
  destruct (PyStr.str_in "array" (PyStr.lower label)) eqn:E7;
    [apply literal_list; unfold like; simpl;
     rewrite ?E1, ?E2, ?E3, ?E4, ?E5, ?E6, ?E7; reflexivity|].
  destruct (PyStr.str_in "dict" (PyStr.lower label)) eqn:E8;
    [apply literal_dict; unfold like; simpl;
     rewrite ?E1, ?E2, ?E3, ?E4, ?E5, ?E6, ?E7, ?E8; reflexivity|].
  destruct (PyStr.str_in "object" (PyStr.lower label)) eqn:E9;
    [apply literal_dict; unfold like; simpl;
     rewrite ?E1, ?E2, ?E3, ?E4, ?E5, ?E6, ?E7, ?E8, ?E9; reflexivity|].
  apply literal_placeholder. unfold like. simpl.
  rewrite E1, E2, E3, E4, E5, E6, E7, E8, E9. reflexivity.
Qed.

(** The loop of [_generate_basic_function_test] over labelled parameters. *)
Lemma assignment_loop (ps : list param_info) :
  Forall (fun p => param_type p <> None) ps ->
  forall lines names,
    rfold assign_parameter ps (lines, names)
    = Ok ((lines ++ map assignment_of ps)%list, (names ++ map param_name ps)%list).
Proof.
  induction 1 as [|p ps Hp _ IH]; intros lines names; simpl.
  - rewrite !app_nil_r. reflexivity.
  - unfold type_lower at 1. destruct (param_type p) as [label|] eqn:E;
      [|contradiction]. cbn [rbind]. rewrite IH.
    unfold assignment_of at 2. rewrite E. rewrite <- !app_assoc. reflexivity.
Qed.

Lemma assignments_assign (ps : list param_info) :
  Forall (fun p => param_type p <> None) ps ->
  Forall2 assigns ps (map assignment_of ps).
Proof.
  induction 1 as [|p ps Hp _ IH]; simpl; constructor; [|exact IH].
  unfold assigns, assignment_of. destruct (param_type p) as [label|]; [|contradiction].
  exists label, (test_value (PyStr.lower label)).
  split; [reflexivity|]. split; [apply test_value_literal|reflexivity].
Qed.

(** C4 as stated fails: for a function of four integer parameters the stub
    has no assignment for the fourth one (and calls with three
    arguments). *)
Lemma fourth_parameter_not_assigned :
  ~ (forall func_name params config stub,
       _generate_basic_function_test func_name params config = Ok stub ->
       forall p, In p params ->
         PyStr.str_in ("        " ++ param_name p ++ " = ") stub = true).
Proof.
  intros H.
  specialize (H "total" four_integers TestCreationConfig_new _ eq_refl
                {| param_name := "d"; param_type := Some "int"; param_default := None |}).
  vm_compute in H. discriminate H. do 3 right. left. reflexivity.
Qed.

(** C4, amended. For every function whose first three parameters carry a
    type label, the basic-functionality stub assigns one literal to each of
    the first three parameters (and to no other), chosen by the label
    (integer or number like: 1; else float or decimal like: 1.0; else
    boolean like: True; else list or array like: []; else dict or object
    like: {}; else 'test_value'), then calls the function with these
    parameters and asserts that the result is not None; for the two
    parameters [a: int], [b: int] the assignments are [a = 1] and
    [b = 1]. *)
Theorem basic_stub_assigns_first_three func_name params config :
  Forall (fun p => param_type p <> None) (firstn 3 params) ->
  exists assignments,
    Forall2 assigns (firstn 3 params) assignments
    /\ _generate_basic_function_test func_name params config
       = Ok (stub_with func_name (map param_name (firstn 3 params)) assignments)
    /\ (map (fun p => (param_name p, param_type p)) params
          = [("a", Some "int"); ("b", Some "int")] ->
        assignments = ["        a = 1"; "        b = 1"]).
Proof.
  intros Hty. exists (map assignment_of (firstn 3 params)).
  split; [apply assignments_assign, Hty|]. split.
  - unfold _generate_basic_function_test.
    destruct params as [|p0 ps]; [reflexivity|].
    rewrite (assignment_loop _ Hty [] []). reflexivity.
  - intros E.
    destruct params as [|p1 [|p2 [|p3 ps]]]; try discriminate E.
    injection E as N1 T1 N2 T2.
    unfold assignment_of. cbn [firstn map]. rewrite N1, T1, N2, T2. reflexivity.
Qed.

Lemma basic_stub_assigns_first_three_witness :
  Forall (fun p => param_type p <> None)
         (firstn 3 (parameters (_analyze_function add_function)))
  /\ _generate_basic_function_test "add"
       (parameters (_analyze_function add_function)) TestCreationConfig_new
     = Ok (stub_with "add" ["a"; "b"] ["        a = 1"; "        b = 1"]).
Proof.
  assert (Hty : Forall (fun p => param_type p <> None)
                       (firstn 3 (parameters (_analyze_function add_function))))
    by (simpl; repeat constructor; simpl; discriminate).
  split; [assumption|].
  destruct (basic_stub_assigns_first_three "add"
              (parameters (_analyze_function add_function))
              TestCreationConfig_new Hty)
    as (assignments & _ & E & S).
  rewrite E, (S eq_refl). reflexivity.
Defined.

(** Scenario B through the whole generator: the template generated for the
    module [calc.py] holds the stub with [a = 1] and [b = 1]. *)
Example scenario_B_template :
  exists template,
    generate_unit_test_template (analyze_module calc_file) TestCreationConfig_new
    = Ok template
    /\ PyStr.str_in (stub_with "add" ["a"; "b"] ["        a = 1"; "        b = 1"])
                    template = true
    /\ PyStr.str_in "from calc import add" template = true.
Proof.
  eexists. split; [vm_compute; reflexivity|]. split; vm_compute; reflexivity.
Qed.

(** A parameter without annotation makes the generator raise. *)
Example unlabelled_parameter_raises :
  _generate_basic_function_test "f"
    (parameters (_analyze_function unannotated_function)) TestCreationConfig_new
  = Raise (AttributeError "NoneType" "lower").
Proof. reflexivity. Qed.

End CreationFacts.

(** * Further properties of the code *)

(** ** The passes of the quality analyzer *)

Module ValidatorExtra.
Import PyAst Validator ValidatorSpec ValidatorFacts ValidatorExtraSpec.

(** A loop whose body updates the counter with [next] and appends the
    issues [report] gives. *)
Lemma reporting_loop {B} (next : FunctionDefNode -> B -> B)
    (report : FunctionDefNode -> list TestIssue)
    (body : FunctionDefNode -> B -> M B) (l : list FunctionDefNode) :
  (forall func n st,
     In func l ->
     body func n st = (Ok (next func n), after st (fun m => m) (report func))) ->
  forall n st,
    for_fold l n body st
    = (Ok (fold_left (fun n func => next func n) l n),
       after st (fun m => m) (flat_map report l)).
Proof.
  induction l as [|x l IH]; intros Hbody n st.
  - simpl. unfold ret, after. rewrite app_nil_r. destruct st; reflexivity.
  - cbn [for_fold]. rewrite (bind_ok _ (Hbody x n st (or_introl eq_refl))).
    rewrite IH by (intros func n0 st0 Hin; apply Hbody; right; exact Hin).
    unfold after. cbn [metrics issues flat_map fold_left].
    rewrite <- app_assoc. reflexivity.
Qed.

Lemma fold_left_count (hit : FunctionDefNode -> bool) (l : list FunctionDefNode) :
  forall n,
    fold_left (fun n func => if hit func then n + 1 else n) l n
    = n + Z.of_nat (length (filter hit l)).
Proof.
  induction l as [|x l IH]; intros n; simpl; [lia|].
  rewrite IH. destruct (hit x); cbn [length]; lia.
Qed.

(** A loop that adds one to its counter at the functions that satisfy [hit]
    and appends the issues [report] gives. *)
Lemma counting_loop (hit : FunctionDefNode -> bool)
    (report : FunctionDefNode -> list TestIssue)
    (body : FunctionDefNode -> Z -> M Z) (l : list FunctionDefNode) :
  (forall func n st,
     In func l ->
     body func n st
     = (Ok (if hit func then n + 1 else n), after st (fun m => m) (report func))) ->
  forall n st,
    for_fold l n body st
    = (Ok (n + Z.of_nat (length (filter hit l))),
       after st (fun m => m) (flat_map report l)).
Proof.
  intros Hbody n st.
  rewrite (reporting_loop (fun func n => if hit func then n + 1 else n) report body l Hbody).
  rewrite fold_left_count. reflexivity.
Qed.

Lemma after_nothing (st : state) : after st (fun m => m) [] = st.
Proof. unfold after. rewrite app_nil_r. destruct st; reflexivity. Qed.

Lemma filter_filter {A} (p q : A -> bool) (l : list A) :
  filter (fun x => p x && q x) l = filter q (filter p l).
Proof.
  induction l as [|x l IH]; [reflexivity|]. simpl.
  destruct (p x); simpl; [destruct (q x)|]; rewrite IH; reflexivity.
Qed.

Lemma flat_map_filter {A B} (p : A -> bool) (f : A -> list B) (l : list A) :
  flat_map (fun x => if p x then f x else []) l = flat_map f (filter p l).
Proof.
  induction l as [|x l IH]; [reflexivity|]. simpl.
  destruct (p x); simpl; rewrite IH; reflexivity.
Qed.

Lemma filter_length_le {A} (p : A -> bool) (l : list A) :
  (length (filter p l) <= length l)%nat.
Proof.
  induction l as [|x l IH]; simpl; [lia|]. destruct (p x); simpl; lia.
Qed.

Lemma count_where_bounds (p : FunctionDefNode -> bool) (tree : Module_) :
  0 <= count_where p tree <= total_tests_of (function_defs tree).
Proof.
  unfold count_where, total_tests_of, tests_of.
  pose proof (filter_length_le p (filter is_test (function_defs tree))). lia.
Qed.

(** The percentage of a part of the test functions lies between 0 and 100. *)
Lemma percentage_bounds (count total_tests : Z) (v : Q) :
  0 <= count <= total_tests ->
  percentage count total_tests = Ok v ->
  (0 <= v <= 100)%Q.
Proof.
  intros [H0 H1]. unfold percentage. destruct (total_tests >? 0) eqn:E.
  - unfold py_div. destruct (Qeq_bool _ _); [discriminate|].
    cbn [rbind]. intros [= <-]. apply Z.gtb_lt in E.
    assert (Hn : (0 < inject_Z total_tests)%Q)
      by (rewrite <- (Zlt_Qlt 0); exact E).
    split.
    + apply Qmult_le_0_compat; [|discriminate].
      apply Qle_shift_div_l; [exact Hn|].
      rewrite Qmult_0_l. rewrite <- (Zle_Qle 0). exact H0.
    + setoid_replace 100%Q with (1 * 100)%Q at 2 by reflexivity.
      apply Qmult_le_compat_r; [|discriminate].
      apply Qle_shift_div_r; [exact Hn|].
      rewrite Qmult_1_l. rewrite <- Zle_Qle. exact H1.
  - intros [= <-]. split; discriminate.
Qed.

Lemma percentage_of_part (p : FunctionDefNode -> bool) (tree : Module_) :
  exists v,
    percentage (count_where p tree) (total_tests_of (function_defs tree)) = Ok v
    /\ (0 <= v <= 100)%Q.
Proof.
  destruct (percentage_ok (count_where p tree) (total_tests_of (function_defs tree)))
    as [v E].
  exists v. split; [exact E|].
  apply (percentage_bounds _ _ _ (count_where_bounds p tree) E).
Qed.

Lemma structure_pass_issues_run config path tree st :
  _analyze_test_structure config path tree st
  = (Ok tt, after st (fun m => m)
                  (flat_map (structure_issues config path) (tests_of tree))).
Proof.
  unfold _analyze_test_structure, tests_of.
  rewrite <- flat_map_filter.
  rewrite reporting_loop
    with (next := fun _ u => u)
         (report := fun x => if is_test x then structure_issues config path x else []).
  - f_equal. induction (function_defs tree); simpl; auto.
  - intros func [] st0 _. unfold structure_issues, bind, when.
    destruct (is_test func); cbn [negb]; [|unfold ret; rewrite after_nothing; reflexivity].
    destruct (func_lines_of func <? _);
      destruct (Z.of_nat _ <? _);
      unfold ret, append, after; cbn [metrics issues app];
      rewrite <- ?app_assoc, ?app_nil_r; try reflexivity;
      destruct st0; reflexivity.
Qed.

(** X1. The structure pass never raises and leaves the metrics as they are;
    it appends, for each test function in the order of the walk, a
    [test_too_short] issue when the span is below the minimum and then an
    [insufficient_assertions] issue when the function has fewer assert
    statements than the minimum, and nothing for any other function. *)
Theorem structure_pass_issues config path tree st :
  _analyze_test_structure config path tree st
  = (Ok tt, after st (fun m => m)
                  (flat_map (structure_issues config path) (tests_of tree))).
Proof. exact (structure_pass_issues_run config path tree st). Qed.

Lemma flat_map_none {A B} (l : list A) : flat_map (fun _ : A => @nil B) l = [].
Proof. induction l; simpl; auto. Qed.

Lemma flat_map_single {A B} (p : A -> bool) (f : A -> B) (l : list A) :
  flat_map (fun x => if p x then [f x] else []) l = map f (filter p l).
Proof.
  induction l as [|x l IH]; [reflexivity|]. simpl.
  destruct (p x); simpl; rewrite IH; reflexivity.
Qed.

Lemma count_where_filter (p : FunctionDefNode -> bool) (tree : Module_) :
  Z.of_nat (length (filter (fun f => is_test f && p f) (function_defs tree)))
  = count_where p tree.
Proof. unfold count_where, tests_of. rewrite filter_filter. reflexivity. Qed.

(** Rewrites the counting loop at the head of a pass; leaves the equation of
    the loop body as the first goal. *)
Ltac count_loop hit report :=
  match goal with
  | |- context [for_fold ?l 0 ?body] =>
      let Hb := fresh "Hb" in
      assert (Hb : forall func n st0,
                 In func l ->
                 body func n st0
                 = (Ok (if hit func then n + 1 else n),
                    after st0 (fun m => m) (report func)));
      [ | rewrite (bind_ok _ (counting_loop hit report body l Hb 0 _)) ]
  end.

(** The value the code computes as a percentage, in exact arithmetic. *)
Lemma percentage_exact (count total_tests : Z) (v : Q) :
  percentage count total_tests = Ok v -> v = exact_percentage count total_tests.
Proof.
  unfold percentage, exact_percentage, py_div.
  destruct (total_tests >? 0); [|congruence].
  destruct (Qeq_bool _ _); cbn [rbind]; congruence.
Qed.

Lemma close_to_refl (v : Q) : close_to v v.
Proof.
  unfold close_to.
  assert (E : (v - v == 0)%Q) by ring.
  rewrite E. discriminate.
Qed.

Lemma business_logic_pass_run config path tree st :
  readable tree ->
  exists v,
    percentage (count_where (mentions business_logic_indicators) tree)
               (total_tests_of (function_defs tree)) = Ok v
    /\ (0 <= v <= 100)%Q
    /\ _analyze_business_logic_coverage config path tree st
       = (Ok tt,
          after st (set_business_logic_coverage v)
                (if Qltb v (min_business_logic_threshold config)
                 then [low_coverage path v] else [])).
Proof.
  intros Hr.
  destruct (percentage_of_part (mentions business_logic_indicators) tree)
    as (v & E & B).
  exists v. split; [exact E|]. split; [exact B|].
  unfold _analyze_business_logic_coverage.
  count_loop (fun f => is_test f && mentions business_logic_indicators f)
             (fun _ : FunctionDefNode => @nil TestIssue).
  - intros func n st0 Hin. rewrite after_nothing. unfold mentions.
    destruct (is_test func) eqn:Ht; cbn [negb andb]; [|reflexivity].
    rewrite (readable_content tree func Hr Hin Ht). unfold bind, lift.
    destruct (existsb _ _); reflexivity.
  - rewrite flat_map_none, after_nothing, Z.add_0_l, count_where_filter, E.
    unfold bind, lift, set_metrics, get_metrics, when, after, low_coverage.
    cbn [metrics issues business_logic_coverage set_business_logic_coverage].
    destruct (Qltb v _); [reflexivity|]. unfold ret. rewrite app_nil_r. reflexivity.
Qed.

(** X2. When the file can be read again for the text of each of its test
    functions, the business-logic pass does not raise. It sets
    [business_logic_coverage] to a value between 0 and 100 which is, up to
    the rounding of the division and the multiplication, the percentage of
    the test functions whose lower-cased text contains one of the ten
    indicators (0 without test function), and it appends one
    [low_business_logic_coverage] issue at line 1, which quotes that value,
    exactly when the value it has set is below
    [min_business_logic_threshold]. *)
Theorem business_logic_pass config path tree st :
  readable tree ->
  exists v,
    close_to v (exact_percentage (count_where (mentions business_logic_indicators) tree)
                                 (total_tests_of (function_defs tree)))
    /\ (0 <= v <= 100)%Q
    /\ _analyze_business_logic_coverage config path tree st
       = (Ok tt,
          after st (set_business_logic_coverage v)
                (if Qltb v (min_business_logic_threshold config)
                 then [low_coverage path v] else [])).
Proof.
  intros Hr.
  destruct (business_logic_pass_run config path tree st Hr) as (v & E & B & R).
  exists v. split; [|split; [exact B|exact R]].
  rewrite (percentage_exact _ _ _ E). apply close_to_refl.
Qed.

Lemma business_logic_pass_witness :
  readable {| mod_body := [node_of documented_function] |}
  /\ exists v,
       _analyze_business_logic_coverage TestQualityConfig_new
         {| parts := ["tests"; "test_order.py"] |}
         {| mod_body := [node_of documented_function] |} state_new
       = (Ok tt, after state_new (set_business_logic_coverage v)
                       [low_coverage {| parts := ["tests"; "test_order.py"] |} v]).
Proof.
  assert (Hr : readable {| mod_body := [node_of documented_function] |})
    by reflexivity.
  split; [exact Hr|].
  destruct (business_logic_pass TestQualityConfig_new
              {| parts := ["tests"; "test_order.py"] |}
              {| mod_body := [node_of documented_function] |} state_new Hr)
    as (v & _ & _ & R).
  exists v. rewrite R.
  destruct (Qltb v (min_business_logic_threshold TestQualityConfig_new)) eqn:L;
    [reflexivity|].
  apply (f_equal (fun r => length (issues (snd r)))) in R.
  vm_compute in R. discriminate R.
Defined.

Lemma error_scenarios_pass_run config path tree st :
  readable tree ->
  exists v,
    percentage (count_where (fun f => mentions error_indicators f || uses_raises f) tree)
               (total_tests_of (function_defs tree)) = Ok v
    /\ (0 <= v <= 100)%Q
    /\ _analyze_error_scenarios config path tree st
       = (Ok tt, {| metrics := set_error_scenario_coverage v (metrics st);
                    issues := issues st |}).
Proof.
  intros Hr.
  destruct (percentage_of_part
              (fun f => mentions error_indicators f || uses_raises f) tree)
    as (v & E & B).
  exists v. split; [exact E|]. split; [exact B|].
  unfold _analyze_error_scenarios.
  count_loop (fun f => is_test f && (mentions error_indicators f || uses_raises f))
             (fun _ : FunctionDefNode => @nil TestIssue).
  - intros func n st0 Hin. rewrite after_nothing. unfold mentions, uses_raises.
    destruct (is_test func) eqn:Ht; cbn [negb andb]; [|reflexivity].
    rewrite (readable_content tree func Hr Hin Ht). unfold bind, lift.
    destruct (_ || _); reflexivity.
  - rewrite flat_map_none, after_nothing, Z.add_0_l, count_where_filter, E.
    unfold bind, lift, set_metrics. destruct st; reflexivity.
Qed.

(** X3. When the file can be read again for the text of each of its test
    functions, the error-scenario pass does not raise and appends no issue.
    It sets [error_scenario_coverage] to a value between 0 and 100 which
    is, up to the rounding of the division and the multiplication, the
    percentage of the test functions whose lower-cased text contains one of
    the eleven indicators or whose text, as written, contains
    [with raises] or [pytest.raises]. *)
Theorem error_scenarios_pass config path tree st :
  readable tree ->
  exists v,
    close_to v (exact_percentage
                  (count_where (fun f => mentions error_indicators f || uses_raises f) tree)
                  (total_tests_of (function_defs tree)))
    /\ (0 <= v <= 100)%Q
    /\ _analyze_error_scenarios config path tree st
       = (Ok tt, {| metrics := set_error_scenario_coverage v (metrics st);
                    issues := issues st |}).
Proof.
  intros Hr.
  destruct (error_scenarios_pass_run config path tree st Hr) as (v & E & B & R).
  exists v. split; [|split; [exact B|exact R]].
  rewrite (percentage_exact _ _ _ E). apply close_to_refl.
Qed.

Lemma error_scenarios_pass_witness :
  readable {| mod_body := [node_of scenario_A_function] |}
  /\ exists v,
       (0 <= v <= 100)%Q
       /\ _analyze_error_scenarios TestQualityConfig_new
            {| parts := ["tests"; "test_totals.py"] |}
            {| mod_body := [node_of scenario_A_function] |} state_new
          = (Ok tt, {| metrics := set_error_scenario_coverage v QualityMetrics_new;
                       issues := [] |}).
Proof.
  assert (Hr : readable {| mod_body := [node_of scenario_A_function] |})
    by reflexivity.
  split; [exact Hr|].
  destruct (error_scenarios_pass TestQualityConfig_new
              {| parts := ["tests"; "test_totals.py"] |}
              {| mod_body := [node_of scenario_A_function] |} state_new Hr)
    as (v & _ & B & R).
  exists v. split; [exact B|exact R].
Defined.

Lemma mock_usage_pass_run config path tree st :
  readable tree ->
  exists v,
    percentage (count_where (isolated config) tree)
               (total_tests_of (function_defs tree)) = Ok v
    /\ (0 <= v <= 100)%Q
    /\ _analyze_mock_usage config path tree st
       = (Ok tt,
          after st (set_mock_isolation_score v)
                (map (too_many_mocks path)
                     (filter (over_mocked config) (tests_of tree)))).
Proof.
  intros Hr.
  destruct (percentage_of_part (isolated config) tree) as (v & E & B).
  exists v. split; [exact E|]. split; [exact B|].
  unfold _analyze_mock_usage.
  count_loop (fun f => is_test f && isolated config f)
             (fun f => if is_test f && over_mocked config f
                       then [too_many_mocks path f] else []).
  - intros func n st0 Hin. unfold over_mocked.
    destruct (is_test func) eqn:Ht; cbn [negb andb];
      [|rewrite after_nothing; reflexivity].
    rewrite (readable_content tree func Hr Hin Ht). unfold bind at 1, lift.
    change (sumZ (map (fun indicator =>
                         PyStr.count (PyStr.lower (text_of func)) indicator)
                      mock_indicators))
      with (mock_count_of func).
    change ((0 <? mock_count_of func)
            && (mock_count_of func <=? max_mock_objects_per_test config))
      with (isolated config func).
    destruct (isolated config func); cbn [negb andb];
      [rewrite after_nothing; reflexivity|].
    destruct (mock_count_of func >? _);
      [reflexivity|rewrite after_nothing; reflexivity].
  - rewrite Z.add_0_l, count_where_filter, E, flat_map_single, filter_filter.
    reflexivity.
Qed.

(** X4. When the file can be read again for the text of each of its test
    functions, the mock pass does not raise. It sets [mock_isolation_score]
    to a value between 0 and 100 which is, up to the rounding of the
    division and the multiplication, the percentage of the test functions
    whose mock count is positive and at most [max_mock_objects_per_test],
    and it appends one [too_many_mocks] issue, at the line of the function
    and naming the count, for each test function whose count exceeds the
    maximum, in the order of the walk, and no other issue. *)
Theorem mock_usage_pass config path tree st :
  readable tree ->
  exists v,
    close_to v (exact_percentage (count_where (isolated config) tree)
                                 (total_tests_of (function_defs tree)))
    /\ (0 <= v <= 100)%Q
    /\ _analyze_mock_usage config path tree st
       = (Ok tt,
          after st (set_mock_isolation_score v)
                (map (too_many_mocks path)
                     (filter (over_mocked config) (tests_of tree)))).
Proof.
  intros Hr.
  destruct (mock_usage_pass_run config path tree st Hr) as (v & E & B & R).
  exists v. split; [|split; [exact B|exact R]].
  rewrite (percentage_exact _ _ _ E). apply close_to_refl.
Qed.

Lemma mock_usage_pass_witness :
  readable {| mod_body := [node_of scenario_A_function] |}
  /\ exists v,
       (0 <= v <= 100)%Q
       /\ _analyze_mock_usage TestQualityConfig_new
            {| parts := ["tests"; "test_totals.py"] |}
            {| mod_body := [node_of scenario_A_function] |} state_new
          = (Ok tt, after state_new (set_mock_isolation_score v) []).
Proof.
  assert (Hr : readable {| mod_body := [node_of scenario_A_function] |})
    by reflexivity.
  split; [exact Hr|].
  destruct (mock_usage_pass TestQualityConfig_new
              {| parts := ["tests"; "test_totals.py"] |}
              {| mod_body := [node_of scenario_A_function] |} state_new Hr)
    as (v & _ & B & R).
  exists v. split; [exact B|exact R].
Defined.


(** No lower-cased text holds a capital letter. *)
Lemma lower_char_not_upper (c : ascii) : PyStr.is_upper (PyStr.lower_char c) = false.
Proof.
  destruct c as [[] [] [] [] [] [] [] []]; reflexivity.
Qed.

Lemma count_from_capital (c : ascii) (w s : string) :
  PyStr.is_upper c = true ->
  forall skip, PyStr.count_from (String c w) skip (PyStr.lower s) = 0.
Proof.
  intros Hc. induction s as [|d s IH]; intros skip; [reflexivity|].
  cbn [PyStr.lower PyStr.count_from]. destruct skip as [|k]; [|apply IH].
  cbn [String.prefix]. destruct (ascii_dec c (PyStr.lower_char d)) as [->|_].
  - rewrite lower_char_not_upper in Hc. discriminate.
  - apply IH.
Qed.

(** X6. The indicators [MagicMock] and [AsyncMock] of the mock pass never
    count: the text is lower-cased before it is searched, so the mock count
    the pass computes from the text of a function, whatever the text, is
    the number of occurrences of [mock], [patch] and [stub] in its
    lower-cased form. *)
Theorem capital_mock_indicators_never_count (content : string) :
  PyStr.count (PyStr.lower content) "MagicMock" = 0
  /\ PyStr.count (PyStr.lower content) "AsyncMock" = 0
  /\ mock_count content
     = PyStr.count (PyStr.lower content) "mock"
       + PyStr.count (PyStr.lower content) "patch"
       + PyStr.count (PyStr.lower content) "stub".
Proof.
  assert (M : PyStr.count (PyStr.lower content) "MagicMock" = 0)
    by (apply count_from_capital; reflexivity).
  assert (A : PyStr.count (PyStr.lower content) "AsyncMock" = 0)
    by (apply count_from_capital; reflexivity).
  split; [exact M|]. split; [exact A|].
  unfold mock_count, mock_indicators, sumZ. cbn [map fold_left].
  rewrite M, A. lia.
Qed.

(** *** The whole analysis of a file *)

Lemma has_test_or_not (tree : Module_) : has_test tree \/ no_test tree.
Proof.
  destruct (existsb is_test (function_defs tree)) eqn:E.
  - left. apply existsb_exists in E. exact E.
  - right. intros func Hin. destruct (is_test func) eqn:Ht; [|reflexivity].
    assert (X : existsb is_test (function_defs tree) = true)
      by (apply existsb_exists; eauto).
    congruence.
Qed.

Lemma tests_of_has_test (tree : Module_) : has_test tree <-> tests_of tree <> [].
Proof.
  unfold has_test, tests_of. split.
  - intros (func & Hin & Ht) E.
    assert (X : In func (filter is_test (function_defs tree)))
      by (apply filter_In; auto).
    rewrite E in X. destruct X.
  - intros H. destruct (filter is_test (function_defs tree)) as [|func l] eqn:E;
      [contradiction|].
    assert (X : In func (filter is_test (function_defs tree)))
      by (rewrite E; left; reflexivity).
    apply filter_In in X. exists func. exact X.
Qed.

(** The overall score of metrics that are all zero is zero, for all
    (finite) weights. *)
Lemma overall_of_zero config m :
  all_zero m -> (_calculate_overall_score config m == 0)%Q.
Proof.
  intros (H1 & H2 & H3 & H4 & H5 & H6 & _ & _).
  unfold _calculate_overall_score. cbn [fold_left].
  match goal with |- (py_min ?s _ == _)%Q => set (score := s) end.
  assert (Hs : (score == 0)%Q)
    by (unfold score; rewrite H1, H2, H3, H4, H5, H6; ring).
  unfold py_min, Qltb.
  assert (L : Qle_bool score 100 = true) by (rewrite Hs; reflexivity).
  rewrite L. exact Hs.
Qed.

Lemma all_zero_new : all_zero QualityMetrics_new.
Proof. unfold all_zero. simpl. repeat split; reflexivity. Qed.

(** Whatever a parsed file holds, the metrics [analyze_test_file] returns
    for it are all zero. *)
Lemma parsed_file_metrics_zero config f tree :
  sf_parse f = Ok tree ->
  exists m found, analyze_test_file config f = Ok (m, found) /\ all_zero m.
Proof.
  intros Hp. destruct (has_test_or_not tree) as [Ht|Hno].
  - destruct (analysis_stops config f tree Hp Ht) as (later & e & _ & E & _).
    rewrite E. eexists _, _. split; [reflexivity|apply all_zero_new].
  - unfold analyze_test_file. rewrite Hp.
    rewrite (bind_ok _ (structure_no_test config _ _ _ Hno)).
    destruct (business_logic_no_test config (sf_path f) tree
                {| metrics := QualityMetrics_new; issues := [] |} Hno)
      as (low & E & F).
    rewrite (bind_ok _ E).
    rewrite (bind_ok _ (error_scenarios_no_test config _ _ _ Hno)).
    rewrite (bind_ok _ (mock_usage_no_test config _ _ _ Hno)).
    rewrite (bind_ok _ (documentation_no_test config _ _ _ Hno)).
    rewrite (bind_ok _ (maintainability_no_test config _ _ _ Hno)).
    cbn [issues metrics]. unfold bind, get_metrics, set_metrics. cbn [metrics issues].
    eexists _, _. split; [reflexivity|].
    match goal with
    | |- all_zero (set_overall_quality_score (_calculate_overall_score _ ?m) _) =>
        assert (Z0 : all_zero m) by (unfold all_zero; simpl; repeat split; reflexivity);
        pose proof (overall_of_zero config m Z0) as O
    end.
    unfold all_zero.
    cbn [set_overall_quality_score business_logic_coverage error_scenario_coverage
         mock_isolation_score realistic_data_score documentation_score
         maintenance_score integration_coverage overall_quality_score
         set_maintenance_score set_documentation_score set_mock_isolation_score
         set_error_scenario_coverage set_business_logic_coverage QualityMetrics_new].
    repeat (split; [reflexivity|]). exact O.
Qed.

Lemma analysis_of_file_with_tests_run config f tree :
  sf_parse f = Ok tree ->
  has_test tree ->
  readable tree ->
  exists v,
    percentage (count_where (mentions business_logic_indicators) tree)
               (total_tests_of (function_defs tree)) = Ok v
    /\ analyze_test_file config f
       = Ok (QualityMetrics_new,
             (flat_map (structure_issues config (sf_path f)) (tests_of tree)
              ++ (if Qltb v (min_business_logic_threshold config)
                  then [low_coverage (sf_path f) v] else [])
              ++ map (too_many_mocks (sf_path f))
                     (filter (over_mocked config) (tests_of tree))
              ++ [analysis_error (sf_path f)
                    (AttributeError "FunctionDef" "docstring")])%list).
Proof.
  intros Hp Ht Hr. unfold analyze_test_file. rewrite Hp.
  rewrite (bind_ok _ (structure_pass_issues_run config _ _ _)).
  destruct (business_logic_pass_run config (sf_path f) tree
              (after {| metrics := QualityMetrics_new; issues := [] |} (fun m => m)
                     (flat_map (structure_issues config (sf_path f)) (tests_of tree)))
              Hr)
    as (v & E & _ & R).
  exists v. split; [exact E|].
  rewrite (bind_ok _ R).
  match goal with
  | |- context [(_analyze_error_scenarios _ _ _ ;; _) ?st] =>
      destruct (error_scenarios_pass_run config (sf_path f) tree st Hr)
        as (v3 & _ & _ & R3);
      rewrite (bind_ok _ R3)
  end.
  match goal with
  | |- context [(_analyze_mock_usage _ _ _ ;; _) ?st] =>
      destruct (mock_usage_pass_run config (sf_path f) tree st Hr)
        as (v4 & _ & _ & R4);
      rewrite (bind_ok _ R4)
  end.
  rewrite (bind_raise _ (documentation_raises config _ _ _ Ht)).
  unfold analysis_failed, analysis_error, after. cbn [issues metrics app].
  rewrite <- !app_assoc. reflexivity.
Qed.

(** X7. For a parsed file with at least one test function that can be read
    again for the text of each of them, [analyze_test_file] returns fresh
    metrics (all 0) and these issues, in this order: the issues of the
    structure pass for its test functions, one
    [low_business_logic_coverage] issue when the coverage the pass has
    computed is below the threshold (that coverage being, up to the
    rounding of the float operations, the percentage of test functions that
    mention a business-logic indicator), one [too_many_mocks] issue per
    test function over the mock maximum, and last one [analysis_error] for
    the [AttributeError] of the documentation pass; no
    [missing_documentation] or [test_too_long] issue is in the result. *)
Theorem analysis_of_file_with_tests config f tree :
  sf_parse f = Ok tree ->
  has_test tree ->
  readable tree ->
  exists v,
    close_to v (exact_percentage (count_where (mentions business_logic_indicators) tree)
                                 (total_tests_of (function_defs tree)))
    /\ analyze_test_file config f
       = Ok (QualityMetrics_new,
             (flat_map (structure_issues config (sf_path f)) (tests_of tree)
              ++ (if Qltb v (min_business_logic_threshold config)
                  then [low_coverage (sf_path f) v] else [])
              ++ map (too_many_mocks (sf_path f))
                     (filter (over_mocked config) (tests_of tree))
              ++ [analysis_error (sf_path f)
                    (AttributeError "FunctionDef" "docstring")])%list).
Proof.
  intros Hp Ht Hr.
  destruct (analysis_of_file_with_tests_run config f tree Hp Ht Hr) as (v & E & R).
  exists v. split; [|exact R].
  rewrite (percentage_exact _ _ _ E). apply close_to_refl.
Qed.

Lemma analysis_of_file_with_tests_witness :
  (sf_parse documented_file = Ok {| mod_body := [node_of documented_function] |}
   /\ has_test {| mod_body := [node_of documented_function] |}
   /\ readable {| mod_body := [node_of documented_function] |})
  /\ exists v,
       analyze_test_file TestQualityConfig_new documented_file
       = Ok (QualityMetrics_new,
             [ too_short (sf_path documented_file) documented_function;
               low_coverage (sf_path documented_file) v;
               analysis_error (sf_path documented_file)
                 (AttributeError "FunctionDef" "docstring") ]).
Proof.
  assert (Ht : has_test {| mod_body := [node_of documented_function] |})
    by (exists documented_function; split; [left|]; reflexivity).
  assert (Hr : readable {| mod_body := [node_of documented_function] |})
    by reflexivity.
  split; [split; [reflexivity|split; [exact Ht|exact Hr]]|].
  destruct (analysis_of_file_with_tests TestQualityConfig_new documented_file
              {| mod_body := [node_of documented_function] |} eq_refl Ht Hr)
    as (v & C & R).
  exists v. rewrite R.
  destruct (Qltb v (min_business_logic_threshold TestQualityConfig_new)) eqn:L;
    [reflexivity|].
  apply (f_equal (fun r => match r with
                           | Ok (_, found) => length found
                           | Raise _ => O
                           end)) in R.
  vm_compute in R. discriminate R.
Defined.

(** *** The project pass *)

Lemma all_zero_tracked p m : all_zero m -> all_zero (set_tracked_file_path p m).
Proof. intros H. exact H. Qed.

Lemma all_zero_asdict m : all_zero m -> all_zero (asdict m).
Proof. intros H. exact H. Qed.

(** The loop of [analyze_project] over files that all parse. *)
Lemma analyze_each_parsed config (files : list source_file) :
  (forall f, In f files -> exists tree, sf_parse f = Ok tree) ->
  forall ms0 found0,
    exists ms found,
      rfold (analyze_one config) files (ms0, found0)
      = Ok ((ms0 ++ ms)%list, (found0 ++ found)%list)
      /\ length ms = length files
      /\ Forall all_zero ms.
Proof.
  induction files as [|f files IH]; intros Hall ms0 found0.
  - exists [], []. simpl. rewrite !app_nil_r. auto.
  - destruct (Hall f (or_introl eq_refl)) as [tree Hp].
    destruct (parsed_file_metrics_zero config f tree Hp) as (m & fi & E & Z0).
    destruct (IH (fun g Hg => Hall g (or_intror Hg))
                 (ms0 ++ [set_tracked_file_path (str_path (sf_path f)) m])%list
                 (found0 ++ fi)%list)
      as (ms & found & R & L & F).
    exists (set_tracked_file_path (str_path (sf_path f)) m :: ms), (fi ++ found)%list.
    cbn [rfold]. unfold analyze_one at 1. rewrite E. cbn [rbind].
    rewrite R, <- !app_assoc. cbn [app length]. split; [reflexivity|].
    split; [lia|]. constructor; [exact Z0|exact F].
Qed.

Lemma total_of_zero (field : QualityMetrics -> Q) (ms : list QualityMetrics) :
  Forall (fun m => (field m == 0)%Q) ms -> (total field ms == 0)%Q.
Proof.
  induction 1 as [|m ms Hm _ IH]; simpl; [reflexivity|].
  rewrite Hm, IH. reflexivity.
Qed.

Lemma zero_over_count (x c : Q) : (x == 0)%Q -> (x / c == 0)%Q.
Proof. intros H. rewrite H. unfold Qdiv. apply Qmult_0_l. Qed.

(** The aggregate of metrics that are all zero is all zero. *)
Lemma project_metrics_zero (ms : list QualityMetrics) :
  ms <> [] -> Forall all_zero ms ->
  exists agg, _calculate_project_metrics ms = Ok agg /\ all_zero agg.
Proof.
  intros Hne Hz. unfold _calculate_project_metrics.
  destruct ms as [|m0 ms0] eqn:Hms; [contradiction|]. rewrite <- Hms in *.
  unfold py_div. rewrite (count_not_zero ms Hne). cbn [rbind].
  destruct (totals_spec ms QualityMetrics_new) as (H1 & H2 & H3 & H4 & H5 & H6 & H7).
  cbn zeta in *.
  eexists. split; [reflexivity|]. unfold all_zero.
  cbn [business_logic_coverage error_scenario_coverage mock_isolation_score
       realistic_data_score documentation_score maintenance_score
       overall_quality_score integration_coverage].
  assert (T : forall field : QualityMetrics -> Q,
             (forall m, all_zero m -> (field m == 0)%Q) ->
             (field QualityMetrics_new == 0)%Q ->
             forall t, (t == field QualityMetrics_new + total field ms)%Q ->
             (t / inject_Z (Z.of_nat (length ms)) == 0)%Q).
  { intros field Hf H0 t Ht. apply zero_over_count. rewrite Ht, H0.
    rewrite (total_of_zero field ms).
    - reflexivity.
    - eapply Forall_impl; [|exact Hz]. exact Hf. }
  repeat split.
  - apply (T business_logic_coverage); [unfold all_zero; tauto|reflexivity|exact H1].
  - apply (T error_scenario_coverage); [unfold all_zero; tauto|reflexivity|exact H2].
  - apply (T mock_isolation_score); [unfold all_zero; tauto|reflexivity|exact H3].
  - apply (T realistic_data_score); [unfold all_zero; tauto|reflexivity|exact H4].
  - apply (T documentation_score); [unfold all_zero; tauto|reflexivity|exact H5].
  - apply (T maintenance_score); [unfold all_zero; tauto|reflexivity|exact H6].
  - apply (T overall_quality_score); [unfold all_zero; tauto|reflexivity|exact H7].
Qed.

Lemma grade_F (score : Q) : (score == 0)%Q -> _calculate_quality_grade score = "F".
Proof.
  intros H. unfold _calculate_quality_grade.
  assert (A : Qle_bool 90 score = false) by (rewrite H; reflexivity).
  assert (B : Qle_bool 80 score = false) by (rewrite H; reflexivity).
  assert (C : Qle_bool 70 score = false) by (rewrite H; reflexivity).
  assert (D : Qle_bool 60 score = false) by (rewrite H; reflexivity).
  rewrite A, B, C, D. reflexivity.
Qed.

(** The report for test files that all parse. *)
Lemma project_report_run config root (files : list source_file) :
  files <> [] ->
  (forall f, In f files -> exists tree, sf_parse f = Ok tree) ->
  exists r,
    analyze_project config root files = Ok (Report r)
    /\ test_files_analyzed r = Z.of_nat (length files)
    /\ length (file_metrics r) = length files
    /\ Forall (fun m => all_zero m /\ tracked_file_path m = None) (file_metrics r)
    /\ all_zero (project_metrics r)
    /\ quality_grade r = "F".
Proof.
  intros Hne Hall. unfold analyze_project.
  destruct files as [|f0 files0] eqn:Hf; [contradiction|]. rewrite <- Hf in *.
  unfold analyze_each.
  destruct (analyze_each_parsed config files Hall [] []) as (ms & found & R & L & F).
  rewrite R. cbn [rbind app].
  assert (Hms : ms <> []) by (destruct ms; [rewrite Hf in L; discriminate|discriminate]).
  destruct (project_metrics_zero ms Hms F) as (agg & E & Z0).
  rewrite E. cbn [rbind]. eexists. split; [reflexivity|].
  cbn [test_files_analyzed file_metrics project_metrics quality_grade].
  split; [reflexivity|]. split; [rewrite length_map; exact L|].
  split; [|split; [exact Z0|apply grade_F; apply Z0]].
  apply Forall_map. eapply Forall_impl; [|exact F].
  intros m Hm. split; [exact Hm|reflexivity].
Qed.

Lemma forallb_false_split {A} (p : A -> bool) (l : list A) :
  forallb p l = false ->
  exists before bad after, l = (before ++ bad :: after)%list /\ p bad = false.
Proof.
  induction l as [|x l IH]; [discriminate|]. cbn [forallb].
  destruct (p x) eqn:E; cbn [andb].
  - intros H. destruct (IH H) as (before & bad & after & -> & Hb).
    exists (x :: before), bad, after. split; [reflexivity|exact Hb].
  - intros _. exists [], x, l. split; [reflexivity|exact E].
Qed.

(** [analyze_project] returns a report only for test files that all
    parse. *)
Lemma report_returned config root (files : list source_file) r :
  analyze_project config root files = Ok (Report r) ->
  files <> [] /\ forall f, In f files -> exists tree, sf_parse f = Ok tree.
Proof.
  intros E. split; [intros ->; discriminate E|].
  destruct (forallb parsed files) eqn:P.
  - intros f Hin. rewrite forallb_forall in P. specialize (P f Hin).
    unfold parsed in P. destruct (sf_parse f); [eauto|discriminate].
  - exfalso. destruct (forallb_false_split _ _ P) as (before & bad & after & -> & Hb).
    unfold analyze_project in E.
    destruct (before ++ bad :: after)%list eqn:Hl; [destruct before; discriminate|].
    rewrite <- Hl in E. unfold analyze_each in E.
    rewrite analyze_each_unparsable in E; [discriminate E|].
    unfold parsed in Hb. destruct (sf_parse bad); [discriminate|eauto].
Qed.

Lemma returned_report_zero config root (files : list source_file) r :
  analyze_project config root files = Ok (Report r) ->
  test_files_analyzed r = Z.of_nat (length files)
  /\ length (file_metrics r) = length files
  /\ Forall (fun m => all_zero m /\ tracked_file_path m = None) (file_metrics r)
  /\ all_zero (project_metrics r)
  /\ quality_grade r = "F".
Proof.
  intros E. destruct (report_returned config root files r E) as [Hne Hall].
  destruct (project_report_run config root files Hne Hall) as (r' & E' & H).
  rewrite E in E'. injection E' as <-. exact H.
Qed.

(** X8. [analyze_project] returns a report exactly when the project has
    test files and every one of them parses. In every report it returns,
    [test_files_analyzed] is the number of files and [file_metrics] has one
    entry per file; every metric of every entry and of the project is 0 and
    the grade is F, whatever the files hold and for every configuration
    whose weights are finite (the weights of the embedding are rationals;
    an infinite or NaN weight times a metric of 0 is NaN in the code); and
    no entry of [file_metrics] carries the path of its file, since [asdict]
    only copies the dataclass fields. *)
Theorem project_report_is_all_zero config root (files : list source_file) :
  ((exists r, analyze_project config root files = Ok (Report r))
   <-> files <> [] /\ forall f, In f files -> exists tree, sf_parse f = Ok tree)
  /\ forall r,
       analyze_project config root files = Ok (Report r) ->
       test_files_analyzed r = Z.of_nat (length files)
       /\ length (file_metrics r) = length files
       /\ Forall (fun m => all_zero m /\ tracked_file_path m = None) (file_metrics r)
       /\ all_zero (project_metrics r)
       /\ quality_grade r = "F".
Proof.
  split; [split|].
  - intros [r E]. exact (report_returned config root files r E).
  - intros [Hne Hall].
    destruct (project_report_run config root files Hne Hall) as (r & E & _).
    exists r. exact E.
  - intros r E. exact (returned_report_zero config root files r E).
Qed.

Lemma project_report_is_all_zero_witness :
  exists r,
    analyze_project TestQualityConfig_new {| parts := ["proj"] |}
      [helpers_only_file; documented_file] = Ok (Report r)
    /\ test_files_analyzed r = 2
    /\ quality_grade r = "F".
Proof.
  assert (Hne : [helpers_only_file; documented_file] <> []) by discriminate.
  assert (Hall : forall f, In f [helpers_only_file; documented_file] ->
                   exists tree, sf_parse f = Ok tree).
  { intros f [<-|[<-|[]]]; eexists; reflexivity. }
  destruct (proj2 (proj1 (project_report_is_all_zero TestQualityConfig_new
                            {| parts := ["proj"] |}
                            [helpers_only_file; documented_file]))
                  (conj Hne Hall)) as [r E].
  exists r. split; [exact E|].
  destruct (proj2 (project_report_is_all_zero TestQualityConfig_new
                     {| parts := ["proj"] |}
                     [helpers_only_file; documented_file]) r E)
    as (N & _ & _ & _ & G).
  split; [exact N|exact G].
Defined.

(** *** The issue summary and the grade *)

Lemma lookup_increment_same (k : string) (d : list (string * Z)) :
  lookup k (increment k d) = Some (count_of (lookup k d) + 1).
Proof.
  induction d as [|[k' n] d IH]; simpl.
  - rewrite String.eqb_refl. reflexivity.
  - destruct (String.eqb k' k) eqn:E; simpl; rewrite E; [reflexivity|exact IH].
Qed.

Lemma lookup_increment_other (k k' : string) (d : list (string * Z)) :
  k' <> k -> lookup k (increment k' d) = lookup k d.
Proof.
  intros Hne. induction d as [|[k0 n] d IH]; simpl.
  - destruct (String.eqb_spec k' k); [contradiction|reflexivity].
  - destruct (String.eqb_spec k0 k') as [->|N]; simpl.
    + destruct (String.eqb_spec k' k); [contradiction|reflexivity].
    + destruct (String.eqb k0 k); [reflexivity|exact IH].
Qed.

(** The dictionary after counting the issues [found] into [d]. *)
Lemma by_type_counts (t : string) (found : list TestIssue) :
  forall d,
    let d' := fold_left (fun d i => increment (issue_type i) d) found d in
    count_of (lookup t d') = count_of (lookup t d) + count_type t found
    /\ (lookup t d' = None <-> lookup t d = None /\ count_type t found = 0).
Proof.
  unfold count_type.
  induction found as [|i found IH]; intros d; cbn zeta.
  - simpl. split; [lia|]. tauto.
  - cbn [fold_left filter]. destruct (IH (increment (issue_type i) d)) as [C N].
    cbn zeta in C, N.
    destruct (String.eqb_spec (issue_type i) t) as [Heq|Hne].
    + rewrite Heq in *. rewrite lookup_increment_same in C, N.
      cbn [length count_of] in *. split; [lia|]. split.
      * intros X. apply N in X. destruct X as [X _]. discriminate X.
      * intros [_ X]. lia.
    + rewrite (lookup_increment_other _ _ _ Hne) in C, N. split; [lia|]. exact N.
Qed.

(** [by_type] maps every issue type to the number of issues of that type,
    and has no entry for a type that does not occur. *)
Lemma by_type_lookup (found : list TestIssue) (t : string) :
  lookup t (by_type (_summarize_issues found))
  = if count_type t found =? 0 then None else Some (count_type t found).
Proof.
  unfold _summarize_issues. cbn [by_type].
  destruct (by_type_counts t found []) as [C N]. cbn zeta in C, N.
  cbn [lookup count_of] in C, N.
  destruct (lookup t (fold_left _ found [])) as [n|] eqn:E.
  - cbn [count_of] in C. destruct (count_type t found =? 0) eqn:Z0.
    + apply Z.eqb_eq in Z0. assert (X : Some n = None) by (apply N; auto).
      discriminate X.
    + f_equal. lia.
  - assert (X : count_type t found = 0) by (apply N; reflexivity).
    rewrite X. reflexivity.
Qed.

Lemma increment_keys (k : string) (d : list (string * Z)) :
  NoDup (map fst d) ->
  NoDup (map fst (increment k d))
  /\ (forall x, In x (map fst (increment k d)) <-> x = k \/ In x (map fst d))
  /\ sumZ (map snd (increment k d)) = sumZ (map snd d) + 1.
Proof.
  assert (S : forall l a, fold_left Z.add l a = a + fold_left Z.add l 0).
  { induction l as [|x l IHl]; intros a; simpl; [lia|].
    rewrite (IHl (a + x)), (IHl x). lia. }
  unfold sumZ. induction d as [|[k' n] d IH]; intros Hnd; simpl.
  - split; [constructor; [intros []|constructor]|].
    split; [intros x; intuition congruence|reflexivity].
  - inversion Hnd as [|a l Hnotin Hnd']; subst.
    destruct (String.eqb_spec k' k) as [->|Hne]; simpl.
    + split; [exact Hnd|]. split; [intros x; simpl; intuition congruence|].
      rewrite (S _ (n + 1)), (S _ n). lia.
    + destruct (IH Hnd') as (N1 & N2 & N3). split; [|split].
      * constructor; [|exact N1]. rewrite N2. intros [X|X]; [congruence|contradiction].
      * intros x. rewrite N2. simpl. intuition congruence.
      * rewrite (S _ n), N3, (S _ n). lia.
Qed.

(** The types of [by_type] are pairwise different and their counts add up
    to [total_issues]. *)
Lemma by_type_adds_up (found : list TestIssue) :
  NoDup (map fst (by_type (_summarize_issues found)))
  /\ sumZ (map snd (by_type (_summarize_issues found)))
     = total_issues (_summarize_issues found).
Proof.
  unfold _summarize_issues. cbn [by_type total_issues].
  assert (G : forall d,
             NoDup (map fst d) ->
             NoDup (map fst (fold_left (fun d i => increment (issue_type i) d) found d))
             /\ sumZ (map snd (fold_left (fun d i => increment (issue_type i) d) found d))
                = sumZ (map snd d) + Z.of_nat (length found)).
  { induction found as [|i found IH]; intros d Hd; cbn [fold_left length].
    - split; [exact Hd|lia].
    - destruct (increment_keys (issue_type i) d Hd) as (N1 & _ & N3).
      destruct (IH _ N1) as [A B]. split; [exact A|]. rewrite B, N3. lia. }
  destruct (G [] (NoDup_nil _)) as [A B]. split; [exact A|]. rewrite B. reflexivity.
Qed.

Lemma nodup_length_le (l : list string) :
  (length (nodup string_dec l) <= length l)%nat.
Proof.
  induction l as [|x l IH]; simpl; [lia|].
  destruct (in_dec string_dec x l); simpl; lia.
Qed.

(** The four severity counts add up to the number of issues with one of
    the four severities, and [files_with_issues] is at most
    [total_issues]. *)
Lemma severities_add_up (found : list TestIssue) :
  let s := _summarize_issues found in
  critical (by_severity s) + high (by_severity s)
  + medium (by_severity s) + low (by_severity s)
  = Z.of_nat (length (filter known_severity found))
  /\ Z.of_nat (length (filter known_severity found)) <= total_issues s
  /\ files_with_issues s <= total_issues s.
Proof.
  cbn zeta. unfold _summarize_issues.
  cbn [by_severity critical high medium low total_issues files_with_issues].
  split; [|split].
  - unfold count_severity, known_severity.
    cbn [existsb].
    induction found as [|i found IH]; [reflexivity|].
    cbn [filter].
    destruct (String.eqb (severity i) "critical") eqn:E1;
      destruct (String.eqb (severity i) "high") eqn:E2;
      destruct (String.eqb (severity i) "medium") eqn:E3;
      destruct (String.eqb (severity i) "low") eqn:E4;
      cbn [orb length];
      rewrite ?String.eqb_eq in *; try congruence; lia.
  - pose proof (filter_length_le known_severity found). lia.
  - pose proof (nodup_length_le (map file_path found)) as H.
    rewrite length_map in H. lia.
Qed.

(** X9. The counts of the issue summary agree with one another: [by_type]
    maps every issue type to the number of issues of that type, with no
    entry for a type that does not occur and no type twice, and its counts
    add up to [total_issues]; the four severity counts add up to the number
    of issues whose severity is one of critical, high, medium and low, which
    is at most [total_issues]; and [files_with_issues] is at most
    [total_issues]. *)
Theorem issue_summary_counts (found : list TestIssue) :
  let s := _summarize_issues found in
  (forall t,
     lookup t (by_type s)
     = if count_type t found =? 0 then None else Some (count_type t found))
  /\ NoDup (map fst (by_type s))
  /\ sumZ (map snd (by_type s)) = total_issues s
  /\ critical (by_severity s) + high (by_severity s)
     + medium (by_severity s) + low (by_severity s)
     = Z.of_nat (length (filter known_severity found))
  /\ Z.of_nat (length (filter known_severity found)) <= total_issues s
  /\ files_with_issues s <= total_issues s.
Proof.
  cbv zeta. split; [intros t; apply by_type_lookup|].
  destruct (by_type_adds_up found) as [N S].
  split; [exact N|]. split; [exact S|].
  exact (severities_add_up found).
Qed.

Lemma Qle_bool_trans (c a b : Q) :
  (a <= b)%Q -> Qle_bool c a = true -> Qle_bool c b = true.
Proof.
  intros Hab H. apply Qle_bool_iff. apply Qle_bool_iff in H.
  eapply Qle_trans; eauto.
Qed.

(** X10. The grade is one of A, B, C, D and F, and a higher score never
    gets a lower grade. *)
Theorem grade_is_monotone (a b : Q) :
  (a <= b)%Q ->
  In (_calculate_quality_grade a) ["A"; "B"; "C"; "D"; "F"]
  /\ grade_rank (_calculate_quality_grade a) <= grade_rank (_calculate_quality_grade b).
Proof.
  intros Hab. unfold _calculate_quality_grade. split.
  - destruct (Qle_bool 90 a); [simpl; tauto|].
    destruct (Qle_bool 80 a); [simpl; tauto|].
    destruct (Qle_bool 70 a); [simpl; tauto|].
    destruct (Qle_bool 60 a); simpl; tauto.
  - pose proof (Qle_bool_trans 90 a b Hab) as H90.
    pose proof (Qle_bool_trans 80 a b Hab) as H80.
    pose proof (Qle_bool_trans 70 a b Hab) as H70.
    pose proof (Qle_bool_trans 60 a b Hab) as H60.
    destruct (Qle_bool 90 a); [rewrite (H90 eq_refl); reflexivity|].
    destruct (Qle_bool 90 b); [destruct (Qle_bool 80 a), (Qle_bool 70 a), (Qle_bool 60 a); discriminate|].
    destruct (Qle_bool 80 a); [rewrite (H80 eq_refl); reflexivity|].
    destruct (Qle_bool 80 b); [destruct (Qle_bool 70 a), (Qle_bool 60 a); discriminate|].
    destruct (Qle_bool 70 a); [rewrite (H70 eq_refl); reflexivity|].
    destruct (Qle_bool 70 b); [destruct (Qle_bool 60 a); discriminate|].
    destruct (Qle_bool 60 a); [rewrite (H60 eq_refl); reflexivity|].
    destruct (Qle_bool 60 b); discriminate.
Qed.

Lemma grade_is_monotone_witness :
  (65 <= 95)%Q
  /\ grade_rank (_calculate_quality_grade 65) <= grade_rank (_calculate_quality_grade 95).
Proof.
  assert (H : (65 <= 95)%Q) by discriminate.
  split; [exact H|]. apply (grade_is_monotone 65 95 H).
Defined.

(** *** The recommendations of a report *)

Lemma format_1f_zero (q : Q) : (q == 0)%Q -> PyStr.format_1f q = "0.0".
Proof.
  intros H. unfold PyStr.format_1f. cbv zeta.
  assert (Ha : (Qabs q * 10 == 0)%Q) by (rewrite H; reflexivity).
  assert (Hf : Qfloor (Qabs q * 10) = 0) by (rewrite Ha; reflexivity).
  rewrite Hf.
  assert (Hc : Qcompare (2 * (Qabs q * 10 - inject_Z 0)) 1 = Lt)
    by (rewrite Ha; reflexivity).
  rewrite Hc.
  destruct (Qlt_le_dec q 0) as [L|_]; [|reflexivity].
  rewrite H in L. discriminate L.
Qed.

Lemma Qltb_zero (q t : Q) : (q == 0)%Q -> Qltb q t = Qltb 0 t.
Proof.
  intros H. unfold Qltb. f_equal.
  destruct (Qle_bool t 0) eqn:E.
  - apply Qle_bool_iff. apply Qle_bool_iff in E. rewrite H. exact E.
  - destruct (Qle_bool t q) eqn:F; [|reflexivity].
    apply Qle_bool_iff in F. rewrite H in F. apply Qle_bool_iff in F. congruence.
Qed.

(** The recommendations for metrics that are all zero are those for fresh
    metrics. *)
Lemma recommendations_of_zero config m summary :
  all_zero m ->
  _generate_recommendations config m summary
  = _generate_recommendations config QualityMetrics_new summary.
Proof.
  intros (H1 & H2 & H3 & _ & H5 & _).
  unfold _generate_recommendations. cbv zeta.
  rewrite (Qltb_zero _ _ H1), (Qltb_zero _ _ H2), (Qltb_zero _ _ H3),
    (Qltb_zero _ _ H5).
  rewrite (format_1f_zero _ H1), (format_1f_zero _ H2), (format_1f_zero _ H3),
    (format_1f_zero _ H5).
  reflexivity.
Qed.

(** The recommendations of the report for test files that all parse. *)
Lemma report_recommendations_run config root (files : list source_file) :
  files <> [] ->
  (forall f, In f files -> exists tree, sf_parse f = Ok tree) ->
  exists r,
    analyze_project config root files = Ok (Report r)
    /\ recommendations r
       = _generate_recommendations config QualityMetrics_new (report_issue_summary r)
    /\ In isolation_advice (recommendations r)
    /\ In documentation_advice (recommendations r).
Proof.
  intros Hne Hall. unfold analyze_project.
  destruct files as [|f0 files0] eqn:Hf; [contradiction|]. rewrite <- Hf in *.
  unfold analyze_each.
  destruct (analyze_each_parsed config files Hall [] []) as (ms & found & R & L & F).
  rewrite R. cbn [rbind app].
  assert (Hms : ms <> []) by (destruct ms; [rewrite Hf in L; discriminate|discriminate]).
  destruct (project_metrics_zero ms Hms F) as (agg & E & Z0).
  rewrite E. cbn [rbind]. eexists. split; [reflexivity|].
  cbn [recommendations report_issue_summary].
  rewrite (recommendations_of_zero config agg _ Z0).
  split; [reflexivity|].
  unfold _generate_recommendations, isolation_advice, documentation_advice.
  cbv zeta. rewrite !concat_cons, !in_app_iff.
  split.
  - right. right. left. left. reflexivity.
  - right. right. right. left. left. reflexivity.
Qed.

(** X11. The recommendations of every report that [analyze_project]
    returns are those for a project whose metrics are all 0, whatever the
    files hold: they always hold the advice to improve test isolation and
    the advice to improve test documentation, each with the value 0.0%. *)
Theorem project_report_recommendations config root (files : list source_file) r :
  analyze_project config root files = Ok (Report r) ->
  recommendations r
  = _generate_recommendations config QualityMetrics_new (report_issue_summary r)
  /\ In isolation_advice (recommendations r)
  /\ In documentation_advice (recommendations r).
Proof.
  intros E. destruct (report_returned config root files r E) as [Hne Hall].
  destruct (report_recommendations_run config root files Hne Hall) as (r' & E' & H).
  rewrite E in E'. injection E' as <-. exact H.
Qed.

Lemma project_report_recommendations_witness :
  exists r,
    analyze_project TestQualityConfig_new {| parts := ["proj"] |}
      [helpers_only_file; documented_file] = Ok (Report r)
    /\ In isolation_advice (recommendations r).
Proof.
  assert (R : exists r,
             analyze_project TestQualityConfig_new {| parts := ["proj"] |}
               [helpers_only_file; documented_file] = Ok (Report r))
    by (eexists; vm_compute; reflexivity).
  destruct R as [r E]. exists r. split; [exact E|].
  apply (project_report_recommendations TestQualityConfig_new {| parts := ["proj"] |}
           [helpers_only_file; documented_file] r E).
Defined.

End ValidatorExtra.

(** ** The module analyzer and the template generator *)

Module CreationExtra.
Import PyAst Creation CreationSpec CreationFacts CreationExtraSpec.

(** *** Classes *)

Lemma class_properties_result (targets : list expr) (value : expr)
    (acc : list property_info) :
  class_properties_of targets value acc
  = if existsb is_Name targets then Raise (AttributeError "Name" "name") else Ok acc.
Proof.
  unfold class_properties_of. revert acc.
  induction targets as [|t targets IH]; intros acc; [reflexivity|].
  cbn [rfold existsb]. destruct t; cbn [is_Name orb]; try apply IH.
  reflexivity.
Qed.

Lemma select_app {A B} (f : A -> option B) (l1 l2 : list A) :
  select f (l1 ++ l2) = (select f l1 ++ select f l2)%list.
Proof.
  induction l1 as [|x l1 IH]; [reflexivity|]. simpl.
  destruct (f x); simpl; rewrite IH; reflexivity.
Qed.

(** The loop of [_analyze_class] over the class body. *)
Lemma class_body_loop (cbody : list stmt) :
  forall ms ps,
    rfold (fun item '(ms, ps) =>
             match as_FunctionDef item with
             | Some fd =>
                 let method_info := _analyze_function fd in
                 let method_info :=
                   with_is_dunder (PyStr.startswith (fd_name fd) "__") method_info in
                 Ok ((ms ++ [method_info])%list, ps)
             | None =>
                 match item with
                 | Assign targets value =>
                     rbind (class_properties_of targets value ps)
                           (fun ps' => Ok (ms, ps'))
                 | _ => Ok (ms, ps)
                 end
             end)
          cbody (ms, ps)
    = if existsb assigns_name cbody
      then Raise (AttributeError "Name" "name")
      else Ok ((ms ++ map method_of (select as_FunctionDef cbody))%list, ps).
Proof.
  induction cbody as [|item cbody IH]; intros ms ps.
  - simpl. rewrite app_nil_r. reflexivity.
  - cbn [rfold existsb select].
    destruct item; cbn [as_FunctionDef assigns_name orb rbind map];
      try (rewrite IH; destruct (existsb assigns_name cbody); reflexivity).
    + rewrite IH. destruct (existsb assigns_name cbody); [reflexivity|].
      rewrite <- app_assoc. reflexivity.
    + rewrite class_properties_result.
      destruct (existsb is_Name targets); cbn [rbind orb]; [reflexivity|].
      apply IH.
Qed.

Lemma analyze_class_run (cname : string) (cbases : list expr) (cbody : list stmt) :
  _analyze_class cname cbases cbody
  = if existsb assigns_name cbody
    then Raise (AttributeError "Name" "name")
    else Ok (class_model cname cbases cbody).
Proof.
  unfold _analyze_class. rewrite class_body_loop.
  destruct (existsb assigns_name cbody); reflexivity.
Qed.

(** X12. [_analyze_class] raises [AttributeError] exactly when a statement
    of the class body assigns to a bare name; otherwise it returns the model
    with one method per function definition of the body, in their order, the
    bases that are bare names, and no property: no class model ever holds a
    property. *)
Theorem analyze_class_result (cname : string) (cbases : list expr) (cbody : list stmt) :
  _analyze_class cname cbases cbody
  = if existsb assigns_name cbody
    then Raise (AttributeError "Name" "name")
    else Ok (class_model cname cbases cbody).
Proof. exact (analyze_class_run cname cbases cbody). Qed.

(** *** Modules *)

(** The model [m] with what the second loop of [analyze_module] adds for the
    statements [body]. *)
Lemma extract_loop (body : list stmt) :
  forall m,
    rfold (fun node module_info =>
             match as_FunctionDef node with
             | Some fd => Ok (Creation.add_function (_analyze_function fd) module_info)
             | None =>
             match node with
             | ClassDef cname cbases cbody _ =>
                 rbind (_analyze_class cname cbases cbody) (fun c =>
                 Ok (add_class c module_info))
             | Assign targets value =>
                 Ok (add_constants
                       (select (fun target =>
                                  match target with
                                  | Name id =>
                                      if PyStr.isupper id
                                      then Some {| const_name := id;
                                                   const_value := _get_node_value value |}
                                      else None
                                  | _ => None
                                  end) targets)
                       module_info)
             | _ => Ok module_info
             end
             end)
          body m
    = if existsb class_assigns_name body
      then Raise (AttributeError "Name" "name")
      else Ok {| name := name m; import_path := import_path m; error := error m;
                 functions :=
                   (functions m ++ map _analyze_function (select as_FunctionDef body))%list;
                 classes := (classes m ++ select class_model_of body)%list;
                 imports := imports m;
                 constants := (constants m ++ flat_map constants_of body)%list |}.
Proof.
  induction body as [|node body IH]; intros m.
  - simpl. rewrite !app_nil_r. destruct m; reflexivity.
  - cbn [rfold existsb select flat_map].
    destruct node;
      cbn [as_FunctionDef class_assigns_name class_model_of constants_of orb rbind map app];
      try (rewrite IH; destruct (existsb class_assigns_name body); reflexivity).
    + rewrite IH. destruct (existsb class_assigns_name body); [reflexivity|].
      unfold Creation.add_function. cbn [name import_path error functions classes imports constants].
      rewrite <- app_assoc. reflexivity.
    + rewrite analyze_class_run.
      destruct (existsb assigns_name body0); cbn [rbind orb]; [reflexivity|].
      rewrite IH. destruct (existsb class_assigns_name body); [reflexivity|].
      unfold add_class. cbn [name import_path error functions classes imports constants].
      rewrite <- app_assoc. reflexivity.
    + rewrite IH. destruct (existsb class_assigns_name body); [reflexivity|].
      unfold add_constants. cbn [name import_path error functions classes imports constants].
      rewrite <- app_assoc. reflexivity.
Qed.

Lemma import_path_result (file_path : Path) :
  if String.eqb (path_name file_path) EmptyString
  then exists msg, _get_import_path file_path = Raise (ValueError msg)
  else exists ip, _get_import_path file_path = Ok ip.
Proof.
  unfold _get_import_path, parts_without_suffix.
  destruct (String.eqb (path_name file_path) EmptyString);
    cbn [rbind]; eexists; reflexivity.
Qed.

Lemma extract_run (file_path : Path) (tree : Module_) (ip : string) :
  _get_import_path file_path = Ok ip ->
  extract file_path tree
  = if existsb class_assigns_name (mod_body tree)
    then Raise (AttributeError "Name" "name")
    else Ok (module_model file_path ip tree).
Proof.
  intros Hip. unfold extract. rewrite Hip. cbn [rbind]. cbv zeta.
  rewrite extract_loop. reflexivity.
Qed.

(** X13. For a file that parses, whose path has a name and none of whose
    top-level classes assigns to a bare name in its body, [analyze_module]
    returns the model without error: one function model per top-level
    function definition and one class model per top-level class, in the
    order of the body, the imports of the top-level import statements, and
    the constants of the top-level assignments to names in capitals. *)
Theorem analyze_module_model (f : source_file) (tree : Module_) :
  sf_parse f = Ok tree ->
  path_name (sf_path f) <> EmptyString ->
  existsb class_assigns_name (mod_body tree) = false ->
  exists ip,
    _get_import_path (sf_path f) = Ok ip
    /\ analyze_module f = module_model (sf_path f) ip tree.
Proof.
  intros Hp Hn Hc.
  pose proof (import_path_result (sf_path f)) as H.
  destruct (String.eqb_spec (path_name (sf_path f)) EmptyString) as [E|_];
    [contradiction|].
  destruct H as [ip Hip]. exists ip. split; [exact Hip|].
  unfold analyze_module. rewrite Hp. cbn [rbind].
  rewrite (extract_run _ _ _ Hip), Hc. reflexivity.
Qed.

Lemma analyze_module_model_witness :
  (sf_parse calc_file = Ok {| mod_body := [node_of add_function] |}
   /\ path_name (sf_path calc_file) <> EmptyString
   /\ existsb class_assigns_name [node_of add_function] = false)
  /\ analyze_module calc_file
     = module_model (sf_path calc_file) "calc" {| mod_body := [node_of add_function] |}.
Proof.
  assert (Hn : path_name (sf_path calc_file) <> EmptyString) by discriminate.
  split; [split; [reflexivity|split; [exact Hn|reflexivity]]|].
  destruct (analyze_module_model calc_file {| mod_body := [node_of add_function] |}
              eq_refl Hn eq_refl) as (ip & Hip & E).
  rewrite E. vm_compute in Hip. injection Hip as <-. reflexivity.
Defined.

(** X14. The model [analyze_module] returns carries an error exactly when
    the file cannot be read or parsed, or its path has no name, or a
    top-level class assigns to a bare name in its body. *)
Theorem analyze_module_error_iff (f : source_file) :
  error (analyze_module f) = None
  <-> exists tree,
        sf_parse f = Ok tree
        /\ path_name (sf_path f) <> EmptyString
        /\ existsb class_assigns_name (mod_body tree) = false.
Proof.
  unfold analyze_module. destruct (sf_parse f) as [tree|e] eqn:Hp; cbn [rbind].
  - pose proof (import_path_result (sf_path f)) as H.
    destruct (String.eqb_spec (path_name (sf_path f)) EmptyString) as [E|N].
    + destruct H as [msg H]. unfold extract. rewrite H.
      cbn [rbind degraded error]. split; [discriminate|].
      intros (t & _ & X & _). contradiction.
    + destruct H as [ip Hip]. rewrite (extract_run _ _ _ Hip).
      destruct (existsb class_assigns_name (mod_body tree)) eqn:C.
      * cbn [degraded error]. split; [discriminate|].
        intros (t & [= <-] & _ & X). congruence.
      * cbn [module_model error]. split; [|reflexivity].
        intros _. exists tree. auto.
  - cbn [degraded error]. split; [discriminate|].
    intros (t & X & _). discriminate X.
Qed.

(** *** The import path *)

Lemma join_cons (sep x : string) (l : list string) :
  l <> [] -> PyStr.join sep (x :: l) = x ++ sep ++ PyStr.join sep l.
Proof. destruct l; [contradiction|reflexivity]. Qed.

Lemma removelast_cons {A} (x : A) (l : list A) :
  l <> [] -> removelast (x :: l) = x :: removelast l.
Proof. destruct l; [contradiction|reflexivity]. Qed.

(** X15. The import path of a module given by an absolute path is not a
    module path: only a first part among src, lib and app is dropped, and
    the first part of an absolute path is the root, so the import path is
    the root, a dot, and the remaining parts joined by dots. The template
    generated from the model imports from that path. *)
Theorem absolute_path_import_path (f : source_file) (tree : Module_) (rest : list string) :
  sf_parse f = Ok tree ->
  existsb class_assigns_name (mod_body tree) = false ->
  parts (sf_path f) = "/" :: rest ->
  path_name (sf_path f) <> EmptyString ->
  import_path (analyze_module f)
  = "/." ++ PyStr.join "." (removelast rest ++ [stem (sf_path f)]).
Proof.
  intros Hp Hc Hparts Hn.
  assert (Hip : _get_import_path (sf_path f)
                = Ok ("/." ++ PyStr.join "." (removelast rest ++ [stem (sf_path f)]))).
  { unfold _get_import_path, parts_without_suffix.
    destruct (String.eqb_spec (path_name (sf_path f)) EmptyString) as [E|_];
      [contradiction|].
    cbn [rbind]. rewrite Hparts.
    assert (Hrest : rest <> []).
    { intros ->. apply Hn. unfold path_name. rewrite Hparts. reflexivity. }
    rewrite (removelast_cons _ _ Hrest). cbn [app existsb source_dirs].
    cbn [String.eqb Ascii.eqb Bool.eqb orb].
    rewrite join_cons; [reflexivity|].
    destruct (removelast rest); discriminate. }
  unfold analyze_module. rewrite Hp. cbn [rbind].
  rewrite (extract_run _ _ _ Hip), Hc. reflexivity.
Qed.

Lemma absolute_path_import_path_witness :
  let f := {| sf_path := {| parts := ["/"; "home"; "proj"; "src"; "calc.py"] |};
              sf_parse := Ok {| mod_body := [node_of CreationSpec.add_function] |} |} in
  (sf_parse f = Ok {| mod_body := [node_of CreationSpec.add_function] |}
   /\ existsb class_assigns_name [node_of CreationSpec.add_function] = false
   /\ parts (sf_path f) = "/" :: ["home"; "proj"; "src"; "calc.py"]
   /\ path_name (sf_path f) <> EmptyString)
  /\ import_path (analyze_module f) = "/.home.proj.src.calc".
Proof.
  cbv zeta.
  assert (Hn : path_name {| parts := ["/"; "home"; "proj"; "src"; "calc.py"] |}
               <> EmptyString) by discriminate.
  split; [split; [reflexivity|split; [reflexivity|split; [reflexivity|exact Hn]]]|].
  exact (absolute_path_import_path
           {| sf_path := {| parts := ["/"; "home"; "proj"; "src"; "calc.py"] |};
              sf_parse := Ok {| mod_body := [node_of CreationSpec.add_function] |} |}
           {| mod_body := [node_of CreationSpec.add_function] |}
           ["home"; "proj"; "src"; "calc.py"] eq_refl eq_refl eq_refl Hn).
Defined.

(** *** The generator *)

Lemma returns_when_loop {A B} (p : A -> bool) (body : A -> B -> result B) :
  (forall x acc, returns_when (p x) (body x acc)) ->
  forall l acc, returns_when (forallb p l) (rfold body l acc).
Proof.
  intros Hbody. induction l as [|x l IH]; intros acc.
  - simpl. eexists. reflexivity.
  - cbn [forallb rfold]. specialize (Hbody x acc).
    destruct (p x); cbn [andb returns_when] in *.
    + destruct Hbody as [a ->]. cbn [rbind]. apply IH.
    + rewrite Hbody. reflexivity.
Qed.

Lemma type_lower_result (p : param_info) : returns_when (labelled p) (type_lower p).
Proof.
  unfold labelled, type_lower. destruct (param_type p); simpl; eauto.
Qed.

Lemma basic_test_result func_name params config :
  returns_when (forallb labelled (firstn 3 params))
               (_generate_basic_function_test func_name params config).
Proof.
  unfold _generate_basic_function_test.
  destruct params as [|p0 params0] eqn:E; [simpl; eauto|]. rewrite <- E. clear E.
  pose proof (returns_when_loop labelled assign_parameter) as L.
  specialize (L (fun x '(a, n) =>
    ltac:(unfold assign_parameter;
          pose proof (type_lower_result x) as T;
          destruct (labelled x); cbn [returns_when] in *;
          [destruct T as [t ->]; cbn [rbind]; eauto|rewrite T; reflexivity]))).
  specialize (L (firstn 3 params) ([], [])).
  destruct (forallb labelled (firstn 3 params)); cbn [returns_when] in *.
  - destruct L as [[a n] ->]. cbn [rbind]. eauto.
  - rewrite L. reflexivity.
Qed.

Lemma any_list_result (params : list param_info) :
  returns_when (labelled_up_to_list params) (any_list_param params).
Proof.
  induction params as [|p params IH]; [simpl; eauto|].
  cbn [labelled_up_to_list any_list_param]. unfold type_lower.
  destruct (param_type p) as [label|]; cbn [rbind]; [|reflexivity].
  destruct (PyStr.str_in "list" (PyStr.lower label)); cbn [orb]; [simpl; eauto|].
  exact IH.
Qed.

Lemma labelled_first (p : param_info) (params : list param_info) :
  labelled_up_to_list (p :: params) = true -> labelled p = true.
Proof.
  cbn [labelled_up_to_list]. unfold labelled. destruct (param_type p); auto.
Qed.

Lemma edge_test_result func_name params config :
  returns_when (labelled_up_to_list params)
               (_generate_edge_case_test func_name params config).
Proof.
  unfold _generate_edge_case_test.
  pose proof (any_list_result params) as L.
  destruct (labelled_up_to_list params) eqn:E; cbn [returns_when] in *.
  - destruct L as [has_list L].
    assert (F : exists boundary,
               match params with
               | first :: _ =>
                   rbind (type_lower first) (fun param_type =>
                   if PyStr.str_in "int" param_type || PyStr.str_in "number" param_type
                   then Ok [ text [ "        # Test boundary values";
                                    "        result_zero = " ++ func_name ++ "(0)";
                                    "        result_negative = " ++ func_name ++ "(-1)";
                                    "        result_large = " ++ func_name ++ "(999999)";
                                    "        ";
                                    "        assert result_zero is not None";
                                    "        assert result_negative is not None";
                                    "        assert result_large is not None" ] ]
                   else if PyStr.str_in "str" param_type
                   then Ok [ text [ "        # Test string edge cases";
                                    "        result_empty = " ++ func_name ++ "(" ++ quoted EmptyString ++ ")";
                                    "        result_whitespace = " ++ func_name ++ "(" ++ quoted "   " ++ ")";
                                    "        result_special_chars = " ++ func_name ++ "(" ++ quoted "!@#$%^&*()" ++ ")";
                                    "        ";
                                    "        assert result_empty is not None";
                                    "        assert result_whitespace is not None";
                                    "        assert result_special_chars is not None" ] ]
                   else Ok [])
               | [] => Ok []
               end = Ok boundary).
    { destruct params as [|first params0]; [eauto|].
      apply labelled_first in E. unfold labelled in E. unfold type_lower.
      destruct (param_type first) as [label|]; [|discriminate]. cbn [rbind].
      destruct (_ || _); [eauto|]. destruct (PyStr.str_in "str" _); eauto. }
    destruct F as [boundary ->]. cbn [rbind]. rewrite L. cbn [rbind].
    destruct (boundary ++ _)%list; eauto.
  - destruct params as [|first params0]; [discriminate|].
    unfold type_lower at 1.
    destruct (param_type first) as [label|]; [|reflexivity]. cbn [rbind].
    destruct (_ || _); cbn [rbind]; [rewrite L; reflexivity|].
    destruct (PyStr.str_in "str" _); cbn [rbind]; rewrite L; reflexivity.
Qed.

Lemma function_tests_result info config :
  returns_when (generable config (parameters info))
               (_generate_function_tests info config).
Proof.
  unfold _generate_function_tests, generable. cbv zeta.
  pose proof (basic_test_result (func_name info) (parameters info) config) as B.
  destruct (forallb labelled (firstn 3 (parameters info))); cbn [returns_when andb] in *.
  - destruct B as [body ->]. cbn [rbind].
    destruct (include_edge_cases config); cbn [negb orb rbind]; [|simpl; eauto].
    pose proof (edge_test_result (func_name info) (parameters info) config) as G.
    destruct (labelled_up_to_list (parameters info)); cbn [returns_when] in *.
    + destruct G as [edge ->]. cbn [rbind]. eauto.
    + rewrite G. reflexivity.
  - rewrite B. reflexivity.
Qed.

Lemma template_result info config :
  returns_when
    (forallb (fun f => func_is_private f || generable config (parameters f))
             (functions info))
    (generate_unit_test_template info config).
Proof.
  unfold generate_unit_test_template. cbv zeta.
  match goal with
  | |- returns_when _ (rbind (rfold ?body _ ?init) _) =>
      pose proof (returns_when_loop
                    (fun f => func_is_private f || generable config (parameters f))
                    body) as L;
      specialize (L (fun x acc =>
        ltac:(pose proof (function_tests_result x config) as T; cbv beta;
              destruct (func_is_private x); cbn [negb orb returns_when];
              [eauto|];
              destruct (generable config (parameters x)); cbn [returns_when] in *;
              [destruct T as [t ->]; cbn [rbind]; eauto|rewrite T; reflexivity])));
      specialize (L (functions info) init)
  end.
  destruct (forallb _ (functions info)); cbn [returns_when] in *.
  - destruct L as [t ->]. cbn [rbind]. eauto.
  - rewrite L. reflexivity.
Qed.

(** X16. The template for a model is generated exactly when every public
    function of the model can be handled: its first three parameters carry
    a type label and, when edge cases are included, so does every parameter
    up to the first whose label mentions a list. In every other case the
    generation raises the [AttributeError] of [None.lower()] and returns no
    template; a function without annotation on a parameter is such a
    case. *)
Theorem template_generated_iff info config :
  if forallb (fun f => func_is_private f || generable config (parameters f))
             (functions info)
  then exists template, generate_unit_test_template info config = Ok template
  else generate_unit_test_template info config
       = Raise (AttributeError "NoneType" "lower").
Proof. exact (template_result info config). Qed.

Lemma rfold_skip {A B} (p : A -> bool) (body : A -> B -> result B) :
  (forall x acc, p x = false -> body x acc = Ok acc) ->
  forall l acc, rfold body l acc = rfold body (filter p l) acc.
Proof.
  intros Hskip. induction l as [|x l IH]; intros acc; [reflexivity|].
  cbn [rfold filter]. destruct (p x) eqn:E.
  - cbn [rfold]. destruct (body x acc); cbn [rbind]; [apply IH|reflexivity].
  - rewrite (Hskip x acc E). cbn [rbind]. apply IH.
Qed.

Lemma fold_left_skip {A B} (p : A -> bool) (step : B -> A -> B) :
  (forall x acc, p x = false -> step acc x = acc) ->
  forall l acc, fold_left step l acc = fold_left step (filter p l) acc.
Proof.
  intros Hskip. induction l as [|x l IH]; intros acc; [reflexivity|].
  cbn [fold_left filter]. destruct (p x) eqn:E.
  - cbn [fold_left]. apply IH.
  - rewrite (Hskip x acc E). apply IH.
Qed.

Lemma filter_idem {A} (p : A -> bool) (l : list A) :
  filter p (filter p l) = filter p l.
Proof.
  induction l as [|x l IH]; [reflexivity|]. simpl.
  destruct (p x) eqn:E; simpl; [rewrite E|]; rewrite IH; reflexivity.
Qed.

Lemma fixtures_ignore_model (a b : module_info) config :
  _generate_fixtures a config = _generate_fixtures b config.
Proof. reflexivity. Qed.

(** X17. The private functions and the private classes of a model leave no
    trace in the template: the template for a model is the template for the
    model without them (and the generation raises for the one exactly when
    it raises for the other). *)
Theorem private_parts_are_ignored info config :
  generate_unit_test_template info config
  = generate_unit_test_template (public_part info) config.
Proof.
  unfold generate_unit_test_template. cbv zeta.
  cbn [public_part functions classes name import_path].
  rewrite !filter_idem.
  rewrite (fixtures_ignore_model (public_part info) info).
  match goal with
  | |- rbind (rfold ?body _ ?init) _ = _ =>
      rewrite (rfold_skip (fun f => negb (func_is_private f)) body)
  end.
  - destruct (rfold _ _ _) as [template|e]; cbn [rbind]; [|reflexivity].
    f_equal.
    apply (fold_left_skip (fun c => negb (class_is_private c))).
    intros c acc E. rewrite E. reflexivity.
  - intros f acc E. cbv beta. rewrite E. reflexivity.
Qed.

End CreationExtra.

(** ** The search for the test files *)

Module DiscoveryFacts.
Import PyAst Validator Discovery DiscoverySpec.

(** *** The order of paths and the sort *)

Lemma parts_compare_antisym (a b : list string) :
  parts_compare a b = CompOpp (parts_compare b a).
Proof.
  revert b. induction a as [|x a IH]; intros [|y b]; try reflexivity.
  cbn [parts_compare]. rewrite (String.compare_antisym y x).
  destruct (String.compare x y); cbn [CompOpp]; auto.
Qed.

Lemma path_le_total (p q : Path) : path_le p q = false -> path_le q p = true.
Proof.
  unfold path_le. rewrite (parts_compare_antisym (parts p) (parts q)).
  destruct (parts_compare (parts q) (parts p)); simpl; congruence.
Qed.

Lemma insert_perm (p : Path) (l : list Path) : Permutation (insert p l) (p :: l).
Proof.
  induction l as [|q l IH]; [reflexivity|]. cbn [insert].
  destruct (path_le p q); [reflexivity|].
  rewrite IH. apply perm_swap.
Qed.

Lemma sorted_perm (l : list Path) : Permutation (sorted l) l.
Proof.
  induction l as [|p l IH]; [reflexivity|]. cbn [sorted fold_right].
  rewrite insert_perm. constructor. exact IH.
Qed.

Lemma insert_in_order (p : Path) (l : list Path) :
  in_order l -> in_order (insert p l).
Proof.
  unfold in_order. induction l as [|q l IH]; intros H.
  - repeat constructor.
  - cbn [insert]. destruct (path_le p q) eqn:E.
    + constructor; [exact H|constructor; exact E].
    + inversion H as [|? ? Hl Hhd]; subst. constructor; [apply IH, Hl|].
      destruct l as [|r l]; cbn [insert].
      * constructor. apply path_le_total, E.
      * destruct (path_le p r); constructor.
        -- apply path_le_total, E.
        -- inversion Hhd; subst. assumption.
Qed.

Lemma sorted_in_order (l : list Path) : in_order (sorted l).
Proof.
  induction l as [|p l IH]; [constructor|]. apply insert_in_order, IH.
Qed.

(** *** The test on the parents *)

Lemma prefixes_app (a b : list string) : b <> [] -> In a (prefixes (a ++ b)).
Proof.
  intros Hb. induction a as [|x a IH]; cbn [app].
  - destruct b; [contradiction|]. left. reflexivity.
  - cbn [prefixes]. right. apply in_map, IH.
Qed.

(** A path below the root has the root among its parents. *)
Lemma root_in_parents (root p : Path) :
  under root p -> existsb (path_eqb root) (parents p) = true.
Proof.
  intros (rel & Hrel & Hname & Hp).
  apply existsb_exists. exists root. split.
  - unfold parents. destruct root as [rs]. cbn [parts] in *.
    change {| parts := rs |} with ((fun ps => {| parts := ps |}) rs).
    apply in_map. rewrite <- in_rev.
    pose proof (prefixes_app rs rel Hrel) as Hin. rewrite <- Hp in Hin.
    destruct (parts p) as [|x ps] eqn:E; [exact Hin|].
    assert (Htl : x = "/" -> In rs (tl (prefixes (x :: ps)))).
    { intros ->. cbn [prefixes tl]. cbn [prefixes] in Hin.
      destruct Hin as [Hnil|Hin]; [|exact Hin].
      subst rs. cbn [app] in Hp. exfalso. apply Hname. rewrite <- Hp. left. reflexivity. }
    destruct x as [|c x]; [exact Hin|].
    destruct c as [[] [] [] [] [] [] [] []]; try exact Hin.
    destruct x; [|exact Hin]. apply Htl. reflexivity.
  - unfold path_eqb. destruct (list_eq_dec string_dec (parts root) (parts root));
      [reflexivity|contradiction].
Qed.

Lemma kept_of_under config root (found : list Path) :
  Forall (under root) found ->
  kept_of config root found = filter (fun p => negb (should_exclude config p)) found.
Proof.
  unfold kept_of. induction 1 as [|p found Hp _ IH]; [reflexivity|].
  cbn [filter]. rewrite (root_in_parents root p Hp), andb_true_r, IH. reflexivity.
Qed.

(** *** The search *)

Lemma search_loop config root rglob (patterns : list string) :
  (forall pattern, In pattern patterns ->
     exists found, rglob pattern = Ok found /\ Forall (under root) found) ->
  forall acc,
    rfold (fun pattern test_files =>
             rbind (rglob pattern) (fun found =>
             Ok (test_files ++ kept_of config root found)%list))
          patterns acc
    = Ok (acc ++ flat_map (fun pattern =>
                             filter (fun p => negb (should_exclude config p))
                                    (found_by rglob pattern))
                          patterns)%list.
Proof.
  induction patterns as [|pattern patterns IH]; intros Hall acc.
  - simpl. rewrite app_nil_r. reflexivity.
  - destruct (Hall pattern (or_introl eq_refl)) as (found & E & U).
    cbn [rfold flat_map]. unfold found_by at 1. rewrite E. cbn [rbind].
    rewrite (kept_of_under config root found U).
    rewrite (IH (fun q Hq => Hall q (or_intror Hq))), <- app_assoc. reflexivity.
Qed.

Lemma find_test_files_run config root rglob :
  searchable config root rglob ->
  _find_test_files config root rglob = Ok (sorted (candidates config rglob)).
Proof.
  intros Hall. unfold _find_test_files.
  rewrite (search_loop config root rglob _ Hall). reflexivity.
Qed.

(** X18. When every pattern can be searched, [_find_test_files] returns the
    files the patterns yield that have no excluded name among their parts,
    each as often as the patterns yield it, in the order of their paths.
    The test that the root is among the parents of a file rejects
    nothing. *)
Theorem find_test_files_result config root rglob :
  searchable config root rglob ->
  exists test_files,
    _find_test_files config root rglob = Ok test_files
    /\ in_order test_files
    /\ Permutation test_files (candidates config rglob).
Proof.
  intros Hall. exists (sorted (candidates config rglob)).
  split; [apply find_test_files_run, Hall|].
  split; [apply sorted_in_order|apply sorted_perm].
Qed.

Lemma underb_under (root p : Path) : underb root p = true -> under root p.
Proof.
  unfold underb. cbv zeta. intros H.
  apply andb_prop in H. destruct H as [H Hname].
  apply andb_prop in H. destruct H as [Heq Hlen].
  exists (skipn (length (parts root)) (parts p)). split; [|split].
  - intros E. rewrite E in Hlen. discriminate Hlen.
  - intros Hin. rewrite forallb_forall in Hname. specialize (Hname _ Hin).
    discriminate Hname.
  - destruct (list_eq_dec string_dec _ _) as [E|_]; [exact E|discriminate].
Qed.

Lemma sample_searchable : searchable TestQualityConfig_new sample_root sample_rglob.
Proof.
  intros pattern _. unfold sample_rglob.
  destruct (String.eqb pattern "test_*.py"); eexists; (split; [reflexivity|]);
    repeat (apply Forall_cons; [apply underb_under; reflexivity|]);
    apply Forall_nil.
Qed.

Lemma find_test_files_result_witness :
  searchable TestQualityConfig_new sample_root sample_rglob
  /\ _find_test_files TestQualityConfig_new sample_root sample_rglob
     = Ok [ {| parts := ["proj"; "tests"; "test_a_test.py"] |};
            {| parts := ["proj"; "tests"; "test_a_test.py"] |};
            {| parts := ["proj"; "tests"; "test_b.py"] |} ].
Proof.
  split; [exact sample_searchable|].
  destruct (find_test_files_result TestQualityConfig_new sample_root sample_rglob
              sample_searchable) as (test_files & E & _).
  rewrite E. vm_compute in E. symmetry. exact E.
Defined.

(** *** A project below a directory with an excluded name *)

Lemma excluded_below config (root p : Path) :
  should_exclude config root = true -> under root p ->
  should_exclude config p = true.
Proof.
  unfold should_exclude. intros H (rel & _ & _ & Hp).
  apply existsb_exists in H. destruct H as (d & Hd & Hin).
  apply existsb_exists in Hin. destruct Hin as (x & Hx & E).
  apply existsb_exists. exists d. split; [exact Hd|].
  apply existsb_exists. exists x. split; [|exact E].
  rewrite Hp. apply in_or_app. left. exact Hx.
Qed.

Lemma candidates_excluded config root rglob :
  searchable config root rglob ->
  should_exclude config root = true ->
  candidates config rglob = [].
Proof.
  intros Hall Hroot. unfold candidates. unfold searchable in Hall.
  revert Hall. generalize (test_file_patterns config) as patterns.
  induction patterns as [|pattern patterns IH]; intros Hall; [reflexivity|].
  cbn [flat_map]. rewrite IH by (intros q Hq; apply Hall; right; exact Hq).
  rewrite app_nil_r.
  destruct (Hall pattern (or_introl eq_refl)) as (found & E & U).
  unfold found_by. rewrite E. clear E.
  induction U as [|p found Hp _ IHf]; [reflexivity|].
  cbn [filter]. rewrite (excluded_below config root p Hroot Hp). exact IHf.
Qed.

(** X19. The excluded names are looked for among all the parts of a path,
    those of the project root included: when a part of the root is an
    excluded name, [_find_test_files] returns no file, whatever the project
    holds, and [analyze_project] returns the dictionary of the error
    [No test files found]. *)
Theorem project_below_excluded_directory config root rglob open_parse :
  searchable config root rglob ->
  should_exclude config root = true ->
  _find_test_files config root rglob = Ok []
  /\ analyze_project_at config root rglob open_parse
     = Ok (ErrorDict "No test files found").
Proof.
  intros Hall Hroot.
  assert (E : _find_test_files config root rglob = Ok []).
  { rewrite (find_test_files_run config root rglob Hall).
    rewrite (candidates_excluded config root rglob Hall Hroot). reflexivity. }
  split; [exact E|]. unfold analyze_project_at. rewrite E. reflexivity.
Qed.

Lemma sample_env_searchable :
  searchable TestQualityConfig_new sample_env_root sample_env_rglob.
Proof.
  intros pattern _. unfold sample_env_rglob.
  destruct (String.eqb pattern "test_*.py"); eexists; (split; [reflexivity|]);
    repeat (apply Forall_cons; [apply underb_under; reflexivity|]);
    apply Forall_nil.
Qed.

Lemma project_below_excluded_directory_witness :
  (searchable TestQualityConfig_new sample_env_root sample_env_rglob
   /\ should_exclude TestQualityConfig_new sample_env_root = true)
  /\ _find_test_files TestQualityConfig_new sample_env_root sample_env_rglob = Ok []
  /\ analyze_project_at TestQualityConfig_new sample_env_root sample_env_rglob
       (fun _ => Ok {| mod_body := [] |})
     = Ok (ErrorDict "No test files found").
Proof.
  split; [split; [exact sample_env_searchable|reflexivity]|].
  apply (project_below_excluded_directory TestQualityConfig_new sample_env_root
           sample_env_rglob (fun _ => Ok {| mod_body := [] |})
           sample_env_searchable eq_refl).
Defined.

(** *** A file that two patterns yield *)

Lemma count_occ_flat_map_ge {A} (f : A -> list Path) (l : list A) (a : A) (p : Path) :
  In a l ->
  (count_occ path_eq_dec (f a) p <= count_occ path_eq_dec (flat_map f l) p)%nat.
Proof.
  induction l as [|x l IH]; [intros []|].
  intros [->|Hin]; cbn [flat_map]; rewrite count_occ_app; [lia|].
  specialize (IH Hin). lia.
Qed.

(** X20. Nothing removes a file that two patterns yield: it is in the list
    of [_find_test_files] twice (so [analyze_project] analyses and counts
    it twice). With the default patterns, a file named like
    [test_a_test.py] is such a file. *)
Theorem file_of_two_patterns_is_found_twice
    config root rglob (before between after : list string)
    (pattern1 pattern2 : string) (p : Path) :
  searchable config root rglob ->
  test_file_patterns config = (before ++ pattern1 :: between ++ pattern2 :: after)%list ->
  In p (found_by rglob pattern1) ->
  In p (found_by rglob pattern2) ->
  should_exclude config p = false ->
  exists test_files,
    _find_test_files config root rglob = Ok test_files
    /\ (2 <= count_occ path_eq_dec test_files p)%nat.
Proof.
  intros Hall Hpat H1 H2 Hex.
  exists (sorted (candidates config rglob)).
  split; [apply find_test_files_run, Hall|].
  rewrite (proj1 (Permutation_count_occ path_eq_dec _ _) (sorted_perm _) p).
  unfold candidates. rewrite Hpat, flat_map_app. cbn [flat_map].
  rewrite !count_occ_app, flat_map_app. cbn [flat_map]. rewrite !count_occ_app.
  assert (C : forall pattern,
             In p (found_by rglob pattern) ->
             (1 <= count_occ path_eq_dec
                     (filter (fun q => negb (should_exclude config q))
                             (found_by rglob pattern)) p)%nat).
  { intros pattern Hin.
    assert (X : In p (filter (fun q => negb (should_exclude config q))
                             (found_by rglob pattern)))
      by (apply filter_In; split; [exact Hin|rewrite Hex; reflexivity]).
    apply (count_occ_In path_eq_dec) in X. lia. }
  pose proof (C pattern1 H1). pose proof (C pattern2 H2). lia.
Qed.

Lemma file_of_two_patterns_is_found_twice_witness :
  let p := {| parts := ["proj"; "tests"; "test_a_test.py"] |} in
  (searchable TestQualityConfig_new sample_root sample_rglob
   /\ test_file_patterns TestQualityConfig_new
      = ([] ++ "test_*.py" :: [] ++ "*_test.py" :: [])%list
   /\ In p (found_by sample_rglob "test_*.py")
   /\ In p (found_by sample_rglob "*_test.py")
   /\ should_exclude TestQualityConfig_new p = false)
  /\ exists test_files,
       _find_test_files TestQualityConfig_new sample_root sample_rglob = Ok test_files
       /\ (2 <= count_occ path_eq_dec test_files p)%nat.
Proof.
  cbv zeta.
  assert (H1 : In {| parts := ["proj"; "tests"; "test_a_test.py"] |}
                  (found_by sample_rglob "test_*.py"))
    by (right; left; reflexivity).
  assert (H2 : In {| parts := ["proj"; "tests"; "test_a_test.py"] |}
                  (found_by sample_rglob "*_test.py"))
    by (left; reflexivity).
  split.
  - split; [exact sample_searchable|]. split; [reflexivity|].
    split; [exact H1|]. split; [exact H2|reflexivity].
  - exact (file_of_two_patterns_is_found_twice TestQualityConfig_new sample_root
             sample_rglob [] [] [] "test_*.py" "*_test.py"
             {| parts := ["proj"; "tests"; "test_a_test.py"] |}
             sample_searchable eq_refl H1 H2 eq_refl).
Defined.

End DiscoveryFacts.

(** ** The framework *)

Module FrameworkFacts.
Import PyAst Validator ValidatorSpec ValidatorFacts ValidatorExtraSpec ValidatorExtra.
Import Creation CreationExtraSpec CreationExtra.
Import Discovery Framework FrameworkSpec.

(** *** The validation of a generated test *)

Lemma no_metrics_of (test_path : Path) (ms : list QualityMetrics) :
  Forall (fun m => all_zero m /\ tracked_file_path m = None) ms ->
  filter (is_metrics_of test_path) ms = [].
Proof.
  induction 1 as [|m ms [_ Hm] _ IH]; [reflexivity|].
  cbn [filter]. unfold is_metrics_of at 1. rewrite Hm. exact IH.
Qed.

Lemma validate_run (w : world) (project_root test_path : Path) :
  _validate_generated_test w project_root test_path
  = match _find_test_files TestQualityConfig_new project_root (rglob w) with
    | Raise e => ValidationError ("Validation failed: " ++ str_exn e)
    | Ok test_files =>
        if forallb (parses w) test_files
        then Validation 0 0 "F"
        else ValidationError
               ("Validation failed: " ++ str_exn (UnboundLocalError "issues"))
    end.
Proof.
  unfold _validate_generated_test, analyze_project_at.
  destruct (_find_test_files _ _ _) as [test_files|e]; cbn [rbind]; [|reflexivity].
  destruct (forallb (parses w) test_files) eqn:E.
  - destruct test_files as [|p0 rest] eqn:Hf; [reflexivity|]. rewrite <- Hf in *.
    match goal with
    | |- context [analyze_project ?c ?r ?fs] =>
        destruct (project_report_run c r fs) as (rep & R & _ & _ & F & _)
    end.
    + rewrite Hf. discriminate.
    + intros f Hin. apply in_map_iff in Hin. destruct Hin as (p & <- & Hp).
      rewrite forallb_forall in E. specialize (E p Hp). unfold parses in E.
      cbn [sf_parse]. destruct (open_parse w p); [eauto|discriminate].
    + rewrite R. cbn [get_file_metrics]. rewrite (no_metrics_of _ _ F). reflexivity.
  - destruct (forallb_false_split _ _ E) as (before & bad & after & -> & Hb).
    rewrite map_app. cbn [map].
    unfold analyze_project.
    destruct (map _ before ++ _ :: map _ after)%list eqn:Hl;
      [destruct before; discriminate|].
    rewrite <- Hl. unfold analyze_each.
    rewrite analyze_each_unparsable; [reflexivity|].
    cbn [sf_parse]. unfold parses in Hb. destruct (open_parse w bad); [discriminate|eauto].
Qed.

(** X21. The validation of a generated test never measures it: the entries
    of [file_metrics] come from [asdict] and carry no file path, so none is
    the entry of the generated file. The result is the score 0 with no
    issue and the grade F when the search succeeds and every test file
    found in the project parses, and an error when the search raises or
    one of the files does not parse. *)
Theorem generated_test_is_never_scored (w : world) (project_root test_path : Path) :
  _validate_generated_test w project_root test_path
  = match _find_test_files TestQualityConfig_new project_root (rglob w) with
    | Raise e => ValidationError ("Validation failed: " ++ str_exn e)
    | Ok test_files =>
        if forallb (parses w) test_files
        then Validation 0 0 "F"
        else ValidationError
               ("Validation failed: " ++ str_exn (UnboundLocalError "issues"))
    end.
Proof. exact (validate_run w project_root test_path). Qed.

Lemma validate_unscored (w : world) (project_root test_path : Path) :
  unscored (_validate_generated_test w project_root test_path).
Proof.
  rewrite validate_run. unfold unscored.
  destruct (_find_test_files _ _ _) as [test_files|e]; [|eauto].
  destruct (forallb _ _); eauto.
Qed.

(** *** The creation of unit tests *)

(** X22. Whatever [create_unit_tests] is called with: when it returns the
    dictionary of a created test, the model in it has no error, the call
    made the output directory and wrote one file, whose content is the
    template of the model and whose path is the one returned, and the
    validation in the dictionary is no measurement; when it returns an
    error it did nothing to the file system; and when it raises it wrote no
    text to any file. *)
Theorem create_unit_tests_outcomes (w after : world) (project_root : Path)
    (config : TestCreationConfig) (module_path : string) :
  match create_unit_tests w after project_root config module_path with
  | (Ok (UnitTests returned_path output info v), effects) =>
      returned_path = module_path
      /\ error info = None
      /\ unscored v
      /\ exists output_dir output_path content,
           generate_unit_test_template info config = Ok content
           /\ output = str_path output_path
           /\ effects = [Mkdir output_dir; OpenFile output_path; WriteFile output_path content]
  | (Ok (UnitError _), effects) => effects = []
  | (Raise _, effects) => wrote_nothing effects
  end.
Proof.
  unfold create_unit_tests. cbv zeta.
  assert (N : wrote_nothing []) by (intros p c []).
  destruct (file_exists w _); cbn [negb]; [|reflexivity].
  destruct (error (analyze_module _)) as [e|] eqn:E; [reflexivity|].
  destruct (generate_unit_test_template _ config) as [content|e] eqn:G; [|exact N].
  destruct (mkdir w _) as [u|e]; [|exact N].
  destruct (open_for_writing w _) as [u0|e].
  - destruct (write w _ content) as [u'|e].
    + split; [reflexivity|]. split; [exact E|]. split; [apply validate_unscored|].
      eexists _, _, content. split; [exact G|]. split; reflexivity.
    + intros p c [H|[H|[]]]; discriminate H.
  - intros p c [H|[]]. discriminate H.
Qed.

Lemma select_In {A B} (f : A -> option B) (l : list A) (x : A) (y : B) :
  In x l -> f x = Some y -> In y (select f l).
Proof.
  intros Hin Hf. induction l as [|a l IH]; [destruct Hin|].
  cbn [select]. destruct Hin as [->|Hin].
  - rewrite Hf. left. reflexivity.
  - destruct (f a); [right|]; apply IH, Hin.
Qed.

Lemma as_FunctionDef_node_of (fd : FunctionDefNode) :
  as_FunctionDef (node_of fd) = Some fd.
Proof. destruct fd; reflexivity. Qed.

Lemma forallb_false_In {A} (p : A -> bool) (l : list A) (x : A) :
  In x l -> p x = false -> forallb p l = false.
Proof.
  intros Hin Hx. destruct (forallb p l) eqn:E; [|reflexivity].
  rewrite forallb_forall in E. rewrite (E x Hin) in Hx. discriminate.
Qed.

Lemma unannotated_not_generable config (fd : FunctionDefNode) (a : arg) :
  In a (firstn 3 (fd_args fd)) -> annotation a = None ->
  generable config (parameters (_analyze_function fd)) = false.
Proof.
  intros Hin Ha. unfold generable. apply andb_false_iff. left.
  cbn [_analyze_function parameters]. rewrite firstn_map.
  apply (forallb_false_In _ _ _ (in_map _ _ _ Hin)).
  unfold labelled. cbn [param_type]. rewrite Ha. reflexivity.
Qed.

(** X23. A module that exists and parses, whose path has a name, none of
    whose top-level classes assigns to a bare name in its body (with such a
    class the analysis fails first and the error dictionary is returned
    instead), and that has a public top-level function one of whose first
    three parameters has no annotation, cannot be given unit tests:
    [create_unit_tests] raises the [AttributeError] of [None.lower()], which
    nothing catches, and makes no directory and writes no file. *)
Theorem unannotated_function_stops_creation (w after : world) (project_root : Path)
    (config : TestCreationConfig) (module_path : string)
    (tree : Module_) (fd : FunctionDefNode) (a : arg) :
  file_exists w (joinpath w project_root module_path) = true ->
  open_parse w (joinpath w project_root module_path) = Ok tree ->
  path_name (joinpath w project_root module_path) <> EmptyString ->
  existsb class_assigns_name (mod_body tree) = false ->
  In (node_of fd) (mod_body tree) ->
  PyStr.startswith (fd_name fd) "_" = false ->
  In a (firstn 3 (fd_args fd)) ->
  annotation a = None ->
  create_unit_tests w after project_root config module_path
  = (Raise (AttributeError "NoneType" "lower"), []).
Proof.
  intros Hex Hp Hn Hc Hfd Hpub Ha Hnone.
  unfold create_unit_tests. cbv zeta. rewrite Hex. cbn [negb].
  pose proof (import_path_result (joinpath w project_root module_path)) as H.
  destruct (String.eqb_spec (path_name (joinpath w project_root module_path))
                            EmptyString) as [E|_]; [contradiction|].
  destruct H as [ip Hip].
  assert (M : analyze_module {| sf_path := joinpath w project_root module_path;
                                sf_parse := open_parse w (joinpath w project_root module_path) |}
              = module_model (joinpath w project_root module_path) ip tree).
  { unfold analyze_module. cbn [sf_parse sf_path]. rewrite Hp. cbn [rbind].
    rewrite (extract_run _ _ _ Hip), Hc. reflexivity. }
  rewrite M. cbn [module_model error].
  pose proof (template_result
                (module_model (joinpath w project_root module_path) ip tree) config) as T.
  rewrite (forallb_false_In _ _ (_analyze_function fd)) in T.
  - cbn [returns_when] in T. rewrite T. reflexivity.
  - cbn [module_model functions]. apply in_map.
    apply (select_In _ _ _ _ Hfd (as_FunctionDef_node_of fd)).
  - cbn [_analyze_function func_is_private]. rewrite Hpub. cbn [orb].
    apply (unannotated_not_generable config fd a Ha Hnone).
Qed.

Lemma unannotated_function_stops_creation_witness :
  let w := unannotated_world in
  let tree := {| mod_body := [node_of CreationSpec.unannotated_function] |} in
  let a := {| arg_name := "x"; annotation := None |} in
  (file_exists w (joinpath w DiscoverySpec.sample_root "src/f.py") = true
   /\ open_parse w (joinpath w DiscoverySpec.sample_root "src/f.py") = Ok tree
   /\ path_name (joinpath w DiscoverySpec.sample_root "src/f.py") <> EmptyString
   /\ existsb class_assigns_name (mod_body tree) = false
   /\ In (node_of CreationSpec.unannotated_function) (mod_body tree)
   /\ PyStr.startswith (fd_name CreationSpec.unannotated_function) "_" = false
   /\ In a (firstn 3 (fd_args CreationSpec.unannotated_function))
   /\ annotation a = None)
  /\ create_unit_tests w sample_world DiscoverySpec.sample_root TestCreationConfig_new "src/f.py"
     = (Raise (AttributeError "NoneType" "lower"), []).
Proof.
  cbv zeta.
  assert (Hn : path_name (joinpath unannotated_world DiscoverySpec.sample_root "src/f.py")
               <> EmptyString) by discriminate.
  assert (Hfd : In (node_of CreationSpec.unannotated_function)
                   [node_of CreationSpec.unannotated_function])
    by (left; reflexivity).
  assert (Ha : In {| arg_name := "x"; annotation := None |}
                  (firstn 3 (fd_args CreationSpec.unannotated_function)))
    by (left; reflexivity).
  split.
  - repeat (split; [first [reflexivity|assumption]|]). reflexivity.
  - exact (unannotated_function_stops_creation unannotated_world sample_world
             DiscoverySpec.sample_root TestCreationConfig_new "src/f.py"
             {| mod_body := [node_of CreationSpec.unannotated_function] |}
             CreationSpec.unannotated_function
             {| arg_name := "x"; annotation := None |}
             eq_refl eq_refl Hn eq_refl Hfd eq_refl Ha eq_refl).
Defined.

(** X24. A module with a top-level class whose body assigns to a bare name
    gets no unit tests: [create_unit_tests] returns the error of the
    analysis, the message of the [AttributeError] on [target.name], and
    touches no file. *)
Theorem class_attribute_stops_creation (w after : world) (project_root : Path)
    (config : TestCreationConfig) (module_path : string) (tree : Module_) :
  file_exists w (joinpath w project_root module_path) = true ->
  open_parse w (joinpath w project_root module_path) = Ok tree ->
  path_name (joinpath w project_root module_path) <> EmptyString ->
  existsb class_assigns_name (mod_body tree) = true ->
  create_unit_tests w after project_root config module_path
  = (Ok (UnitError "Failed to analyze module: 'Name' object has no attribute 'name'"),
     []).
Proof.
  intros Hex Hp Hn Hc.
  unfold create_unit_tests. cbv zeta. rewrite Hex. cbn [negb].
  pose proof (import_path_result (joinpath w project_root module_path)) as H.
  destruct (String.eqb_spec (path_name (joinpath w project_root module_path))
                            EmptyString) as [E|_]; [contradiction|].
  destruct H as [ip Hip].
  unfold analyze_module. cbn [sf_parse sf_path]. rewrite Hp. cbn [rbind].
  rewrite (extract_run _ _ _ Hip), Hc. reflexivity.
Qed.

Lemma class_attribute_stops_creation_witness :
  let w := class_attribute_world in
  let tree := {| mod_body := [ ClassDef "Cart" []
                                 [ Assign [Name "x"] (Constant (CInt 1)) ] [] ] |} in
  (file_exists w (joinpath w DiscoverySpec.sample_root "src/shop/cart.py") = true
   /\ open_parse w (joinpath w DiscoverySpec.sample_root "src/shop/cart.py") = Ok tree
   /\ path_name (joinpath w DiscoverySpec.sample_root "src/shop/cart.py") <> EmptyString
   /\ existsb class_assigns_name (mod_body tree) = true)
  /\ create_unit_tests w sample_world DiscoverySpec.sample_root TestCreationConfig_new
       "src/shop/cart.py"
     = (Ok (UnitError "Failed to analyze module: 'Name' object has no attribute 'name'"),
        []).
Proof.
  cbv zeta.
  assert (Hn : path_name (joinpath class_attribute_world DiscoverySpec.sample_root "src/shop/cart.py")
               <> EmptyString) by discriminate.
  split.
  - split; [reflexivity|]. split; [reflexivity|]. split; [exact Hn|reflexivity].
  - exact (class_attribute_stops_creation class_attribute_world sample_world
             DiscoverySpec.sample_root TestCreationConfig_new "src/shop/cart.py"
             {| mod_body := [ ClassDef "Cart" []
                                [ Assign [Name "x"] (Constant (CInt 1)) ] [] ] |}
             eq_refl eq_refl Hn eq_refl).
Defined.

(** *** The survey of a project *)

Lemma prefix_append (sub s t : string) :
  String.prefix sub s = true -> String.prefix sub (s ++ t) = true.
Proof.
  revert s. induction sub as [|c sub IH]; intros s H.
  { destruct s; cbn [String.append]; [destruct t|]; reflexivity. }
  destruct s as [|d s]; [discriminate H|].
  cbn [String.prefix String.append] in *.
  destruct (ascii_dec c d); [apply IH, H|discriminate H].
Qed.

Lemma str_in_append (sub s t : string) :
  PyStr.str_in sub s = true -> PyStr.str_in sub (s ++ t) = true.
Proof.
  induction s as [|c s IH]; intros H.
  - cbn [PyStr.str_in] in H.
    destruct (String.prefix sub EmptyString) eqn:E; [|discriminate H].
    destruct sub; [|discriminate E]. cbn [String.append]. destruct t; reflexivity.
  - cbn [PyStr.str_in String.append] in *.
    destruct (String.prefix sub (String c s)) eqn:E.
    + change (String c (s ++ t)) with (String c s ++ t).
      rewrite (prefix_append _ _ t E). reflexivity.
    + destruct (String.prefix sub (String c (s ++ t))); [reflexivity|].
      apply IH, H.
Qed.

Lemma append_assoc (a b c : string) : (a ++ b) ++ c = a ++ (b ++ c).
Proof. induction a as [|x a IH]; [reflexivity|]. simpl. rewrite IH. reflexivity. Qed.

Lemma join_app_prefix (sep : string) (a b : list string) :
  exists t, PyStr.join sep (a ++ b) = PyStr.join sep a ++ t.
Proof.
  unfold PyStr.join. induction a as [|x a IH].
  - exists (String.concat sep b). reflexivity.
  - destruct IH as [t IH]. cbn [app String.concat].
    destruct a as [|y a].
    + cbn [app]. destruct b as [|z b].
      * exists EmptyString. clear. induction x; [reflexivity|]. simpl. congruence.
      * exists (sep ++ String.concat sep (z :: b)). reflexivity.
    + cbn [app] in *. rewrite IH. exists t.
      rewrite !append_assoc. reflexivity.
Qed.

Lemma str_path_cases (p : Path) :
  str_path p
  = match parts p with
    | first :: rest =>
        if String.eqb first "/" then "/" ++ PyStr.join "/" rest
        else PyStr.join "/" (parts p)
    | [] => "."
    end.
Proof.
  unfold str_path. destruct (parts p) as [|first rest]; [reflexivity|].
  destruct first as [|c first]; [reflexivity|].
  destruct c as [[] [] [] [] [] [] [] []]; try reflexivity.
  destruct first; reflexivity.
Qed.

(** The text of a path below a root other than the current directory
    starts with the text of the root. *)
Lemma str_path_below (root : Path) (names : list string) :
  parts root <> [] ->
  exists t, str_path {| parts := (parts root ++ names)%list |} = str_path root ++ t.
Proof.
  intros Hne. rewrite !str_path_cases. cbn [parts].
  destruct (parts root) as [|first rest]; [contradiction|].
  cbn [app]. destruct (String.eqb first "/").
  - destruct (join_app_prefix "/" rest names) as [t ->].
    exists t. rewrite append_assoc. reflexivity.
  - apply (join_app_prefix "/" (first :: rest) names).
Qed.

Lemma excluded_root_no_source (root : Path) (f : python_file) :
  existsb (fun pattern => PyStr.str_in pattern (str_path root)) exclude_patterns = true ->
  is_source root f = false.
Proof.
  intros H.
  assert (Hne : parts root <> []).
  { intros E. unfold str_path in H. rewrite E in H. discriminate H. }
  unfold is_source. apply negb_false_iff.
  apply existsb_exists in H. destruct H as (pattern & Hin & Hp).
  apply existsb_exists. exists pattern. split; [exact Hin|].
  unfold path_of. destruct (str_path_below root (rel f) Hne) as [t ->].
  apply str_in_append, Hp.
Qed.

(** X25. The excluded words are looked for in the whole text of a path:
    when the text of the project root holds one of them (a project in a
    directory named like [test_suite] or [venv-tools], say), the survey
    counts no module at all, whatever the project holds, and its only
    recommendation is to generate unit tests for 0 functions and 0
    classes. *)
Theorem survey_of_project_below_excluded_word (root : Path)
    (python_files : list python_file) :
  existsb (fun pattern => PyStr.str_in pattern (str_path root)) exclude_patterns = true ->
  analyze_project_for_testing root python_files
  = {| total_modules := 0;
       modules := [];
       testing_recommendations := [generate_advice 0 0] |}.
Proof.
  intros H. unfold analyze_project_for_testing. cbv zeta.
  assert (E : filter (is_source root) python_files = []).
  { induction python_files as [|f l IH]; [reflexivity|].
    cbn [filter]. rewrite (excluded_root_no_source root f H). exact IH. }
  rewrite E. reflexivity.
Qed.

Lemma survey_of_project_below_excluded_word_witness :
  let root := {| parts := ["/"; "home"; "test_suite"; "proj"] |} in
  let files := [ {| rel := ["src"; "calc.py"];
                    py_parse := sf_parse CreationSpec.calc_file |} ] in
  existsb (fun pattern => PyStr.str_in pattern (str_path root)) exclude_patterns = true
  /\ total_modules (analyze_project_for_testing root files) = 0.
Proof.
  cbv zeta. split; [reflexivity|].
  rewrite (survey_of_project_below_excluded_word
             {| parts := ["/"; "home"; "test_suite"; "proj"] |}
             [ {| rel := ["src"; "calc.py"];
                  py_parse := sf_parse CreationSpec.calc_file |} ] eq_refl).
  reflexivity.
Defined.

Lemma firstn_app_full {A} (n : nat) (l more : list A) :
  (n <= length l)%nat -> firstn n (l ++ more) = firstn n l.
Proof.
  intros H. rewrite firstn_app.
  replace (n - length l)%nat with 0%nat by lia.
  cbn [firstn]. apply app_nil_r.
Qed.

(** X26. The survey looks at the first ten source files only: once the
    search has yielded ten source files, the files it yields after them
    change neither the list of modules nor the recommendations, and only
    add to [total_modules]. *)
Theorem survey_ignores_files_after_the_tenth (root : Path)
    (python_files more : list python_file) :
  (10 <= length (filter (is_source root) python_files))%nat ->
  modules (analyze_project_for_testing root (python_files ++ more))
  = modules (analyze_project_for_testing root python_files)
  /\ testing_recommendations (analyze_project_for_testing root (python_files ++ more))
     = testing_recommendations (analyze_project_for_testing root python_files)
  /\ total_modules (analyze_project_for_testing root (python_files ++ more))
     = total_modules (analyze_project_for_testing root python_files)
       + Z.of_nat (length (filter (is_source root) more)).
Proof.
  intros H. unfold analyze_project_for_testing. cbv zeta.
  cbn [modules testing_recommendations total_modules].
  rewrite filter_app, (firstn_app_full 10 _ _ H), length_app.
  split; [reflexivity|]. split; [reflexivity|lia].
Qed.

Lemma survey_ignores_files_after_the_tenth_witness :
  let f := {| rel := ["src"; "calc.py"]; py_parse := sf_parse CreationSpec.calc_file |} in
  let g := {| rel := ["src"; "cart.py"];
              py_parse := sf_parse CreationSpec.class_with_attribute |} in
  (10 <= length (filter (is_source DiscoverySpec.sample_root) (repeat f 10)))%nat
  /\ modules (analyze_project_for_testing DiscoverySpec.sample_root (repeat f 10 ++ [g]))
     = modules (analyze_project_for_testing DiscoverySpec.sample_root (repeat f 10)).
Proof.
  cbv zeta.
  assert (H : (10 <= length (filter (is_source DiscoverySpec.sample_root)
                               (repeat {| rel := ["src"; "calc.py"];
                                          py_parse := sf_parse CreationSpec.calc_file |}
                                       10)))%nat)
    by (vm_compute; lia).
  split; [exact H|].
  apply (survey_ignores_files_after_the_tenth DiscoverySpec.sample_root _ _ H).
Defined.

End FrameworkFacts.

(** ** The validation command *)

Module CliFacts.
Import PyAst Validator ValidatorExtraSpec ValidatorExtra Discovery Cli.

(** X27. With a positive threshold, [validate_quality] never prints that the
    validation passed: the overall score of every report is 0. And when no
    test file is found it does not return at all: the report is then the
    dictionary of an error, and the lookup of [project_metrics] in it
    raises [KeyError]. *)
Theorem validation_never_passes (quality_config : TestQualityConfig)
    (project_root : Path) (rglob : string -> result (list Path))
    (open_parse : Path -> result Module_) (threshold : Q) :
  (0 < threshold)%Q ->
  (forall r,
     validate_quality quality_config project_root rglob open_parse threshold
     <> Returns PASSED r)
  /\ (_find_test_files (set_min_coverage_threshold threshold quality_config)
        project_root rglob = Ok [] ->
      validate_quality quality_config project_root rglob open_parse threshold
      = RaisesKeyError "project_metrics").
Proof.
  intros Hpos. unfold validate_quality, analyze_project_at. cbv zeta. split.
  - intros r.
    destruct (_find_test_files _ project_root rglob) as [test_files|e];
      cbn [rbind]; [|discriminate].
    destruct (analyze_project _ project_root _) as [[msg|r']|e] eqn:E;
      try discriminate.
    destruct (returned_report_zero _ _ _ _ E) as (_ & _ & _ & Z0 & _).
    assert (L : Qle_bool threshold (overall_quality_score (project_metrics r')) = false).
    { destruct (Qle_bool _ _) eqn:Q; [|reflexivity].
      apply Qle_bool_iff in Q.
      assert (X : (overall_quality_score (project_metrics r') == 0)%Q) by apply Z0.
      rewrite X in Q. exfalso. apply (Qlt_not_le _ _ Hpos Q). }
    rewrite L. discriminate.
  - intros ->. reflexivity.
Qed.

Lemma validation_never_passes_witness :
  (0 < 80)%Q
  /\ forall r,
       validate_quality TestQualityConfig_new DiscoverySpec.sample_root
         DiscoverySpec.sample_rglob (fun _ => Ok {| mod_body := [] |}) 80
       <> Returns PASSED r.
Proof.
  assert (H : (0 < 80)%Q) by reflexivity.
  split; [exact H|].
  apply (proj1 (validation_never_passes TestQualityConfig_new DiscoverySpec.sample_root
                  DiscoverySpec.sample_rglob (fun _ => Ok {| mod_body := [] |}) 80 H)).
Defined.

End CliFacts.

(** ** The shared logger *)

Module LoggerFacts.
Import Logger LoggerSpec.

Lemma get_set_same {V} (k : string) (v : V) (d : dict V) :
  get (set k v d) k = Some v.
Proof.
  induction d as [|[k' v'] d IH]; cbn [set get].
  - rewrite String.eqb_refl. reflexivity.
  - destruct (String.eqb k' k) eqn:E; cbn [get]; rewrite E; [reflexivity|exact IH].
Qed.

Lemma get_set_other {V} (k k' : string) (v : V) (d : dict V) :
  k' <> k -> get (set k v d) k' = get d k'.
Proof.
  intros Hne. induction d as [|[k0 v0] d IH]; cbn [set get].
  - destruct (String.eqb_spec k k'); [congruence|reflexivity].
  - destruct (String.eqb_spec k0 k) as [->|N]; cbn [get].
    + destruct (String.eqb_spec k k'); [congruence|reflexivity].
    + destruct (String.eqb k0 k'); [reflexivity|exact IH].
Qed.

Lemma get_absent {V} (d : dict V) (k : string) :
  ~ In k (map fst d) -> get d k = None.
Proof.
  induction d as [|[k' v'] d IH]; [reflexivity|]. cbn [map fst In get].
  intros H. destruct (String.eqb_spec k' k) as [->|_]; [tauto|].
  apply IH. tauto.
Qed.

(** [{**d, **e}] holds the items of [e], and the items of [d] at the other
    keys. *)
Lemma get_update {V} (e : dict V) :
  well_formed e ->
  forall d k,
    get (update d e) k = match get e k with
                         | Some v => Some v
                         | None => get d k
                         end.
Proof.
  unfold well_formed, update.
  induction e as [|[k0 v0] e IH]; intros Hnd d k; [reflexivity|].
  cbn [map fst] in Hnd. inversion Hnd as [|? ? Hnotin Hnd']; subst.
  cbn [fold_left get]. rewrite (IH Hnd').
  destruct (String.eqb_spec k0 k) as [->|N].
  - rewrite (get_absent e k Hnotin). apply get_set_same.
  - rewrite (get_set_other k0 k v0 d) by congruence. reflexivity.
Qed.

(** *** Levels *)

Lemma LogLevel_of_value (m : LogLevel) : LogLevel_of (AStr (value m)) = Ok m.
Proof. destruct m; reflexivity. Qed.

Lemma LogLevel_of_result (x : any) :
  (exists m, x = AStr (value m) /\ LogLevel_of x = Ok m)
  \/ (exists msg, LogLevel_of x = Raise (ValueError msg)).
Proof.
  unfold LogLevel_of. cbv zeta.
  destruct x as [|s|n|r]; try (right; eexists; reflexivity).
  destruct (find _ _) as [m|] eqn:E; [|right; eexists; reflexivity].
  left. exists m. apply find_some in E. destruct E as [_ E].
  apply String.eqb_eq in E. rewrite E. split; reflexivity.
Qed.

(** X28. The level of a row read back never fails: a row whose level is
    the value of a member of [LogLevel] (what [log] stores) gets that
    member, and every other row, whether its level is missing, null,
    unknown or not a string, gets [INFO]. *)
Theorem row_level_is_read_back (item : dict any) :
  (forall m, get item "level" = Some (AStr (value m)) -> level_of_item item = Ok m)
  /\ ((forall m, get item "level" <> Some (AStr (value m))) ->
      level_of_item item = Ok INFO).
Proof.
  unfold level_of_item. cbv zeta. split.
  - intros m ->. rewrite LogLevel_of_value. reflexivity.
  - intros H. destruct (get item "level") as [x|]; [|reflexivity].
    destruct (LogLevel_of_result x) as [(m & -> & _)|(msg & ->)]; [|reflexivity].
    exfalso. apply (H m). reflexivity.
Qed.

Lemma row_level_is_read_back_witness :
  get [("id", AStr "7"); ("level", AStr (value WARN))] "level" = Some (AStr (value WARN))
  /\ level_of_item [("id", AStr "7"); ("level", AStr (value WARN))] = Ok WARN.
Proof.
  split; [reflexivity|].
  apply (proj1 (row_level_is_read_back [("id", AStr "7"); ("level", AStr (value WARN))])
               WARN eq_refl).
Defined.

(** *** Correlation headers *)

(** X29. The correlation header is written and read under the one key
    [x-correlation-id]: reading the headers that
    [add_correlation_to_headers] returns gives back the identifier that was
    added, never a new one, and every other header keeps its value. *)
Theorem correlation_id_round_trip (now : Z) (hex : string)
    (headers : dict string) (correlation_id : string) :
  get_or_create_correlation_id now hex
    (Some (add_correlation_to_headers headers correlation_id))
  = correlation_id
  /\ forall k, k <> "x-correlation-id" ->
       get (add_correlation_to_headers headers correlation_id) k = get headers k.
Proof.
  unfold get_or_create_correlation_id, add_correlation_to_headers. split.
  - rewrite get_set_same. reflexivity.
  - intros k Hk. apply get_set_other. exact Hk.
Qed.

Lemma correlation_id_round_trip_witness :
  "accept" <> "x-correlation-id"
  /\ get (add_correlation_to_headers [("accept", "text/html")] "corr_1_ab") "accept"
     = Some "text/html".
Proof.
  assert (H : "accept" <> "x-correlation-id") by discriminate.
  split; [exact H|].
  rewrite (proj2 (correlation_id_round_trip 0 EmptyString
                    [("accept", "text/html")] "corr_1_ab") "accept" H).
  reflexivity.
Defined.

(** *** The entry of an API request *)

(** [s.split(sep)] has two items or more when [sep] occurs in [s], so the
    item at index 1 is there. *)
Lemma split_on_second (s : string) :
  PyStr.str_in "/" s = true -> (2 <= length (PyStr.split_on "/" s))%nat.
Proof.
  assert (L : forall t, (1 <= length (PyStr.split_on "/" t))%nat).
  { induction t as [|c t IH]; cbn [PyStr.split_on length]; [lia|].
    destruct (Ascii.eqb c "/"); cbn [length]; [lia|].
    destruct (PyStr.split_on "/" t); cbn [length] in *; lia. }
  induction s as [|c s IH]; [discriminate|].
  cbn [PyStr.str_in String.prefix]. cbn [PyStr.split_on].
  destruct (ascii_dec "/" c) as [<-|N].
  - intros _. cbn [Ascii.eqb Bool.eqb andb length]. specialize (L s). lia.
  - destruct (Ascii.eqb_spec c "/") as [->|_]; [contradiction|].
    intros H. specialize (IH H).
    destruct (PyStr.split_on "/" s); cbn [length] in *; lia.
Qed.

(** X30. The entry of an API request is at level [ERROR] from status 400
    on and at [INFO] below. What the caller passes as context wins over the
    method, endpoint, status code and duration of the call in the context
    of the entry, while the tags always carry the method and the status
    code of the call. *)
Theorem api_request_entry (request_id method endpoint : string) (status_code : Z)
    (duration : any) (user_context : dict any) :
  well_formed user_context ->
  let entry := log_api_request request_id method endpoint status_code duration
                               (Some user_context) in
  level entry = (if 400 <=? status_code then ERROR else INFO)
  /\ (exists c,
        context entry = Some c
        /\ (forall k v, get user_context k = Some v -> get c k = Some v)
        /\ (get user_context "status_code" = None ->
            get c "status_code" = Some (AInt status_code)))
  /\ exists t,
       tags entry = Some t
       /\ get t "method" = Some method
       /\ get t "status_code" = Some (PyStr.str_int status_code).
Proof.
  intros Hwf. cbv zeta. unfold log_api_request. cbn [level context tags].
  split; [|split].
  - rewrite Z.geb_leb. reflexivity.
  - eexists. split; [reflexivity|]. cbn [or_empty_dict]. split.
    + intros k v Hk. rewrite (get_update user_context Hwf), Hk. reflexivity.
    + intros Hk. rewrite (get_update user_context Hwf), Hk. reflexivity.
  - eexists. split; [reflexivity|]. split; reflexivity.
Qed.

Lemma api_request_entry_witness :
  well_formed [("status_code", AStr "hidden")]
  /\ level (log_api_request "r1" "GET" "/api/users" 404 ANone
              (Some [("status_code", AStr "hidden")])) = ERROR.
Proof.
  assert (H : well_formed [("status_code", AStr "hidden")])
    by (repeat constructor; intros []).
  split; [exact H|].
  apply (proj1 (api_request_entry "r1" "GET" "/api/users" 404 ANone
                  [("status_code", AStr "hidden")] H)).
Defined.

End LoggerFacts.
